(** * The user service (index.js): registration, authentication, profile
      CRUD and the delete-with-cascade, as a shallow embedding.

    The Express handlers are embedded as resumptions: a handler runs until it
    awaits a promise (a store query, a bcrypt call, the axios call to the
    properties service), and resumes with the settled outcome.  The remote
    store is an in-memory table that answers the queries the handlers build.
    Console logging is left out, except where evaluating the argument of a
    log call can throw: a property read on a value that may be nullish, a
    template literal that prints a value of the request, of a store reply or
    of the peer's failure.  A template literal that prints again a value the
    same path has printed before cannot throw, and is left out. *)

From Stdlib Require Import ZArith String List Bool Ascii Lia DecimalString.
Import ListNotations.
Local Open Scope string_scope.
Local Open Scope list_scope.

Set Warnings "-register-all".

(** ** JavaScript values *)

Module Js.

(** The values that travel through the handlers: request bodies, store
    replies, library results and response bodies.  Numbers are restricted to
    integers, and a number is kept together with the text ToString gives for
    it (the digits of a small integer, exponent form from 1e21 on): the
    handlers test a number against zero and print it, nothing else.  An
    object is its list of own properties, first binding wins. *)
Inductive jsval : Type :=
| JUndefined
| JNull
| JBool (b : bool)
| JNum (n : Z) (text : string)
| JStr (s : string)
| JArr (l : list jsval)
| JObj (l : list (string * jsval)).

Definition is_empty (s : string) : bool :=
  match s with EmptyString => true | _ => false end.

(** ToBoolean: [!v] in the source is [negb (truthy v)]. *)
Definition truthy (v : jsval) : bool :=
  match v with
  | JUndefined | JNull => false
  | JBool b => b
  | JNum n _ => negb (Z.eqb n 0)
  | JStr s => negb (is_empty s)
  | JArr _ | JObj _ => true
  end.

(** [a || b] on values. *)
Definition js_or (a b : jsval) : jsval := if truthy a then a else b.

Fixpoint assoc (k : string) (l : list (string * jsval)) : option jsval :=
  match l with
  | [] => None
  | (k', v) :: l' => if String.eqb k k' then Some v else assoc k l'
  end.

Definition nullish (v : jsval) : bool :=
  match v with JUndefined | JNull => true | _ => false end.

Definition string_of_Z (n : Z) : string := NilZero.string_of_int (Z.to_int n).

(** A length or a count: a small integer, printed with its digits. *)
Definition number (n : Z) : jsval := JNum n (string_of_Z n).

(** Property read [v.k] where the receiver is known not to be nullish:
    a missing property reads as [undefined]. *)
Definition field (v : jsval) (k : string) : jsval :=
  match v with
  | JObj l => match assoc k l with Some x => x | None => JUndefined end
  | JArr l => if String.eqb k "length" then number (Z.of_nat (List.length l)) else JUndefined
  | JStr s => if String.eqb k "length" then number (Z.of_nat (String.length s)) else JUndefined
  | _ => JUndefined
  end.

(** Property read [v.k]: [None] is the TypeError of reading a property of
    [undefined] or [null]. *)
Definition prop (v : jsval) (k : string) : option jsval :=
  if nullish v then None else Some (field v k).

(** Optional chaining [v?.k]. *)
Definition opt_prop (v : jsval) (k : string) : jsval :=
  if nullish v then JUndefined else field v k.

(** Indexed read [v[0]] on a non-nullish receiver. *)
Definition first (v : jsval) : jsval :=
  match v with
  | JArr (x :: _) => x
  | JStr (String c _) => JStr (String c EmptyString)
  | JObj l => match assoc "0" l with Some x => x | None => JUndefined end
  | _ => JUndefined
  end.

Fixpoint join (sep : string) (l : list string) : string :=
  match l with
  | [] => EmptyString
  | [s] => s
  | s :: l' => (s ++ sep ++ join sep l')%string
  end.

(** The text of a value: what ToString returns, when it returns. *)
Fixpoint to_string (v : jsval) : string :=
  match v with
  | JUndefined => "undefined"
  | JNull => "null"
  | JBool true => "true"
  | JBool false => "false"
  | JNum _ text => text
  | JStr s => s
  | JArr l =>
      join "," (map (fun x => if nullish x then EmptyString else to_string x) l)
  | JObj _ => "[object Object]"
  end.

(** The values ToString returns on.  An object with a property [toString]
    of its own has none: a value that arrived as JSON is not callable, and
    [valueOf], own or inherited, gives no primitive either.  An array prints
    its elements, skipping [undefined] and [null]. *)
Fixpoint printable (v : jsval) : bool :=
  match v with
  | JArr l => forallb (fun x => nullish x || printable x) l
  | JObj l => match assoc "toString" l with Some _ => false | None => true end
  | _ => true
  end.

(** ToString, as a template literal applies it to an interpolated value:
    [None] is the TypeError. *)
Definition ToString (v : jsval) : option string :=
  if printable v then Some (to_string v) else None.

(** Strict equality against a string literal: [v === 'lit']. *)
Definition is_str (v : jsval) (lit : string) : bool :=
  match v with JStr s => String.eqb s lit | _ => false end.

(** [v.length === 0]. *)
Definition length_is_zero (v : jsval) : bool :=
  match field v "length" with JNum n _ => Z.eqb n 0 | _ => false end.

(** [['user', 'admin'].includes(v)]. *)
Definition includes (lits : list string) (v : jsval) : bool :=
  existsb (is_str v) lits.

(** Does the property name [k] occur anywhere inside [v]? *)
Fixpoint mentions (k : string) (v : jsval) : bool :=
  match v with
  | JArr l => existsb (mentions k) l
  | JObj l => existsb (fun kv => String.eqb k (fst kv) || mentions k (snd kv)) l
  | _ => false
  end.

End Js.
Import Js.

(** ** The remote store *)

(** The store is a remote service; what the handlers rely on is modelled
    here: one table, queries that filter the rows, project them on named
    columns, and enforce that ids, usernames and emails are unique.  A
    filter value is compared with the column as text.  The text a handler
    passes to [.or(..)] reaches the store as it is: the store reads it as a
    list of conditions, on whatever columns and values the text names. *)

Module Store.

(** The columns of the [users] table, as the handlers name them. *)
Inductive column : Type :=
| Cid | Cusername | Cemail | Cpassword_hash | Crole | Ccreated_at | Cupdated_at.

Definition col_name (c : column) : string :=
  match c with
  | Cid => "id"
  | Cusername => "username"
  | Cemail => "email"
  | Cpassword_hash => "password_hash"
  | Crole => "role"
  | Ccreated_at => "created_at"
  | Cupdated_at => "updated_at"
  end.

Definition column_eqb (a b : column) : bool :=
  match a, b with
  | Cid, Cid | Cusername, Cusername | Cemail, Cemail
  | Cpassword_hash, Cpassword_hash | Crole, Crole
  | Ccreated_at, Ccreated_at | Cupdated_at, Cupdated_at => true
  | _, _ => false
  end.

(** Modelled from the spec: the [users] table lives in the remote store and
    its schema is not in the repository; a row carries the fields of the
    spec's User record, [updated_at] staying empty until an update sets it. *)
Record Row : Type := mkRow {
  r_id : string;
  r_username : string;
  r_email : string;
  r_password_hash : string;
  r_role : string;
  r_created_at : string;
  r_updated_at : option string
}.

(** What a filter selects: [FAll] is a query without a filter, [FEq] is
    [.eq(col, v)], [FOr] a disjunction as the store reads it out of an
    [.or(..)] text, [FWhere] any other condition on a row that the store's
    filter language can express. *)
Inductive filter : Type :=
| FAll
| FEq (c : column) (v : string)
| FOr (f g : filter)
| FWhere (p : Row -> bool).

(** What the query does: [.select(..)] alone, [.insert([{..}])],
    [.update({..})] or [.delete()]. *)
Inductive verb : Type :=
| Select
| Insert (values : list (column * jsval))
| Update (values : list (column * jsval))
| Delete.

(** One chain [supabase.from('users')...]: the verb, the filter, the
    columns of [.select('a, b, ..')], [.limit(n)] and [.single()]. *)
Record query : Type := mkQuery {
  q_verb : verb;
  q_filter : filter;
  q_columns : list column;
  q_limit : option nat;
  q_single : bool
}.

(** The error object of a failed query, all strings as the client library
    types it. *)
Record pg_error : Type := mkError {
  e_code : string;
  e_message : string;
  e_details : string
}.

Definition error_value (e : pg_error) : jsval :=
  JObj [("code", JStr (e_code e)); ("message", JStr (e_message e));
        ("details", JStr (e_details e))].

Definition ok (data : jsval) : jsval := JObj [("data", data); ("error", JNull)].
Definition failed (e : pg_error) : jsval :=
  JObj [("data", JNull); ("error", error_value e)].

Definition no_rows : pg_error :=
  mkError "PGRST116" "JSON object requested, multiple (or no) rows returned"
          "The result contains 0 or several rows".
Definition unique_violation : pg_error :=
  mkError "23505" "duplicate key value violates unique constraint" EmptyString.
Definition not_null_violation : pg_error :=
  mkError "23502" "null value violates not-null constraint" EmptyString.

Definition cell (r : Row) (c : column) : jsval :=
  match c with
  | Cid => JStr (r_id r)
  | Cusername => JStr (r_username r)
  | Cemail => JStr (r_email r)
  | Cpassword_hash => JStr (r_password_hash r)
  | Crole => JStr (r_role r)
  | Ccreated_at => JStr (r_created_at r)
  | Cupdated_at => match r_updated_at r with Some t => JStr t | None => JNull end
  end.

Fixpoint matches (f : filter) (r : Row) : bool :=
  match f with
  | FAll => true
  | FEq c v => is_str (cell r c) v
  | FOr f g => matches f r || matches g r
  | FWhere p => p r
  end.

Definition project (cols : list column) (r : Row) : jsval :=
  JObj (map (fun c => (col_name c, cell r c)) cols).

Definition limited (n : option nat) (rows : list Row) : list Row :=
  match n with Some k => firstn k rows | None => rows end.

(** What a payload gives for a column, as the text the store keeps. *)
Fixpoint given (c : column) (values : list (column * jsval)) : option string :=
  match values with
  | [] => None
  | (c', v) :: rest =>
      if column_eqb c c' then (if nullish v then None else Some (to_string v))
      else given c rest
  end.

Definition or_default (o : option string) (d : string) : string :=
  match o with Some s => s | None => d end.

(** The row an insert creates: the three credentials are mandatory, the
    store fills in the id, the role ['user'] and the creation time unless
    the payload gives them. *)
Definition new_row (values : list (column * jsval)) (uuid now : string) : option Row :=
  match given Cusername values, given Cemail values, given Cpassword_hash values with
  | Some u, Some e, Some h =>
      Some (mkRow (or_default (given Cid values) uuid) u e h
                  (or_default (given Crole values) "user")
                  (or_default (given Ccreated_at values) now)
                  (given Cupdated_at values))
  | _, _, _ => None
  end.

Definition set_cell (r : Row) (cv : column * jsval) : option Row :=
  let (c, v) := cv in
  let s := to_string v in
  match c with
  | Cupdated_at =>
      Some (mkRow (r_id r) (r_username r) (r_email r) (r_password_hash r) (r_role r)
                  (r_created_at r) (if nullish v then None else Some s))
  | _ =>
      if nullish v then None else
      Some match c with
           | Cid => mkRow s (r_username r) (r_email r) (r_password_hash r) (r_role r) (r_created_at r) (r_updated_at r)
           | Cusername => mkRow (r_id r) s (r_email r) (r_password_hash r) (r_role r) (r_created_at r) (r_updated_at r)
           | Cemail => mkRow (r_id r) (r_username r) s (r_password_hash r) (r_role r) (r_created_at r) (r_updated_at r)
           | Cpassword_hash => mkRow (r_id r) (r_username r) (r_email r) s (r_role r) (r_created_at r) (r_updated_at r)
           | Crole => mkRow (r_id r) (r_username r) (r_email r) (r_password_hash r) s (r_created_at r) (r_updated_at r)
           | Ccreated_at => mkRow (r_id r) (r_username r) (r_email r) (r_password_hash r) (r_role r) s (r_updated_at r)
           | Cupdated_at => r
           end
  end.

Fixpoint patch (values : list (column * jsval)) (r : Row) : option Row :=
  match values with
  | [] => Some r
  | cv :: rest =>
      match set_cell r cv with
      | Some r' => patch rest r'
      | None => None
      end
  end.

(** A row that shares its id, username or email with some row of [tbl]. *)
Definition collides (tbl : list Row) (r : Row) : bool :=
  existsb (fun x => String.eqb (r_id x) (r_id r)
                    || String.eqb (r_username x) (r_username r)
                    || String.eqb (r_email x) (r_email r)) tbl.

(** Patch the rows that match, in place: the table afterwards and the rows
    that were updated; [None] when a patched row violates a not-null
    constraint. *)
Fixpoint patch_all (f : filter) (values : list (column * jsval)) (tbl : list Row)
  : option (list Row * list Row) :=
  match tbl with
  | [] => Some ([], [])
  | r :: rest =>
      match patch_all f values rest with
      | None => None
      | Some (rest', touched) =>
          if matches f r then
            match patch values r with
            | Some r' => Some (r' :: rest', r' :: touched)
            | None => None
            end
          else Some (r :: rest', touched)
      end
  end.

Definition occurrences (p : Row -> bool) (tbl : list Row) : nat :=
  List.length (List.filter p tbl).

(** After the update, a touched row whose id, username or email now occurs
    more than once. *)
Definition clashes (f : filter) (values : list (column * jsval)) (tbl' : list Row) (r : Row) : bool :=
  matches f r &&
  match patch values r with
  | Some r' =>
      (1 <? occurrences (fun x => String.eqb (r_id x) (r_id r')) tbl')%nat
      || (1 <? occurrences (fun x => String.eqb (r_username x) (r_username r')) tbl')%nat
      || (1 <? occurrences (fun x => String.eqb (r_email x) (r_email r')) tbl')%nat
  | None => false
  end.

(** The store answers a query on the table: the reply [{data, error}] and
    the table afterwards.  [uuid] and [now] are the id and the time the
    store would give a new row. *)
Definition answer (q : query) (uuid now : string) (tbl : list Row) : jsval * list Row :=
  match q_verb q with
  | Select =>
      let rows := limited (q_limit q) (List.filter (matches (q_filter q)) tbl) in
      if q_single q then
        match rows with
        | [r] => (ok (project (q_columns q) r), tbl)
        | _ => (failed no_rows, tbl)
        end
      else (ok (JArr (map (project (q_columns q)) rows)), tbl)
  | Insert values =>
      match new_row values uuid now with
      | None => (failed not_null_violation, tbl)
      | Some r =>
          if collides tbl r then (failed unique_violation, tbl)
          else (ok (JArr [project (q_columns q) r]), tbl ++ [r])
      end
  | Update values =>
      match patch_all (q_filter q) values tbl with
      | None => (failed not_null_violation, tbl)
      | Some (tbl', touched) =>
          if existsb (clashes (q_filter q) values tbl') tbl
          then (failed unique_violation, tbl)
          else (ok (JArr (map (project (q_columns q)) touched)), tbl')
      end
  | Delete =>
      (ok (JArr (map (project (q_columns q)) (List.filter (matches (q_filter q)) tbl))),
       List.filter (fun r => negb (matches (q_filter q) r)) tbl)
  end.

(** *** The text of an [.or(..)] filter

    The client library sends the text as it is, and the store splits it at
    the commas into conditions [column.operator.value].  The part of that
    language read here: conditions with the operator [eq] on a column that
    holds text (username, email, role, password_hash), the value being plain
    text: letters, digits and the characters [@ . _ -], which the filter
    language gives no meaning of their own inside a value. *)

Definition plain_char (c : ascii) : bool :=
  let n := nat_of_ascii c in
  ((48 <=? n) && (n <=? 57) || (65 <=? n) && (n <=? 90) || (97 <=? n) && (n <=? 122)
   || (n =? 64) || (n =? 46) || (n =? 95) || (n =? 45))%nat.

Fixpoint all_plain (s : string) : bool :=
  match s with
  | EmptyString => true
  | String c s' => plain_char c && all_plain s'
  end.

Definition plain (s : string) : bool := negb (is_empty s) && all_plain s.

(** The text between the commas. *)
Fixpoint pieces (s : string) : list string :=
  match s with
  | EmptyString => [EmptyString]
  | String c s' =>
      if Ascii.eqb c "," then EmptyString :: pieces s'
      else match pieces s' with
           | p :: ps => String c p :: ps
           | [] => [String c EmptyString]
           end
  end.

(** The text before the first dot, and the text after it. *)
Fixpoint upto_dot (s : string) : option (string * string) :=
  match s with
  | EmptyString => None
  | String c s' =>
      if Ascii.eqb c "." then Some (EmptyString, s')
      else match upto_dot s' with
           | Some (a, b) => Some (String c a, b)
           | None => None
           end
  end.

Definition column_named (s : string) : option column :=
  List.find (fun c => String.eqb (col_name c) s)
            [Cusername; Cemail; Cpassword_hash; Crole].

Definition condition (piece : string) : option filter :=
  match upto_dot piece with
  | Some (col, rest) =>
      match column_named col, upto_dot rest with
      | Some c, Some (op, value) =>
          if String.eqb op "eq" && plain value then Some (FEq c value) else None
      | _, _ => None
      end
  | None => None
  end.

Fixpoint conditions (ps : list string) : option (list filter) :=
  match ps with
  | [] => Some []
  | p :: rest =>
      match condition p, conditions rest with
      | Some c, Some cs => Some (c :: cs)
      | _, _ => None
      end
  end.

Fixpoint disjunction (c : filter) (rest : list filter) : filter :=
  match rest with
  | [] => c
  | d :: rest' => FOr c (disjunction d rest')
  end.

(** The filter a text of that part stands for; [None] for any other text. *)
Definition or_fragment (text : string) : option filter :=
  match conditions (pieces text) with
  | Some (c :: rest) => Some (disjunction c rest)
  | _ => None
  end.

Definition parse_error : pg_error :=
  mkError "PGRST100" "failed to parse logic tree" EmptyString.

End Store.
Import Store.

(** ** Handlers as resumptions *)

Module Handler.

(** The promises a handler awaits.  [SupabaseOr text columns limit] is the
    chain [supabase.from('users').select(columns).or(text)], with
    [.limit(n)] when there is one. *)
Inductive call : Type :=
| Supabase (q : query)
| SupabaseOr (text : string) (columns : list column) (limit : option nat)
| BcryptHash (data : jsval) (rounds : nat)
| BcryptCompare (data hash : jsval)
| AxiosDelete (url : string).

(** How an awaited promise settles. *)
Inductive outcome : Type :=
| Resolved (v : jsval)
| Rejected (e : jsval).

(** A computation that returns, throws, or awaits a call and resumes with
    its outcome. *)
Inductive prog (A : Type) : Type :=
| Ret (a : A)
| Throw (e : jsval)
| Await (c : call) (k : outcome -> prog A).
Arguments Ret {A} a.
Arguments Throw {A} e.
Arguments Await {A} c k.

Fixpoint bind {A B : Type} (p : prog A) (f : A -> prog B) : prog B :=
  match p with
  | Ret a => f a
  | Throw e => Throw e
  | Await c k => Await c (fun o => bind (k o) f)
  end.

Notation "x <- p ;; q" := (bind p (fun x => q))
  (at level 61, p at next level, right associativity).

(** [try { p } catch (e) { h e }]: what [h] throws is not caught here. *)
Fixpoint try_catch {A : Type} (p : prog A) (h : jsval -> prog A) : prog A :=
  match p with
  | Ret a => Ret a
  | Throw e => h e
  | Await c k => Await c (fun o => try_catch (k o) h)
  end.

(** [await c]: a rejection is thrown at the await. *)
Definition await (c : call) : prog jsval :=
  Await c (fun o => match o with Resolved v => Ret v | Rejected e => Throw e end).

Definition type_error : jsval :=
  JObj [("name", JStr "TypeError");
        ("message", JStr "Cannot read properties of undefined")].

Definition cannot_convert : jsval :=
  JObj [("name", JStr "TypeError");
        ("message", JStr "Cannot convert object to primitive value")].

(** [const { .. } = v]: destructuring a nullish value throws. *)
Definition destructure (v : jsval) : prog unit :=
  if nullish v then Throw type_error else Ret tt.

(** [`${v}`]: a template literal applies ToString to the value it prints. *)
Definition interpolate (v : jsval) : prog string :=
  match ToString v with Some s => Ret s | None => Throw cannot_convert end.

(** [v.k], throwing on a nullish receiver. *)
Definition get (v : jsval) (k : string) : prog jsval :=
  match prop v k with Some x => Ret x | None => Throw type_error end.

(** What [res.status(..).json(..)] or [res.status(..).send()] sent. *)
Record response : Type := mkResponse {
  status : nat;
  body : option jsval
}.

Definition json (st : nat) (v : jsval) : prog response := Ret (mkResponse st (Some v)).
Definition send (st : nat) : prog response := Ret (mkResponse st None).
Definition error_body (msg : string) : jsval := JObj [("error", JStr msg)].

(** [v.length > 0]. *)
Definition length_positive (v : jsval) : bool :=
  match field v "length" with JNum n _ => Z.ltb 0 n | _ => false end.

Definition SALT_ROUNDS : nat := 10.

Definition profile_columns : list column :=
  [Cid; Cusername; Cemail; Ccreated_at; Crole].

(** The text [username.eq.<u>,email.eq.<e>]. *)
Definition or_text (u e : string) : string :=
  ("username.eq." ++ u ++ ",email.eq." ++ e)%string.

(** [`username.eq.${a},email.eq.${b}`]. *)
Definition username_or_email (a b : jsval) : prog string :=
  u <- interpolate a ;;
  e <- interpolate b ;;
  Ret (or_text u e).

(** POST /register *)
Definition register (req_body : jsval) : prog response :=
  _ <- destructure req_body ;;
  let username := field req_body "username" in
  let email := field req_body "email" in
  let password := field req_body "password" in
  if negb (truthy username) || negb (truthy email) || negb (truthy password) then
    json 400 (error_body "Username, email, and password are required.")
  else
    try_catch
      (text <- username_or_email username email ;;
       reply <- await (SupabaseOr text [Cid] None) ;;
       existingUsers <- get reply "data" ;;
       checkError <- get reply "error" ;;
       if truthy checkError then
         json 500 (error_body "Database error checking user")
       else if truthy existingUsers && length_positive existingUsers then
         json 409 (error_body "Username or email already exists")
       else
         passwordHash <- await (BcryptHash password SALT_ROUNDS) ;;
         reply <- await (Supabase (mkQuery
                     (Insert [(Cusername, username); (Cemail, email);
                              (Cpassword_hash, passwordHash)])
                     FAll profile_columns None false)) ;;
         data <- get reply "data" ;;
         insertError <- get reply "error" ;;
         if truthy insertError then
           json 500 (error_body "Failed to register user")
         else if negb (truthy data) || length_is_zero data then
           json 500 (error_body "Failed to register user (no data)")
         else
           created_username <- get (first data) "username" ;;
           _ <- interpolate created_username ;;
           _ <- interpolate (field (first data) "id") ;;
           json 201 (first data))
      (fun _ => json 500 (error_body "Internal server error during registration")).

(** GET /profiles *)
Definition list_profiles : prog response :=
  try_catch
    (reply <- await (Supabase (mkQuery Select FAll profile_columns None false)) ;;
     data <- get reply "data" ;;
     error <- get reply "error" ;;
     if truthy error then
       json 500 (error_body "Database error fetching profiles")
     else
       _ <- interpolate (js_or (opt_prop data "length") (number 0)) ;;
       json 200 (js_or data (JArr [])))
    (fun _ => json 500 (error_body "Internal server error fetching profiles")).

(** POST /authenticate *)
Definition authenticate (req_body : jsval) : prog response :=
  _ <- destructure req_body ;;
  let identifier := field req_body "identifier" in
  let password := field req_body "password" in
  if negb (truthy identifier) || negb (truthy password) then
    json 400 (error_body "Identifier (username or email) and password are required")
  else
    try_catch
      (text <- username_or_email identifier identifier ;;
       reply <- await (SupabaseOr text [Cid; Cusername; Cemail; Cpassword_hash; Crole]
                                  (Some 1%nat)) ;;
       users <- get reply "data" ;;
       error <- get reply "error" ;;
       if truthy error then
         json 500 (error_body "Database error finding user")
       else if negb (truthy users) || length_is_zero users then
         json 401 (error_body "Invalid credentials")
       else
         let user := first users in
         password_hash <- get user "password_hash" ;;
         passwordMatch <- await (BcryptCompare password password_hash) ;;
         if negb (truthy passwordMatch) then
           _ <- interpolate (field user "username") ;;
           json 401 (error_body "Invalid credentials")
         else
           _ <- interpolate (field user "username") ;;
           json 200 (JObj [("message", JStr "Authentication successful");
                           ("userId", field user "id");
                           ("username", field user "username");
                           ("email", field user "email");
                           ("role", field user "role")]))
      (fun _ => json 500 (error_body "Internal server error during authentication")).

(** GET /profiles/:userId *)
Definition get_profile (userId : string) : prog response :=
  try_catch
    (reply <- await (Supabase (mkQuery Select (FEq Cid userId) profile_columns None true)) ;;
     data <- get reply "data" ;;
     error <- get reply "error" ;;
     if truthy error then
       if is_str (field error "code") "PGRST116" then
         json 404 (error_body "User not found")
       else
         json 500 (error_body "Database error fetching profile")
     else if negb (truthy data) then
       json 404 (error_body "User not found")
     else
       json 200 data)
    (fun _ => json 500 (error_body "Internal server error fetching profile")).

(** The text [Invalid role value. Must be "user" or "admin".] *)
Definition invalid_role_message : string :=
  let q := String (ascii_of_nat 34) EmptyString in
  ("Invalid role value. Must be " ++ q ++ "user" ++ q ++ " or " ++ q ++ "admin" ++ q ++ ".")%string.

(** PUT /profiles/:userId; [now] is [new Date().toISOString()]. *)
Definition update_profile (now : string) (userId : string) (req_body : jsval)
  : prog response :=
  _ <- destructure req_body ;;
  let username := field req_body "username" in
  let email := field req_body "email" in
  let role := field req_body "role" in
  if negb (truthy username) || negb (truthy email) || negb (truthy role) then
    json 400 (error_body "Username, email, and role are required for update")
  else if negb (includes ["user"; "admin"] role) then
    _ <- interpolate role ;;
    json 400 (error_body invalid_role_message)
  else
    try_catch
      (reply <- await (Supabase (mkQuery
                  (Update [(Cusername, username); (Cemail, email); (Crole, role);
                           (Cupdated_at, JStr now)])
                  (FEq Cid userId) profile_columns None false)) ;;
       data <- get reply "data" ;;
       error <- get reply "error" ;;
       if truthy error then
         if is_str (field error "code") "PGRST116" then
           json 404 (error_body "User not found")
         else if is_str (field error "code") "23505" then
           json 409 (error_body "Username or email already exists")
         else
           json 500 (error_body "Database error updating user")
       else if negb (truthy data) || length_is_zero data then
         json 404 (error_body "User not found")
       else
         json 200 (first data))
      (fun _ => json 500 (error_body "Internal server error during user update")).

(** DELETE /profiles/:userId; [propertiesServiceUrl] is
    [process.env.PROPERTIES_SERVICE_URL]: a string, which prints as it is,
    or [undefined] when not set. *)
Definition delete_profile (propertiesServiceUrl : jsval) (userId : string)
  : prog response :=
  try_catch
    (reply <- await (Supabase (mkQuery Delete (FEq Cid userId) [Cid] None false)) ;;
     deletedUsers <- get reply "data" ;;
     userDeleteError <- get reply "error" ;;
     if truthy userDeleteError then
       if is_str (field userDeleteError "code") "PGRST116"
          || (truthy deletedUsers && length_is_zero deletedUsers) then
         json 404 (error_body "User not found")
       else
         json 500 (JObj [("error", js_or (field userDeleteError "message")
                                         (JStr "Database error deleting user"))])
     else if negb (truthy deletedUsers) || length_is_zero deletedUsers then
       json 404 (error_body "User not found")
     else if truthy propertiesServiceUrl then
       let propertiesDeleteEndpoint :=
         (to_string propertiesServiceUrl ++ "/properties/user/" ++ userId)%string in
       try_catch
         (_ <- await (AxiosDelete propertiesDeleteEndpoint) ;;
          send 204)
         (fun propertiesError =>
            _ <- get propertiesError "message" ;;
            let errorDetails :=
              js_or (opt_prop (opt_prop (field propertiesError "response") "data") "error")
                    (field propertiesError "message") in
            detail <- interpolate errorDetails ;;
            json 500 (error_body ("Failed to delete associated properties: "
                                  ++ detail)%string))
     else
       send 204)
    (fun _ => json 500 (error_body "Internal server error during user deletion process")).

End Handler.
Import Handler.

(** ** Running handlers against the store, the libraries and the peer *)

Module World.

(** What the store does with the next query: execute it (giving a new row
    the id [uuid] and the time [now]), answer with an error of its own and
    leave the table alone, or let the request promise reject.  [Normal]
    reads the text of an [.or(..)] filter as [or_fragment] does, and answers
    a text [or_fragment] does not read with a parse error; [Reads f] covers
    whatever else the store may make of a text: it executes the query with
    the filter [f]. *)
Inductive store_choice : Type :=
| Normal (uuid now : string)
| Reads (f : filter) (uuid now : string)
| StoreFails (e : pg_error)
| Rejects (e : jsval).

(** The reply to [.select(columns).or(text)]: the rows are those of the
    filter the store read out of the text. *)
Definition selected (f : filter) (columns : list column) (limit : option nat)
           (uuid now : string) (tbl : list Row) : jsval :=
  fst (answer (mkQuery Select f columns limit false) uuid now tbl).

(** The table, what the store and the libraries (bcrypt, axios and the peer
    behind it) will do with the coming calls, and the calls issued so far,
    oldest first. *)
Record world : Type := mkWorld {
  table : list Row;
  store_env : list store_choice;
  lib_env : list outcome;
  log : list call
}.

(** One call settles; [None] when the environment has no choice left. *)
Definition perform (c : call) (w : world) : option (outcome * world) :=
  match c with
  | Supabase q =>
      match store_env w with
      | [] => None
      | ch :: rest =>
          let '(o, tbl') :=
            match ch with
            | Normal uuid now | Reads _ uuid now =>
                let '(v, t) := answer q uuid now (table w) in (Resolved v, t)
            | StoreFails e => (Resolved (failed e), table w)
            | Rejects e => (Rejected e, table w)
            end in
          Some (o, mkWorld tbl' rest (lib_env w) (log w ++ [c]))
      end
  | SupabaseOr text columns limit =>
      match store_env w with
      | [] => None
      | ch :: rest =>
          let o :=
            match ch with
            | Normal uuid now =>
                match or_fragment text with
                | Some f => Resolved (selected f columns limit uuid now (table w))
                | None => Resolved (failed parse_error)
                end
            | Reads f uuid now => Resolved (selected f columns limit uuid now (table w))
            | StoreFails e => Resolved (failed e)
            | Rejects e => Rejected e
            end in
          Some (o, mkWorld (table w) rest (lib_env w) (log w ++ [c]))
      end
  | _ =>
      match lib_env w with
      | [] => None
      | o :: rest => Some (o, mkWorld (table w) (store_env w) rest (log w ++ [c]))
      end
  end.

Inductive result (A : Type) : Type :=
| Returned (a : A)
| Uncaught (e : jsval).
Arguments Returned {A} a.
Arguments Uncaught {A} e.

(** A handler runs alone, from its first await to its response. *)
Fixpoint run {A : Type} (p : prog A) (w : world) : option (result A * world) :=
  match p with
  | Ret a => Some (Returned a, w)
  | Throw e => Some (Uncaught e, w)
  | Await c k =>
      match perform c w with
      | Some (o, w') => run (k o) w'
      | None => None
      end
  end.

(** Concurrent requests: each is suspended at an await or finished; a
    schedule names, step by step, the request whose awaited call settles
    next. *)
Fixpoint advance {A : Type} (i : nat) (threads : list (prog A)) (w : world)
  : option (list (prog A) * world) :=
  match threads, i with
  | [], _ => None
  | Await c k :: rest, O =>
      match perform c w with
      | Some (o, w') => Some (k o :: rest, w')
      | None => None
      end
  | _ :: _, O => None
  | p :: rest, S j =>
      match advance j rest w with
      | Some (rest', w') => Some (p :: rest', w')
      | None => None
      end
  end.

Fixpoint interleave {A : Type} (schedule : list nat) (threads : list (prog A)) (w : world)
  : option (list (prog A) * world) :=
  match schedule with
  | [] => Some (threads, w)
  | i :: rest =>
      match advance i threads w with
      | Some (threads', w') => interleave rest threads' w'
      | None => None
      end
  end.

(** Requests served one after the other. *)
Fixpoint serve {A : Type} (requests : list (prog A)) (w : world)
  : option (list (result A) * world) :=
  match requests with
  | [] => Some ([], w)
  | p :: rest =>
      match run p w with
      | Some (r, w') =>
          match serve rest w' with
          | Some (rs, w'') => Some (r :: rs, w'')
          | None => None
          end
      | None => None
      end
  end.

End World.
Import World.

(** The routes of the Express app. *)
Inductive request : Type :=
| PostRegister (req_body : jsval)
| GetProfiles
| PostAuthenticate (req_body : jsval)
| GetProfile (userId : string)
| PutProfile (now : string) (userId : string) (req_body : jsval)
| DeleteProfile (userId : string).

Definition app (propertiesServiceUrl : jsval) (req : request) : prog response :=
  match req with
  | PostRegister b => register b
  | GetProfiles => list_profiles
  | PostAuthenticate b => authenticate b
  | GetProfile userId => get_profile userId
  | PutProfile now userId b => update_profile now userId b
  | DeleteProfile userId => delete_profile propertiesServiceUrl userId
  end.

(** ** Notions used in the statements *)

Definition delete_query (userId : string) : query :=
  mkQuery Delete (FEq Cid userId) [Cid] None false.

Definition properties_endpoint (propertiesServiceUrl : jsval) (userId : string) : string :=
  (to_string propertiesServiceUrl ++ "/properties/user/" ++ userId)%string.

(** The [error] member of the body the peer answered with; [undefined] when
    the peer gave no answer or its body has no such member. *)
Definition peer_reported_error (propertiesError : jsval) : jsval :=
  opt_prop (opt_prop (field propertiesError "response") "data") "error".

Definition rows_without (userId : string) (tbl : list Row) : list Row :=
  List.filter (fun r => negb (matches (FEq Cid userId) r)) tbl.

(** The two register requests of the race below. *)
Definition race_first : jsval :=
  JObj [("username", JStr "existinguser"); ("email", JStr "existing@example.com");
        ("password", JStr "password")].
Definition race_second : jsval :=
  JObj [("username", JStr "existinguser"); ("email", JStr "another@example.com");
        ("password", JStr "password2")].
Definition race_world : world :=
  mkWorld []
          [Normal "c1" "t1"; Normal "c2" "t2"; Normal "id-1" "t3"; Normal "id-2" "t4"]
          [Resolved (JStr "$2b$10$first"); Resolved (JStr "$2b$10$second")]
          [].

(** The insert Register issues names three columns only. *)
Definition register_insert_shape (c : call) : Prop :=
  forall q values, c = Supabase q -> q_verb q = Insert values ->
                   map fst values = [Cusername; Cemail; Cpassword_hash].

(** A register request that asks for the admin role. *)
Definition admin_request : jsval :=
  JObj [("username", JStr "mallory"); ("email", JStr "mallory@example.com");
        ("password", JStr "pw"); ("role", JStr "admin")].
Definition admin_world : world :=
  mkWorld [] [Normal "c1" "t1"; Normal "id-9" "t2"] [Resolved (JStr "$2b$10$m")] [].

(** How a row of the table stands after an update of [userId]: its id,
    password hash and creation time are the old ones; a row with another id
    is the old row; the row with that id carries the new username, email,
    role and update time. *)
Definition update_frame (userId : string) (req_body : jsval) (now : string)
           (old new : Row) : Prop :=
  r_id new = r_id old
  /\ r_password_hash new = r_password_hash old
  /\ r_created_at new = r_created_at old
  /\ (r_id old <> userId -> new = old)
  /\ (r_id old = userId ->
      r_username new = to_string (field req_body "username")
      /\ r_email new = to_string (field req_body "email")
      /\ JStr (r_role new) = field req_body "role"
      /\ r_updated_at new = Some now).

Definition promote_request : jsval :=
  JObj [("username", JStr "updated_user"); ("email", JStr "updated@example.com");
        ("role", JStr "admin")].
Definition two_users : world :=
  mkWorld [mkRow "id1" "updateuser" "update@example.com" "$2b$10$h" "user" "t0" None;
           mkRow "id2" "otheruser" "other@example.com" "$2b$10$o" "user" "t1" None]
          [Normal "c1" "t2"] [] [].

Definition login_request : jsval :=
  JObj [("identifier", JStr "authuser"); ("password", JStr "securepassword")].
Definition one_user : world :=
  mkWorld [mkRow "id1" "authuser" "auth@example.com" "$2b$10$stored" "user" "t0" None]
          [Normal "c1" "t1"] [Resolved (JBool true)] [].

(** The scenario of the specification: register, register again with the
    same username, log in, log in with a wrong password, update with an
    unknown role, delete, and get; the peer is configured and unreachable. *)
Definition scenario : list (prog response) :=
  [ register (JObj [("username", JStr "a"); ("email", JStr "a@x.com");
                    ("password", JStr "pw")]);
    register (JObj [("username", JStr "a"); ("email", JStr "b@x.com");
                    ("password", JStr "pw")]);
    authenticate (JObj [("identifier", JStr "a"); ("password", JStr "pw")]);
    authenticate (JObj [("identifier", JStr "a"); ("password", JStr "wrong")]);
    update_profile "t9" "id-a" (JObj [("username", JStr "a"); ("email", JStr "a@x.com");
                                      ("role", JStr "superadmin")]);
    delete_profile (JStr "http://localhost:9999") "id-a";
    get_profile "id-a" ].
Definition scenario_world : world :=
  mkWorld []
          [Normal "c1" "t1"; Normal "id-a" "t2"; Normal "c3" "t3"; Normal "c4" "t4";
           Normal "c5" "t5"; Normal "c6" "t6"; Normal "c7" "t7"]
          [Resolved (JStr "$2b$10$a"); Resolved (JBool true); Resolved (JBool false);
           Rejected (JObj [("message", JStr "connect ECONNREFUSED 127.0.0.1:9999")])]
          [].

(** The body of a successful login, for the row that was found. *)
Definition login_of (r : Row) : jsval :=
  JObj [("message", JStr "Authentication successful");
        ("userId", JStr (r_id r)); ("username", JStr (r_username r));
        ("email", JStr (r_email r)); ("role", JStr (r_role r))].

(** The columns authenticate selects. *)
Definition login_columns : list column :=
  [Cid; Cusername; Cemail; Cpassword_hash; Crole].

(** A row that has [u] as its username or [e] as its email. *)
Definition named (u e : string) (r : Row) : bool :=
  String.eqb (r_username r) u || String.eqb (r_email r) e.

(** The profile of a row as the routes send it. *)
Definition profile_of (r : Row) : jsval :=
  JObj [("id", JStr (r_id r)); ("username", JStr (r_username r));
        ("email", JStr (r_email r)); ("created_at", JStr (r_created_at r));
        ("role", JStr (r_role r))].

(** The messages the source spells out. *)
Definition fixed_messages : list string :=
  [ "Username, email, and password are required.";
    "Database error checking user";
    "Username or email already exists";
    "Failed to register user";
    "Failed to register user (no data)";
    "Internal server error during registration";
    "Database error fetching profiles";
    "Internal server error fetching profiles";
    "Identifier (username or email) and password are required";
    "Database error finding user";
    "Invalid credentials";
    "Internal server error during authentication";
    "User not found";
    "Database error fetching profile";
    "Internal server error fetching profile";
    "Username, email, and role are required for update";
    invalid_role_message;
    "Database error updating user";
    "Internal server error during user update";
    "Database error deleting user";
    "Internal server error during user deletion process" ].

(** Where the message of an error body comes from: the source spells it
    out, or it is the message of an error the store reported, or it is the
    detail of a failure of the peer call behind the words of the source. *)
Definition message_source (w : world) (msg : string) : Prop :=
  In msg fixed_messages
  \/ (exists e, In (StoreFails e) (store_env w) /\ msg = e_message e)
  \/ (exists e detail,
        In (Rejected e) (lib_env w)
        /\ ToString (js_or (peer_reported_error e) (field e "message")) = Some detail
        /\ msg = ("Failed to delete associated properties: " ++ detail)%string).

(** What a response body is made of, [w] being the world before the
    request and [w'] the world after it: an error message; the profile of a
    row of the table; the profiles of all rows; the login body of a row.
    Profile and login body are built from the id, the username, the email,
    the creation time and the role of the row. *)
Definition public_body (w w' : world) (b : jsval) : Prop :=
  (exists msg, b = error_body msg /\ message_source w msg)
  \/ (exists r, In r (table w') /\ b = profile_of r)
  \/ b = JArr (map profile_of (table w))
  \/ (exists r, In r (table w) /\ b = login_of r).

Definition answers_publicly (p : prog response) : Prop :=
  forall w, match run p w with
            | Some (Returned resp, w') =>
                match body resp with
                | Some b => public_body w w' b
                | None => True
                end
            | _ => True
            end.

(** A value that ToString cannot print: the JSON object [{"toString": 1}]. *)
Definition unprintable : jsval := JObj [("toString", number 1)].

(** A login whose identifier names no user but carries a condition of its
    own, on a table with one administrator. *)
Definition injected_login : jsval :=
  JObj [("identifier", JStr "x,role.eq.admin"); ("password", JStr "pw")].
Definition administrator : Row :=
  mkRow "id-adm" "root" "root@example.com" "$2b$10$adm" "admin" "t0" None.
Definition one_admin : world :=
  mkWorld [administrator] [Normal "c1" "t1"] [Resolved (JBool true)] [].

(** A registration whose email carries a condition of its own, on a table
    with one user who has neither that username nor that email. *)
Definition injected_registration : jsval :=
  JObj [("username", JStr "fresh"); ("email", JStr "z,role.eq.user");
        ("password", JStr "pw")].
Definition bob : Row :=
  mkRow "id0" "bob" "bob@example.com" "$2b$10$b" "user" "t0" None.
Definition one_bob : world :=
  mkWorld [bob] [Normal "c1" "t1"; Normal "id1" "t2"] [Resolved (JStr "$2b$10$f")] [].

(** The failure of a peer call that was answered 500 with a body whose
    [error] member is not a string. *)
Definition peer_failure_object : jsval :=
  JObj [("message", JStr "Request failed with status code 500");
        ("response", JObj [("status", number 500);
                           ("data", JObj [("error", unprintable)])])].

(** An update that names a role which is neither ['user'] nor ['admin'] and
    cannot be printed. *)
Definition unprintable_role_request : jsval :=
  JObj [("username", JStr "updated_user"); ("email", JStr "updated@example.com");
        ("role", unprintable)].

(** ** Notions used for the behaviour of the routes *)

(** DELETE /profiles/:userId as src/app.js has it: the row is deleted and
    no other service is called. *)
Definition delete_profile_app_js (userId : string) : prog response :=
  try_catch
    (reply <- await (Supabase (mkQuery Delete (FEq Cid userId) [Cid] None false)) ;;
     data <- get reply "data" ;;
     error <- get reply "error" ;;
     if truthy error then
       json 500 (error_body "Database error deleting user")
     else if negb (truthy data) || length_is_zero data then
       json 404 (error_body "User not found")
     else
       send 204)
    (fun _ => json 500 (error_body "Internal server error during user deletion")).

(** Every call the computation can come to issue, whatever the outcomes it
    is resumed with, satisfies [P]. *)
Inductive issues {A : Type} (P : call -> Prop) : prog A -> Prop :=
| issues_ret (a : A) : issues P (Ret a)
| issues_throw (e : jsval) : issues P (Throw e)
| issues_await (c : call) (k : outcome -> prog A) :
    P c -> (forall o, issues P (k o)) -> issues P (Await c k).

(** A computation from which no exception escapes. *)
Inductive contained {A : Type} : prog A -> Prop :=
| contained_ret (a : A) : contained (Ret a)
| contained_await (c : call) (k : outcome -> prog A) :
    (forall o, contained (k o)) -> contained (Await c k).

Definition is_store_call (c : call) : bool :=
  match c with Supabase _ | SupabaseOr _ _ _ => true | _ => false end.

(** A computation that awaits at most [s] store queries and [l] library
    calls, whatever the outcomes it is resumed with. *)
Inductive within {A : Type} : nat -> nat -> prog A -> Prop :=
| within_ret (s l : nat) (a : A) : within s l (Ret a)
| within_throw (s l : nat) (e : jsval) : within s l (Throw e)
| within_store (s l : nat) (c : call) (k : outcome -> prog A) :
    is_store_call c = true -> (forall o, within s l (k o)) -> within (S s) l (Await c k)
| within_lib (s l : nat) (c : call) (k : outcome -> prog A) :
    is_store_call c = false -> (forall o, within s l (k o)) -> within s (S l) (Await c k).

(** The requests that throw before their handler enters its [try] block:
    a POST or PUT without a body, and a PUT whose role, present and neither
    ['user'] nor ['admin'], cannot be printed into the log. *)
Definition escapes (req : request) : bool :=
  match req with
  | PostRegister b | PostAuthenticate b => nullish b
  | PutProfile _ _ b =>
      nullish b
      || (truthy (field b "username") && truthy (field b "email")
          && truthy (field b "role")
          && negb (includes ["user"; "admin"] (field b "role"))
          && negb (printable (field b "role")))
  | _ => false
  end.

(** A call that leaves the table alone: a library call or a select. *)
Definition reads_only (c : call) : Prop :=
  match c with
  | Supabase q => q_verb q = Select
  | _ => True
  end.

(** A call to the properties service made on behalf of [req]: only a
    delete makes one, to the endpoint of the user it deletes. *)
Definition peer_call_of (propertiesServiceUrl : jsval) (req : request) (c : call) : Prop :=
  forall endpoint, c = AxiosDelete endpoint ->
    exists userId, req = DeleteProfile userId
                   /\ truthy propertiesServiceUrl = true
                   /\ endpoint = properties_endpoint propertiesServiceUrl userId.

Definition valid_role (r : Row) : Prop := r_role r = "user" \/ r_role r = "admin".

(** A call that writes no role other than ['user'] and ['admin']. *)
Definition role_values_valid (values : list (column * jsval)) : Prop :=
  Forall (fun cv => fst cv = Crole -> snd cv = JStr "user" \/ snd cv = JStr "admin") values.

Definition keeps_roles (c : call) : Prop :=
  match c with
  | Supabase q =>
      match q_verb q with
      | Insert values | Update values => role_values_valid values
      | _ => True
      end
  | _ => True
  end.

(** The row as a profile update leaves it: the row with the id gets the
    username, email and role of the request and the update time, every
    other row stays. *)
Definition updated (now userId : string) (req_body : jsval) (r : Row) : Row :=
  if String.eqb (r_id r) userId then
    mkRow (r_id r) (to_string (field req_body "username"))
          (to_string (field req_body "email")) (r_password_hash r)
          (to_string (field req_body "role")) (r_created_at r) (Some now)
  else r.

Definition update_query (now userId : string) (req_body : jsval) : query :=
  mkQuery (Update [(Cusername, field req_body "username"); (Cemail, field req_body "email");
                   (Crole, field req_body "role"); (Cupdated_at, JStr now)])
          (FEq Cid userId) profile_columns None false.

(** ** Facts about values *)

Lemma is_str_true (v : jsval) (lit : string) :
  is_str v lit = true <-> v = JStr lit.
Proof.
  split.
  - destruct v; simpl; try discriminate.
    intros H. apply String.eqb_eq in H. now subst.
  - intros ->. simpl. apply String.eqb_refl.
Qed.

Lemma is_str_false (v : jsval) (lit : string) :
  v <> JStr lit -> is_str v lit = false.
Proof.
  intros H. destruct (is_str v lit) eqn:E; [|reflexivity].
  apply is_str_true in E. contradiction.
Qed.

Lemma truthy_str (s : string) : truthy (JStr s) = true <-> s <> EmptyString.
Proof.
  destruct s; simpl; split; intros; congruence.
Qed.

Lemma truthy_not_nullish (v : jsval) : truthy v = true -> nullish v = false.
Proof. destruct v; simpl; congruence. Qed.

(** A body one of whose properties is truthy is an object, an array or a
    string: it is not nullish. *)
Lemma truthy_field_body (b : jsval) (k : string) :
  truthy (field b k) = true -> nullish b = false.
Proof. destruct b; simpl; congruence. Qed.

Lemma str_field_body (b : jsval) (k s : string) :
  field b k = JStr s -> nullish b = false.
Proof. destruct b; simpl; congruence. Qed.

Lemma length_is_zero_arr (l : list jsval) :
  length_is_zero (JArr l) = match l with [] => true | _ => false end.
Proof. destruct l; reflexivity. Qed.

Lemma length_positive_arr (l : list jsval) :
  length_positive (JArr l) = match l with [] => false | _ => true end.
Proof. destruct l; reflexivity. Qed.

Lemma ToString_str (s : string) : ToString (JStr s) = Some s.
Proof. reflexivity. Qed.

Lemma ToString_text (v : jsval) (s : string) : ToString v = Some s -> s = to_string v.
Proof. unfold ToString. destruct (printable v); congruence. Qed.

Lemma interpolate_str (s : string) : interpolate (JStr s) = Ret s.
Proof. reflexivity. Qed.

Lemma interpolate_length (l : list jsval) :
  exists s, interpolate (js_or (opt_prop (JArr l) "length") (number 0)) = Ret s.
Proof.
  unfold js_or. cbn [opt_prop nullish field String.eqb Ascii.eqb Bool.eqb].
  destruct (truthy _); eexists; reflexivity.
Qed.

(** ** Facts about the text of an or-filter *)

Lemma plain_char_no_comma (c : ascii) : plain_char c = true -> Ascii.eqb c "," = false.
Proof.
  intros H. destruct (Ascii.eqb c ",") eqn:E; [|reflexivity].
  apply Ascii.eqb_eq in E. subst c. discriminate H.
Qed.

Lemma pieces_whole (s : string) : all_plain s = true -> pieces s = [s].
Proof.
  induction s as [|c s IH]; [reflexivity|].
  cbn [all_plain pieces]. intros H. apply andb_true_iff in H. destruct H as [Hc Hs].
  rewrite (plain_char_no_comma c Hc), (IH Hs). reflexivity.
Qed.

Lemma pieces_comma (a b : string) :
  all_plain a = true -> pieces (a ++ String "," b) = a :: pieces b.
Proof.
  induction a as [|c a IH]; [reflexivity|].
  cbn [all_plain pieces append]. intros H. apply andb_true_iff in H. destruct H as [Hc Ha].
  rewrite (plain_char_no_comma c Hc), (IH Ha). reflexivity.
Qed.

Lemma all_plain_app (a b : string) :
  all_plain a = true -> all_plain b = true -> all_plain (a ++ b) = true.
Proof.
  induction a as [|c a IH]; [auto|].
  cbn [all_plain append]. intros H Hb. apply andb_true_iff in H. destruct H as [Hc Ha].
  now rewrite Hc, (IH Ha Hb).
Qed.

Lemma plain_all_plain (s : string) : plain s = true -> all_plain s = true.
Proof. unfold plain. intros H. apply andb_true_iff in H. tauto. Qed.

Lemma plain_not_empty (s : string) : plain s = true -> s <> EmptyString.
Proof. intros H ->. discriminate H. Qed.

(** The text register and authenticate build, for a plain username and a
    plain email, is read as: the username is the one, or the email is the
    other. *)
Lemma or_fragment_plain (u e : string) :
  plain u = true -> plain e = true ->
  or_fragment (or_text u e) = Some (FOr (FEq Cusername u) (FEq Cemail e)).
Proof.
  intros Hu He. unfold or_fragment, or_text.
  change ("username.eq." ++ u ++ ",email.eq." ++ e)%string
    with (("username.eq." ++ u) ++ String "," ("email.eq." ++ e))%string.
  pose proof (plain_all_plain u Hu) as Hau. pose proof (plain_all_plain e He) as Hae.
  rewrite pieces_comma by (apply all_plain_app; [reflexivity | exact Hau]).
  rewrite pieces_whole by (apply all_plain_app; [reflexivity | exact Hae]).
  cbn [conditions].
  change (condition ("username.eq." ++ u))
    with (if String.eqb "eq" "eq" && plain u then Some (FEq Cusername u) else None).
  change (condition ("email.eq." ++ e))
    with (if String.eqb "eq" "eq" && plain e then Some (FEq Cemail e) else None).
  rewrite Hu, He. reflexivity.
Qed.

(** ** Facts about running programs *)

Lemma run_bind {A B : Type} (p : prog A) (f : A -> prog B) (w : world) :
  run (bind p f) w =
  match run p w with
  | Some (Returned a, w') => run (f a) w'
  | Some (Uncaught e, w') => Some (Uncaught e, w')
  | None => None
  end.
Proof.
  revert w. induction p as [a|e|c k IH]; intros w; simpl; try reflexivity.
  destruct (perform c w) as [[o w']|]; [apply IH|reflexivity].
Qed.

Lemma run_try_catch {A : Type} (p : prog A) (h : jsval -> prog A) (w : world) :
  run (try_catch p h) w =
  match run p w with
  | Some (Returned a, w') => Some (Returned a, w')
  | Some (Uncaught e, w') => run (h e) w'
  | None => None
  end.
Proof.
  revert w. induction p as [a|e|c k IH]; intros w; simpl; try reflexivity.
  destruct (perform c w) as [[o w']|]; [apply IH|reflexivity].
Qed.

Lemma perform_normal (q : query) (uuid now : string) (tbl : list Row)
      (senv : list store_choice) (lenv : list outcome) (lg : list call) :
  perform (Supabase q) (mkWorld tbl (Normal uuid now :: senv) lenv lg)
  = Some (Resolved (fst (answer q uuid now tbl)),
          mkWorld (snd (answer q uuid now tbl)) senv lenv (lg ++ [Supabase q])).
Proof.
  unfold perform. simpl. destruct (answer q uuid now tbl). reflexivity.
Qed.

Lemma perform_reads (q : query) (f : filter) (uuid now : string) (tbl : list Row)
      (senv : list store_choice) (lenv : list outcome) (lg : list call) :
  perform (Supabase q) (mkWorld tbl (Reads f uuid now :: senv) lenv lg)
  = Some (Resolved (fst (answer q uuid now tbl)),
          mkWorld (snd (answer q uuid now tbl)) senv lenv (lg ++ [Supabase q])).
Proof.
  unfold perform. simpl. destruct (answer q uuid now tbl). reflexivity.
Qed.

Lemma perform_fails (q : query) (e : pg_error) (tbl : list Row)
      (senv : list store_choice) (lenv : list outcome) (lg : list call) :
  perform (Supabase q) (mkWorld tbl (StoreFails e :: senv) lenv lg)
  = Some (Resolved (failed e), mkWorld tbl senv lenv (lg ++ [Supabase q])).
Proof. reflexivity. Qed.

Lemma perform_rejects (q : query) (e : jsval) (tbl : list Row)
      (senv : list store_choice) (lenv : list outcome) (lg : list call) :
  perform (Supabase q) (mkWorld tbl (Rejects e :: senv) lenv lg)
  = Some (Rejected e, mkWorld tbl senv lenv (lg ++ [Supabase q])).
Proof. reflexivity. Qed.

Lemma perform_store_none (q : query) (tbl : list Row)
      (lenv : list outcome) (lg : list call) :
  perform (Supabase q) (mkWorld tbl [] lenv lg) = None.
Proof. reflexivity. Qed.

Lemma perform_or_normal (text : string) (cols : list column) (lim : option nat)
      (uuid now : string) (tbl : list Row)
      (senv : list store_choice) (lenv : list outcome) (lg : list call) :
  perform (SupabaseOr text cols lim) (mkWorld tbl (Normal uuid now :: senv) lenv lg)
  = Some (Resolved match or_fragment text with
                   | Some f => selected f cols lim uuid now tbl
                   | None => failed parse_error
                   end,
          mkWorld tbl senv lenv (lg ++ [SupabaseOr text cols lim])).
Proof. unfold perform. simpl. destruct (or_fragment text); reflexivity. Qed.

Lemma perform_or_reads (text : string) (cols : list column) (lim : option nat)
      (f : filter) (uuid now : string) (tbl : list Row)
      (senv : list store_choice) (lenv : list outcome) (lg : list call) :
  perform (SupabaseOr text cols lim) (mkWorld tbl (Reads f uuid now :: senv) lenv lg)
  = Some (Resolved (selected f cols lim uuid now tbl),
          mkWorld tbl senv lenv (lg ++ [SupabaseOr text cols lim])).
Proof. reflexivity. Qed.

Lemma perform_or_fails (text : string) (cols : list column) (lim : option nat)
      (e : pg_error) (tbl : list Row)
      (senv : list store_choice) (lenv : list outcome) (lg : list call) :
  perform (SupabaseOr text cols lim) (mkWorld tbl (StoreFails e :: senv) lenv lg)
  = Some (Resolved (failed e), mkWorld tbl senv lenv (lg ++ [SupabaseOr text cols lim])).
Proof. reflexivity. Qed.

Lemma perform_or_rejects (text : string) (cols : list column) (lim : option nat)
      (e : jsval) (tbl : list Row)
      (senv : list store_choice) (lenv : list outcome) (lg : list call) :
  perform (SupabaseOr text cols lim) (mkWorld tbl (Rejects e :: senv) lenv lg)
  = Some (Rejected e, mkWorld tbl senv lenv (lg ++ [SupabaseOr text cols lim])).
Proof. reflexivity. Qed.

Lemma perform_or_none (text : string) (cols : list column) (lim : option nat)
      (tbl : list Row) (lenv : list outcome) (lg : list call) :
  perform (SupabaseOr text cols lim) (mkWorld tbl [] lenv lg) = None.
Proof. reflexivity. Qed.

Lemma selected_rows (f : filter) (cols : list column) (lim : option nat)
      (uuid now : string) (tbl : list Row) :
  selected f cols lim uuid now tbl
  = ok (JArr (map (project cols) (limited lim (List.filter (matches f) tbl)))).
Proof. reflexivity. Qed.

Lemma perform_hash (data : jsval) (rounds : nat) (o : outcome) (tbl : list Row)
      (senv : list store_choice) (lenv : list outcome) (lg : list call) :
  perform (BcryptHash data rounds) (mkWorld tbl senv (o :: lenv) lg)
  = Some (o, mkWorld tbl senv lenv (lg ++ [BcryptHash data rounds])).
Proof. reflexivity. Qed.

Lemma perform_compare (data hash : jsval) (o : outcome) (tbl : list Row)
      (senv : list store_choice) (lenv : list outcome) (lg : list call) :
  perform (BcryptCompare data hash) (mkWorld tbl senv (o :: lenv) lg)
  = Some (o, mkWorld tbl senv lenv (lg ++ [BcryptCompare data hash])).
Proof. reflexivity. Qed.

Lemma perform_axios (url : string) (o : outcome) (tbl : list Row)
      (senv : list store_choice) (lenv : list outcome) (lg : list call) :
  perform (AxiosDelete url) (mkWorld tbl senv (o :: lenv) lg)
  = Some (o, mkWorld tbl senv lenv (lg ++ [AxiosDelete url])).
Proof. reflexivity. Qed.

Lemma perform_lib_none (c : call) (tbl : list Row)
      (senv : list store_choice) (lg : list call) :
  is_store_call c = false ->
  perform c (mkWorld tbl senv [] lg) = None.
Proof. destruct c; intros H; try reflexivity; discriminate H. Qed.

Lemma get_ok_data (d : jsval) : get (ok d) "data" = Ret d.
Proof. reflexivity. Qed.

Lemma get_ok_error (d : jsval) : get (ok d) "error" = Ret JNull.
Proof. reflexivity. Qed.

Lemma get_failed_data (e : pg_error) : get (failed e) "data" = Ret JNull.
Proof. reflexivity. Qed.

Lemma get_failed_error (e : pg_error) : get (failed e) "error" = Ret (error_value e).
Proof. reflexivity. Qed.

(** ** Facts about the store *)

Lemma answer_select (f : filter) (cols : list column) (lim : option nat)
      (uuid now : string) (tbl : list Row) :
  answer (mkQuery Select f cols lim false) uuid now tbl
  = (ok (JArr (map (project cols) (limited lim (List.filter (matches f) tbl)))), tbl).
Proof. reflexivity. Qed.

Lemma answer_select_single (f : filter) (cols : list column) (uuid now : string) (tbl : list Row) :
  answer (mkQuery Select f cols None true) uuid now tbl
  = (match List.filter (matches f) tbl with
     | [r] => ok (project cols r)
     | _ => failed no_rows
     end, tbl).
Proof.
  unfold answer. simpl.
  destruct (List.filter (matches f) tbl) as [|r [|r' l]]; reflexivity.
Qed.

Lemma answer_insert (values : list (column * jsval)) (f : filter) (cols : list column)
      (uuid now : string) (tbl : list Row) :
  answer (mkQuery (Insert values) f cols None false) uuid now tbl
  = match new_row values uuid now with
    | None => (failed not_null_violation, tbl)
    | Some r =>
        if collides tbl r then (failed unique_violation, tbl)
        else (ok (JArr [project cols r]), tbl ++ [r])
    end.
Proof. reflexivity. Qed.

Lemma answer_update (values : list (column * jsval)) (f : filter) (cols : list column)
      (uuid now : string) (tbl : list Row) :
  answer (mkQuery (Update values) f cols None false) uuid now tbl
  = match patch_all f values tbl with
    | None => (failed not_null_violation, tbl)
    | Some (tbl', touched) =>
        if existsb (clashes f values tbl') tbl
        then (failed unique_violation, tbl)
        else (ok (JArr (map (project cols) touched)), tbl')
    end.
Proof. reflexivity. Qed.

Lemma answer_delete (f : filter) (cols : list column) (uuid now : string) (tbl : list Row) :
  answer (mkQuery Delete f cols None false) uuid now tbl
  = (ok (JArr (map (project cols) (List.filter (matches f) tbl))),
     List.filter (fun r => negb (matches f r)) tbl).
Proof. reflexivity. Qed.

Lemma answer_shape (q : query) (uuid now : string) (tbl : list Row) :
  (exists d, fst (answer q uuid now tbl) = ok d)
  \/ (exists e, fst (answer q uuid now tbl) = failed e).
Proof.
  destruct q as [v f cols lim sg]. unfold answer. cbn [q_verb q_single]. destruct v.
  - destruct sg; [|left; eexists; reflexivity].
    destruct (limited _ _) as [|r [|r' l]]; [right|left|right]; eexists; reflexivity.
  - destruct (new_row _ _ _) as [r|]; [destruct (collides tbl r)|];
      [right|left|right]; eexists; reflexivity.
  - destruct (patch_all _ _ _) as [[t' touched]|]; [destruct (existsb _ tbl)|];
      [right|left|right]; eexists; reflexivity.
  - left; eexists; reflexivity.
Qed.

Lemma filter_none {A : Type} (p : A -> bool) (l : list A) :
  (forall x, In x l -> p x = false) -> List.filter p l = [].
Proof.
  induction l as [|a l IH]; intros H; simpl; [reflexivity|].
  rewrite (H a (or_introl eq_refl)). apply IH. intros x Hx. apply H. now right.
Qed.

Lemma filter_some {A : Type} (p : A -> bool) (l : list A) (x : A) :
  In x l -> p x = true -> exists y rest, List.filter p l = y :: rest.
Proof.
  intros Hin Hp. destruct (List.filter p l) as [|y rest] eqn:E.
  - assert (In x (List.filter p l)) as H by (apply filter_In; auto).
    rewrite E in H. destruct H.
  - eauto.
Qed.

Lemma matches_id (userId : string) (r : Row) :
  matches (FEq Cid userId) r = String.eqb (r_id r) userId.
Proof. reflexivity. Qed.

Lemma id_present (userId : string) (tbl : list Row) :
  In userId (map r_id tbl) ->
  exists y rest, List.filter (matches (FEq Cid userId)) tbl = y :: rest.
Proof.
  intros H. apply in_map_iff in H. destruct H as [r [Hid Hin]].
  apply (filter_some _ _ r Hin). rewrite matches_id, Hid. apply String.eqb_refl.
Qed.

Lemma id_absent (userId : string) (tbl : list Row) :
  ~ In userId (map r_id tbl) ->
  List.filter (matches (FEq Cid userId)) tbl = [].
Proof.
  intros H. apply filter_none. intros r Hin. rewrite matches_id.
  apply String.eqb_neq. intros E. apply H. apply in_map_iff. eauto.
Qed.

Lemma id_gone (userId : string) (tbl : list Row) :
  ~ In userId (map r_id (List.filter (fun r => negb (matches (FEq Cid userId) r)) tbl)).
Proof.
  intros H. apply in_map_iff in H. destruct H as [r [Hid Hin]].
  apply filter_In in Hin. destruct Hin as [_ Hm].
  rewrite matches_id, Hid, String.eqb_refl in Hm. discriminate.
Qed.

Lemma collides_false (tbl : list Row) (r : Row) :
  ~ In (r_id r) (map r_id tbl) ->
  (forall x, In x tbl -> r_username x <> r_username r /\ r_email x <> r_email r) ->
  collides tbl r = false.
Proof.
  intros Hid Hue. unfold collides.
  destruct (existsb _ tbl) eqn:E; [|reflexivity].
  apply existsb_exists in E. destruct E as [x [Hin Hx]].
  destruct (Hue x Hin) as [Hu He].
  apply String.eqb_neq in Hu, He. rewrite Hu, He, !orb_false_r in Hx.
  apply String.eqb_eq in Hx. exfalso. apply Hid. rewrite <- Hx. now apply in_map.
Qed.

Ltac settle :=
  repeat (rewrite ?run_try_catch, ?run_bind, ?perform_normal, ?answer_select,
                  ?perform_or_normal, ?selected_rows,
                  ?perform_hash, ?perform_compare, ?perform_axios,
                  ?get_ok_data, ?get_ok_error, ?get_failed_data, ?get_failed_error;
          cbn [run await bind fst snd json send]).

Ltac settle_all :=
  repeat (rewrite ?run_try_catch, ?run_bind, ?perform_normal, ?perform_reads, ?answer_select,
                  ?perform_or_normal, ?perform_or_reads, ?perform_or_fails,
                  ?perform_or_rejects, ?perform_or_none, ?selected_rows,
                  ?perform_hash, ?perform_compare, ?perform_axios,
                  ?perform_fails, ?perform_rejects, ?perform_store_none,
                  ?get_ok_data, ?get_ok_error, ?get_failed_data, ?get_failed_error;
          cbn [run await bind fst snd json send]).

Ltac store_step senv :=
  destruct senv as [|[?uuid ?now|?f ?uuid ?now|?e|?e] ?senv]; settle_all; try exact I.

Ltac lib_step lenv :=
  destruct lenv as [|[?v|?e] ?lenv];
  [rewrite perform_lib_none by reflexivity; exact I | |]; settle_all.

Lemma run_interpolate (v : jsval) (w : world) :
  run (interpolate v) w
  = match ToString v with
    | Some s => Some (Returned s, w)
    | None => Some (Uncaught cannot_convert, w)
    end.
Proof. unfold interpolate. destruct (ToString v); reflexivity. Qed.

Lemma run_username_or_email (a b : jsval) (w : world) :
  run (username_or_email a b) w
  = match ToString a, ToString b with
    | Some u, Some e => Some (Returned (or_text u e), w)
    | _, _ => Some (Uncaught cannot_convert, w)
    end.
Proof.
  unfold username_or_email. rewrite run_bind, run_interpolate.
  destruct (ToString a); [|reflexivity].
  rewrite run_bind, run_interpolate. destruct (ToString b); reflexivity.
Qed.

Lemma run_destructure (v : jsval) (w : world) :
  run (destructure v) w
  = if nullish v then Some (Uncaught type_error, w) else Some (Returned tt, w).
Proof. unfold destructure. destruct (nullish v); reflexivity. Qed.

(** The first step of every look-up by text: the store's reply is an
    error, or the rows of some filter. *)
Ltac lookup_step senv :=
  destruct senv as [|[?uuid ?now|?f ?uuid ?now|?e|?e] ?senv]; settle_all; try exact I;
  try match goal with
      | |- context [or_fragment ?t] => destruct (or_fragment t) as [?f|]
      end; settle_all.

(** ** UpdateProfile: role validation *)

(** C7 (what the code does instead). An update with a username, an email
    and the role [{"toString": 1}]: the role is present and is neither
    ['user'] nor ['admin'], but the handler sends no 400.  It prints the
    role into its warning before it answers, outside any [try]; printing
    throws a TypeError, and the handler ends without a response.  The table
    is untouched. *)
Theorem update_profile_unprintable_role_throws :
  field unprintable_role_request "role" <> JStr "user"
  /\ field unprintable_role_request "role" <> JStr "admin"
  /\ truthy (field unprintable_role_request "role") = true
  /\ run (update_profile "2024-05-01T10:00:00.000Z" "id1" unprintable_role_request) two_users
     = Some (Uncaught cannot_convert, two_users).
Proof. repeat split; try discriminate; reflexivity. Qed.

(** ** Authenticate *)

Lemma matches_named (u e : string) (r : Row) :
  matches (FOr (FEq Cusername u) (FEq Cemail e)) r = named u e r.
Proof. reflexivity. Qed.

Lemma filter_named (u e : string) (tbl : list Row) :
  List.filter (matches (FOr (FEq Cusername u) (FEq Cemail e))) tbl
  = List.filter (named u e) tbl.
Proof. reflexivity. Qed.

(** The run of authenticate on a plain identifier when the store executes
    the look-up and finds a row: bcrypt is asked about the hash of the first
    row found, and its verdict decides between 200 and 401. *)
Lemma authenticate_run_match
        (req_body : jsval) (i : string) (tbl : list Row) (y : Row) (others : list Row)
        (uuid now : string) (verdict : bool)
        (senv : list store_choice) (lenv : list outcome) (lg : list call) :
  field req_body "identifier" = JStr i -> plain i = true ->
  truthy (field req_body "password") = true ->
  List.filter (named i i) tbl = y :: others ->
  run (authenticate req_body)
      (mkWorld tbl (Normal uuid now :: senv) (Resolved (JBool verdict) :: lenv) lg)
  = Some (Returned
            (if verdict then mkResponse 200 (Some (login_of y))
             else mkResponse 401 (Some (error_body "Invalid credentials"))),
          mkWorld tbl senv lenv
                  (lg ++ [SupabaseOr (or_text i i) login_columns (Some 1%nat);
                          BcryptCompare (field req_body "password")
                                        (JStr (r_password_hash y))])).
Proof.
  intros Hi Hpl Hp Hf. unfold authenticate, destructure.
  rewrite (str_field_body _ _ _ Hi), Hi, Hp, (proj2 (truthy_str i) (plain_not_empty i Hpl)).
  cbn [negb orb bind username_or_email interpolate ToString printable to_string].
  settle_all. rewrite (or_fragment_plain i i Hpl Hpl). settle_all.
  rewrite filter_named, Hf. cbn [limited firstn map truthy negb orb].
  rewrite length_is_zero_arr.
  cbn [first get prop nullish project map field assoc col_name cell
       String.eqb Ascii.eqb Bool.eqb bind].
  settle_all. rewrite <- app_assoc.
  destruct verdict; reflexivity.
Qed.

(** The run of authenticate on a plain identifier that no row carries. *)
Lemma authenticate_run_unknown
        (req_body : jsval) (i : string) (tbl : list Row)
        (uuid now : string) (senv : list store_choice) (lenv : list outcome) (lg : list call) :
  field req_body "identifier" = JStr i -> plain i = true ->
  truthy (field req_body "password") = true ->
  List.filter (named i i) tbl = [] ->
  run (authenticate req_body) (mkWorld tbl (Normal uuid now :: senv) lenv lg)
  = Some (Returned (mkResponse 401 (Some (error_body "Invalid credentials"))),
          mkWorld tbl senv lenv (lg ++ [SupabaseOr (or_text i i) login_columns (Some 1%nat)])).
Proof.
  intros Hi Hpl Hp Hf. unfold authenticate, destructure.
  rewrite (str_field_body _ _ _ Hi), Hi, Hp, (proj2 (truthy_str i) (plain_not_empty i Hpl)).
  cbn [negb orb bind username_or_email interpolate ToString printable to_string].
  settle_all. rewrite (or_fragment_plain i i Hpl Hpl). settle_all.
  rewrite filter_named, Hf. reflexivity.
Qed.

(** C3 (what the code does instead). The identifier is pasted into the text
    of the store's or-filter as it is.  An identifier that is no user's
    username or email, but carries a condition of its own after a comma,
    selects the rows of that condition: with [x,role.eq.admin] the look-up
    finds the administrator, and when the password is the administrator's
    the answer is 200 with the administrator's profile, not 401.  And an
    identifier that cannot be printed, which matches no user either, is
    answered 500 before the store is asked. *)
Theorem authenticate_injected_identifier_200 :
  (forall r, In r (table one_admin) ->
     r_username r <> "x,role.eq.admin" /\ r_email r <> "x,role.eq.admin")
  /\ (exists w',
        run (authenticate injected_login) one_admin
        = Some (Returned (mkResponse 200 (Some (login_of administrator))), w')
        /\ log w' = [SupabaseOr "username.eq.x,role.eq.admin,email.eq.x,role.eq.admin"
                                login_columns (Some 1%nat);
                     BcryptCompare (JStr "pw") (JStr "$2b$10$adm")])
  /\ run (authenticate (JObj [("identifier", unprintable); ("password", JStr "pw")])) one_admin
     = Some (Returned (mkResponse 500 (Some (error_body
               "Internal server error during authentication"))), one_admin).
Proof.
  split; [|split].
  - intros r [<- | []]. split; discriminate.
  - eexists. split; vm_compute; reflexivity.
  - vm_compute. reflexivity.
Qed.

(** ** DeleteProfile *)

Lemma get_profile_absent (userId : string) (tbl : list Row) (uuid now : string)
      (senv : list store_choice) (lenv : list outcome) (lg : list call) :
  ~ In userId (map r_id tbl) ->
  run (get_profile userId) (mkWorld tbl (Normal uuid now :: senv) lenv lg)
  = Some (Returned (mkResponse 404 (Some (error_body "User not found"))),
          mkWorld tbl senv lenv
                  (lg ++ [Supabase (mkQuery Select (FEq Cid userId) profile_columns None true)])).
Proof.
  intros H. unfold get_profile. settle.
  rewrite answer_select_single, (id_absent _ _ H). reflexivity.
Qed.

Lemma delete_profile_run_unconfigured (url : jsval) (userId : string) (tbl : list Row)
      (uuid now : string) (senv : list store_choice) (lenv : list outcome) (lg : list call) :
  truthy url = false ->
  In userId (map r_id tbl) ->
  run (delete_profile url userId) (mkWorld tbl (Normal uuid now :: senv) lenv lg)
  = Some (Returned (mkResponse 204 None),
          mkWorld (rows_without userId tbl) senv lenv (lg ++ [Supabase (delete_query userId)])).
Proof.
  intros Hurl Hin. unfold delete_profile. settle.
  rewrite answer_delete. settle.
  destruct (id_present _ _ Hin) as [y [rest ->]].
  cbn [map truthy negb orb andb].
  rewrite length_is_zero_arr, Hurl. reflexivity.
Qed.

Lemma delete_profile_run_configured (url : jsval) (userId : string) (tbl : list Row)
      (uuid now : string) (senv : list store_choice) (peer : outcome)
      (lenv : list outcome) (lg : list call) :
  truthy url = true ->
  In userId (map r_id tbl) ->
  run (delete_profile url userId) (mkWorld tbl (Normal uuid now :: senv) (peer :: lenv) lg)
  = Some (Returned
            match peer with
            | Resolved _ => mkResponse 204 None
            | Rejected e =>
                if nullish e then
                  mkResponse 500 (Some (error_body
                    "Internal server error during user deletion process"))
                else
                  match ToString (js_or (peer_reported_error e) (field e "message")) with
                  | Some detail =>
                      mkResponse 500 (Some (error_body
                        ("Failed to delete associated properties: " ++ detail)%string))
                  | None =>
                      mkResponse 500 (Some (error_body
                        "Internal server error during user deletion process"))
                  end
            end,
          mkWorld (rows_without userId tbl) senv lenv
                  (lg ++ [Supabase (delete_query userId);
                          AxiosDelete (properties_endpoint url userId)])).
Proof.
  intros Hurl Hin. unfold delete_profile. settle.
  rewrite answer_delete. settle.
  destruct (id_present _ _ Hin) as [y [rest ->]].
  cbn [map truthy negb orb andb].
  rewrite length_is_zero_arr, Hurl. settle.
  destruct peer as [v|e]; cbn [run bind try_catch]; rewrite <- app_assoc; cbn [app].
  - reflexivity.
  - unfold get, prop. destruct (nullish e); [reflexivity|].
    cbn [bind run try_catch]. unfold interpolate, peer_reported_error.
    destruct (ToString _); reflexivity.
Qed.

(** The first await of DeleteProfile is the store delete: once it has
    settled the row is gone, and no call to the peer has been issued yet. *)
Lemma delete_profile_first_step (url : jsval) (userId : string) (tbl : list Row)
      (uuid now : string) (senv : list store_choice) (lenv : list outcome) (lg : list call) :
  exists suspended,
    advance 0 [delete_profile url userId] (mkWorld tbl (Normal uuid now :: senv) lenv lg)
    = Some ([suspended],
            mkWorld (rows_without userId tbl) senv lenv (lg ++ [Supabase (delete_query userId)])).
Proof.
  unfold delete_profile. cbn [bind try_catch await advance].
  rewrite perform_normal, answer_delete. eexists. reflexivity.
Qed.

(** C1. DeleteProfile on an id the table holds, the store executing the
    delete: the first call the handler awaits deletes the row, before any
    call to the peer; the handler then responds whatever the peer does
    (resolve, reject, or not be configured at all), the row stays deleted,
    and the GetProfile that follows is answered 404 [User not found]. *)
Theorem delete_profile_user_stays_deleted
        (url : jsval) (userId : string) (tbl : list Row) (peer : outcome)
        (u1 n1 u2 n2 : string) (senv : list store_choice)
        (lenv : list outcome) (lg : list call) :
  In userId (map r_id tbl) ->
  exists suspended wmid resp w1 w2,
    advance 0 [delete_profile url userId]
            (mkWorld tbl (Normal u1 n1 :: Normal u2 n2 :: senv) (peer :: lenv) lg)
    = Some ([suspended], wmid)
    /\ ~ In userId (map r_id (table wmid))
    /\ log wmid = lg ++ [Supabase (delete_query userId)]
    /\ run (delete_profile url userId)
           (mkWorld tbl (Normal u1 n1 :: Normal u2 n2 :: senv) (peer :: lenv) lg)
       = Some (Returned resp, w1)
    /\ table w1 = table wmid
    /\ log w1 = log wmid ++ (if truthy url
                              then [AxiosDelete (properties_endpoint url userId)]
                              else [])
    /\ run (get_profile userId) w1
       = Some (Returned (mkResponse 404 (Some (error_body "User not found"))), w2).
Proof.
  intros Hin.
  destruct (delete_profile_first_step url userId tbl u1 n1 (Normal u2 n2 :: senv)
              (peer :: lenv) lg) as [suspended Hstep].
  exists suspended. eexists. 
  destruct (truthy url) eqn:Hurl.
  - rewrite (delete_profile_run_configured _ _ _ _ _ _ _ _ _ Hurl Hin).
    do 3 eexists. split; [exact Hstep|]. cbn [table log].
    split; [apply id_gone|]. split; [reflexivity|]. split; [reflexivity|].
    split; [reflexivity|]. split.
    + rewrite <- app_assoc. reflexivity.
    + apply get_profile_absent. apply id_gone.
  - rewrite (delete_profile_run_unconfigured _ _ _ _ _ _ _ _ Hurl Hin).
    do 3 eexists. split; [exact Hstep|]. cbn [table log].
    split; [apply id_gone|]. split; [reflexivity|]. split; [reflexivity|].
    split; [reflexivity|]. split.
    + rewrite app_nil_r. reflexivity.
    + apply get_profile_absent. apply id_gone.
Qed.

Lemma delete_profile_user_stays_deleted_witness :
  exists suspended wmid resp w1 w2,
    advance 0 [delete_profile (JStr "http://localhost:9999") "id1"]
            (mkWorld [mkRow "id1" "deleteuser" "delete@example.com" "$2b$10$h" "user" "t0" None]
                     [Normal "u1" "t1"; Normal "u2" "t2"]
                     [Rejected (JObj [("message", JStr "connect ECONNREFUSED")])] [])
    = Some ([suspended], wmid)
    /\ ~ In "id1" (map r_id (table wmid))
    /\ log wmid = [] ++ [Supabase (delete_query "id1")]
    /\ run (delete_profile (JStr "http://localhost:9999") "id1")
           (mkWorld [mkRow "id1" "deleteuser" "delete@example.com" "$2b$10$h" "user" "t0" None]
                    [Normal "u1" "t1"; Normal "u2" "t2"]
                    [Rejected (JObj [("message", JStr "connect ECONNREFUSED")])] [])
       = Some (Returned resp, w1)
    /\ table w1 = table wmid
    /\ log w1 = log wmid ++ (if truthy (JStr "http://localhost:9999")
                              then [AxiosDelete (properties_endpoint
                                                   (JStr "http://localhost:9999") "id1")]
                              else [])
    /\ run (get_profile "id1") w1
       = Some (Returned (mkResponse 404 (Some (error_body "User not found"))), w2).
Proof.
  apply delete_profile_user_stays_deleted. simpl. left. reflexivity.
Defined.

(** When the peer call fails with an error object whose detail can be
    printed, the row is deleted and the answer is 500 [Failed to delete
    associated properties: <detail>], the detail being the error the peer
    reported in its answer when there is one, and the message of the failure
    otherwise. *)
Lemma delete_profile_peer_failure
        (url : jsval) (userId : string) (tbl : list Row) (propertiesError : jsval)
        (detail : string) (uuid now : string) (senv : list store_choice)
        (lenv : list outcome) (lg : list call) :
  truthy url = true ->
  In userId (map r_id tbl) ->
  nullish propertiesError = false ->
  ToString (js_or (peer_reported_error propertiesError) (field propertiesError "message"))
  = Some detail ->
  exists w',
    run (delete_profile url userId)
        (mkWorld tbl (Normal uuid now :: senv) (Rejected propertiesError :: lenv) lg)
    = Some (Returned (mkResponse 500 (Some (error_body
              ("Failed to delete associated properties: " ++ detail)%string))), w')
    /\ ~ In userId (map r_id (table w')).
Proof.
  intros Hurl Hin He Hd.
  rewrite (delete_profile_run_configured _ _ _ _ _ _ _ _ _ Hurl Hin), He, Hd.
  eexists. split; [reflexivity|]. apply id_gone.
Qed.

(** C6 (what the code does instead). The peer answers the cleanup call 500
    with a body whose [error] member is the object [{"toString": 1}].  The
    row is deleted, the peer call has failed, and the handler enters the
    catch block of the peer call; there the template literal that builds the
    message throws, and the answer is the one of the outer catch block, 500
    [Internal server error during user deletion process], without a word
    about the properties. *)
Theorem delete_profile_peer_error_object_500 :
  exists w',
    run (delete_profile (JStr "http://properties:3002") "id1")
        (mkWorld (table two_users) [Normal "c1" "t1"] [Rejected peer_failure_object] [])
    = Some (Returned (mkResponse 500 (Some (error_body
              "Internal server error during user deletion process"))), w')
    /\ peer_reported_error peer_failure_object = unprintable
    /\ table w' = [mkRow "id2" "otheruser" "other@example.com" "$2b$10$o" "user" "t1" None]
    /\ log w' = [Supabase (delete_query "id1");
                 AxiosDelete "http://properties:3002/properties/user/id1"].
Proof. eexists. repeat split; vm_compute; reflexivity. Qed.

(** C9. DeleteProfile on an id the table holds, the store executing the
    delete and no peer endpoint configured: the only call issued is the
    store delete, the response is 204 without a body, and the row is
    deleted. *)
Theorem delete_profile_unconfigured_peer_204
        (url : jsval) (userId : string) (tbl : list Row)
        (uuid now : string) (senv : list store_choice)
        (lenv : list outcome) (lg : list call) :
  truthy url = false ->
  In userId (map r_id tbl) ->
  exists w',
    run (delete_profile url userId) (mkWorld tbl (Normal uuid now :: senv) lenv lg)
    = Some (Returned (mkResponse 204 None), w')
    /\ ~ In userId (map r_id (table w'))
    /\ log w' = lg ++ [Supabase (delete_query userId)]
    /\ lib_env w' = lenv.
Proof.
  intros Hurl Hin.
  rewrite (delete_profile_run_unconfigured _ _ _ _ _ _ _ _ Hurl Hin).
  eexists. split; [reflexivity|]. cbn [table log lib_env].
  split; [apply id_gone|]. split; reflexivity.
Qed.

Lemma delete_profile_unconfigured_peer_204_witness :
  exists w',
    run (delete_profile JUndefined "id1")
        (mkWorld [mkRow "id1" "deleteuser" "delete@example.com" "$2b$10$h" "user" "t0" None]
                 [Normal "u1" "t1"] [] [])
    = Some (Returned (mkResponse 204 None), w')
    /\ ~ In "id1" (map r_id (table w'))
    /\ log w' = [] ++ [Supabase (delete_query "id1")]
    /\ lib_env w' = [].
Proof.
  apply delete_profile_unconfigured_peer_204; [reflexivity | simpl; left; reflexivity].
Defined.

(** ** Register *)

(** C2 (what the code does instead). Two Register requests for the same
    username run concurrently; both pre-checks are answered before either
    insert.  The first insert creates the user; the second insert is refused
    by the store with the unique violation 23505, and the handler answers it
    with 500 [Failed to register user], not with 409. *)
Theorem register_lost_race_answers_500 :
  exists w',
    interleave [0; 1; 0; 1; 0; 1]%nat [register race_first; register race_second] race_world
    = Some ([Ret (mkResponse 201 (Some (JObj [("id", JStr "id-1");
                                              ("username", JStr "existinguser");
                                              ("email", JStr "existing@example.com");
                                              ("created_at", JStr "t3");
                                              ("role", JStr "user")])));
             Ret (mkResponse 500 (Some (error_body "Failed to register user")))], w')
    /\ table w' = [mkRow "id-1" "existinguser" "existing@example.com" "$2b$10$first"
                         "user" "t3" None]
    /\ fst (answer (mkQuery (Insert [(Cusername, JStr "existinguser");
                                     (Cemail, JStr "another@example.com");
                                     (Cpassword_hash, JStr "$2b$10$second")])
                            FAll profile_columns None false)
                   "id-2" "t4" (table w'))
       = failed unique_violation.
Proof.
  eexists. split; [vm_compute; reflexivity|]. split; reflexivity.
Qed.

Ltac register_start Hu Hpu He Hpe Hp :=
  unfold register, destructure;
  rewrite (str_field_body _ _ _ Hu), Hu, He, Hp,
          (proj2 (truthy_str _) (plain_not_empty _ Hpu)),
          (proj2 (truthy_str _) (plain_not_empty _ Hpe));
  cbn [negb orb bind username_or_email interpolate ToString printable to_string];
  settle_all; rewrite (or_fragment_plain _ _ Hpu Hpe); settle_all;
  rewrite filter_named.

(** Register on a body with a plain username, a plain email and a
    password, when some row has that username or that email: 409 after the
    look-up alone. *)
Lemma register_run_conflict (req_body : jsval) (u e : string) (tbl : list Row)
      (uuid now : string) (senv : list store_choice) (lenv : list outcome) (lg : list call) :
  field req_body "username" = JStr u -> plain u = true ->
  field req_body "email" = JStr e -> plain e = true ->
  truthy (field req_body "password") = true ->
  (exists r, In r tbl /\ (r_username r = u \/ r_email r = e)) ->
  run (register req_body) (mkWorld tbl (Normal uuid now :: senv) lenv lg)
  = Some (Returned (mkResponse 409 (Some (error_body "Username or email already exists"))),
          mkWorld tbl senv lenv (lg ++ [SupabaseOr (or_text u e) [Cid] None])).
Proof.
  intros Hu Hpu He Hpe Hp [r [Hin Hr]]. register_start Hu Hpu He Hpe Hp.
  destruct (filter_some (named u e) tbl r Hin) as [y [rest ->]].
  - unfold named. destruct Hr as [-> | ->]; rewrite String.eqb_refl;
      [reflexivity | apply orb_true_r].
  - reflexivity.
Qed.

Lemma named_none (u e : string) (tbl : list Row) :
  (forall r, In r tbl -> r_username r <> u /\ r_email r <> e) ->
  List.filter (named u e) tbl = [].
Proof.
  intros Hfree. apply filter_none. intros r Hin. destruct (Hfree r Hin) as [Hru Hre].
  unfold named. apply String.eqb_neq in Hru, Hre. now rewrite Hru, Hre.
Qed.

(** Register on a body with a plain username and a plain email that no row
    has, a password, a hash from bcrypt and an unused id from the store: 201
    with the profile of the row created. *)
Lemma register_run_created (req_body : jsval) (u e h : string) (tbl : list Row)
      (u1 n1 uuid n2 : string) (senv : list store_choice) (lenv : list outcome)
      (lg : list call) :
  field req_body "username" = JStr u -> plain u = true ->
  field req_body "email" = JStr e -> plain e = true ->
  truthy (field req_body "password") = true ->
  (forall r, In r tbl -> r_username r <> u /\ r_email r <> e) ->
  ~ In uuid (map r_id tbl) ->
  let created := mkRow uuid u e h "user" n2 None in
  run (register req_body)
      (mkWorld tbl (Normal u1 n1 :: Normal uuid n2 :: senv) (Resolved (JStr h) :: lenv) lg)
  = Some (Returned (mkResponse 201 (Some (profile_of created))),
          mkWorld (tbl ++ [created]) senv lenv
                  (lg ++ [SupabaseOr (or_text u e) [Cid] None;
                          BcryptHash (field req_body "password") SALT_ROUNDS;
                          Supabase (mkQuery (Insert [(Cusername, JStr u); (Cemail, JStr e);
                                                     (Cpassword_hash, JStr h)])
                                            FAll profile_columns None false)])).
Proof.
  intros Hu Hpu He Hpe Hp Hfree Hfresh created. register_start Hu Hpu He Hpe Hp.
  rewrite (named_none u e tbl Hfree).
  cbn [limited map truthy andb]. rewrite length_positive_arr. settle_all.
  rewrite answer_insert.
  change (new_row [(Cusername, JStr u); (Cemail, JStr e); (Cpassword_hash, JStr h)] uuid n2)
    with (Some created).
  cbv iota. rewrite collides_false; [|exact Hfresh|exact Hfree].
  cbv iota. settle_all. cbn [truthy negb orb]. rewrite length_is_zero_arr.
  cbn [first get prop nullish project map field assoc col_name cell created
       String.eqb Ascii.eqb Bool.eqb run bind json interpolate ToString printable to_string].
  rewrite <- !app_assoc. reflexivity.
Qed.

(** Whatever error the store reports for the insert, the unique violation
    included, Register answers 500 [Failed to register user]. *)
Lemma register_insert_error_500 (req_body : jsval) (u e : string) (tbl : list Row) (h : jsval)
      (u1 n1 : string) (err : pg_error) (senv : list store_choice)
      (lenv : list outcome) (lg : list call) :
  field req_body "username" = JStr u -> plain u = true ->
  field req_body "email" = JStr e -> plain e = true ->
  truthy (field req_body "password") = true ->
  (forall r, In r tbl -> r_username r <> u /\ r_email r <> e) ->
  exists w',
    run (register req_body)
        (mkWorld tbl (Normal u1 n1 :: StoreFails err :: senv) (Resolved h :: lenv) lg)
    = Some (Returned (mkResponse 500 (Some (error_body "Failed to register user"))), w')
    /\ table w' = tbl.
Proof.
  intros Hu Hpu He Hpe Hp Hfree. register_start Hu Hpu He Hpe Hp.
  rewrite (named_none u e tbl Hfree).
  cbn [limited map truthy andb]. rewrite length_positive_arr. settle_all.
  cbn. eexists. split; reflexivity.
Qed.

(** C5 (what the code does instead). The username and the email are pasted
    into the text of the store's or-filter as they are.  On a table whose
    only user is bob, a registration with the username [fresh] and the email
    [z,role.eq.user] conflicts with no user; but the store reads the text
    after the comma as a third condition, on the role, which bob's row
    meets, and the registration is answered 409 and creates nothing. *)
Theorem register_injected_email_409 :
  (forall r, In r (table one_bob) -> r_username r <> "fresh" /\ r_email r <> "z,role.eq.user")
  /\ plain "fresh" = true
  /\ exists w',
       run (register injected_registration) one_bob
       = Some (Returned (mkResponse 409 (Some (error_body "Username or email already exists"))),
               w')
       /\ table w' = table one_bob
       /\ log w' = [SupabaseOr "username.eq.fresh,email.eq.z,role.eq.user" [Cid] None].
Proof.
  split; [|split].
  - intros r [<- | []]. split; discriminate.
  - reflexivity.
  - eexists. repeat split; vm_compute; reflexivity.
Qed.

Ltac shape :=
  intros q values Hq Hv; try discriminate Hq; injection Hq as <-;
  cbn in Hv; try discriminate Hv; injection Hv as <-; reflexivity.

Ltac register_leaf :=
  cbn [run json send log table]; split;
  [ eexists; split; [rewrite <- ?app_assoc; reflexivity
                    | repeat constructor; shape]
  | left; reflexivity ].

Lemma register_effects (req_body : jsval) (w : world) :
  match run (register req_body) w with
  | Some (res, w') =>
      (exists calls, log w' = log w ++ calls /\ Forall register_insert_shape calls)
      /\ (table w' = table w
          \/ exists r, table w' = table w ++ [r] /\ r_role r = "user"
                       /\ r_username r = to_string (field req_body "username")
                       /\ r_email r = to_string (field req_body "email"))
  | None => True
  end.
Proof.
  destruct w as [tbl senv lenv lg]. unfold register.
  rewrite run_bind, run_destructure. destruct (nullish req_body).
  { cbn. split; [exists []; split; [now rewrite app_nil_r | constructor] | now left]. }
  destruct (negb (truthy (field req_body "username"))
            || negb (truthy (field req_body "email"))
            || negb (truthy (field req_body "password"))).
  { cbn. split; [exists []; split; [now rewrite app_nil_r | constructor] | now left]. }
  settle_all. rewrite run_username_or_email.
  destruct (ToString (field req_body "username")) as [u|];
    [destruct (ToString (field req_body "email")) as [e|]|];
    try solve [cbn; split; [exists []; split; [now rewrite app_nil_r | constructor] | now left]].
  lookup_step senv; cbn [truthy andb error_value]; try solve [register_leaf].
  all: rewrite length_positive_arr.
  all: destruct (map _ _) as [|x xs]; cbn [run]; try solve [register_leaf].
  all: destruct lenv as [|[h|e'] lenv];
    [rewrite perform_lib_none by reflexivity; exact I| |];
    rewrite perform_hash; cbn [run bind]; try solve [register_leaf].
  all: destruct senv as [|[uuid' now'|f' uuid' now'|e'|e'] senv]; settle_all; try exact I;
    cbn [truthy error_value]; try solve [register_leaf].
  all: rewrite answer_insert.
  all: destruct (new_row _ uuid' now') as [r|] eqn:Hnew;
    [destruct (collides tbl r)|]; cbv iota; settle_all;
    cbn [truthy error_value]; try solve [register_leaf].
  all: rewrite length_is_zero_arr;
    cbn [negb orb first get prop nullish project map field assoc col_name cell
         String.eqb Ascii.eqb Bool.eqb run bind json interpolate ToString printable to_string].
  all: unfold new_row in Hnew; cbn [given column_eqb] in Hnew.
  all: destruct (nullish (field req_body "username")); try discriminate Hnew.
  all: destruct (nullish (field req_body "email")); try discriminate Hnew.
  all: destruct (nullish h); try discriminate Hnew.
  all: injection Hnew as <-.
  all: cbn [log table]; split;
    [ eexists; split; [rewrite <- !app_assoc; reflexivity | repeat constructor; shape]
    | right; eexists; split; [reflexivity|]; cbn; repeat split; reflexivity ].
Qed.

(** C10. Register reads the username, the email and the password of the
    request body and nothing else: two bodies that agree on these three
    (both present, or both missing) give the same handler, so a [role] in
    the body is ignored.  In every run, the insert the handler sends names
    the columns username, email and password_hash only, and the table is
    left as it was or gains one row, whose role is the store default
    ['user']. *)
Theorem register_role_always_user
        (req_body : jsval) (w : world) (res : result response) (w' : world) :
  run (register req_body) w = Some (res, w') ->
  (forall other,
      nullish other = nullish req_body ->
      field other "username" = field req_body "username" ->
      field other "email" = field req_body "email" ->
      field other "password" = field req_body "password" ->
      register other = register req_body)
  /\ (exists calls, log w' = log w ++ calls /\ Forall register_insert_shape calls)
  /\ (table w' = table w
      \/ exists r, table w' = table w ++ [r] /\ r_role r = "user"
                   /\ r_username r = to_string (field req_body "username")
                   /\ r_email r = to_string (field req_body "email")).
Proof.
  intros Hrun. split.
  - intros other Hn Hu He Hp. unfold register, destructure. rewrite Hn, Hu, He, Hp. reflexivity.
  - pose proof (register_effects req_body w) as H. rewrite Hrun in H. exact H.
Qed.

Lemma register_role_always_user_witness :
  exists res w',
    run (register admin_request) admin_world = Some (res, w')
    /\ (exists calls, log w' = log admin_world ++ calls
                      /\ Forall register_insert_shape calls)
    /\ (table w' = table admin_world
        \/ exists r, table w' = table admin_world ++ [r] /\ r_role r = "user"
                     /\ r_username r = to_string (field admin_request "username")
                     /\ r_email r = to_string (field admin_request "email")).
Proof.
  do 2 eexists. split.
  - vm_compute. reflexivity.
  - exact (proj2 (register_role_always_user admin_request admin_world _ _
                    ltac:(vm_compute; reflexivity))).
Defined.

Example admin_request_creates_plain_user :
  exists res w',
    run (register admin_request) admin_world = Some (res, w')
    /\ table w' = [mkRow "id-9" "mallory" "mallory@example.com" "$2b$10$m" "user" "t2" None].
Proof. do 2 eexists. split; vm_compute; reflexivity. Qed.

(** ** UpdateProfile: what an update touches *)

Lemma includes_user_admin (v : jsval) :
  includes ["user"; "admin"] v = true -> v = JStr "user" \/ v = JStr "admin".
Proof.
  unfold includes. cbn [existsb]. rewrite orb_false_r.
  intros H. apply orb_true_iff in H. destruct H as [H|H]; apply is_str_true in H; auto.
Qed.

Lemma patch_all_frame (userId : string) (req_body : jsval) (now : string) (tbl : list Row) :
  includes ["user"; "admin"] (field req_body "role") = true ->
  forall tbl' touched,
    patch_all (FEq Cid userId)
              [(Cusername, field req_body "username"); (Cemail, field req_body "email");
               (Crole, field req_body "role"); (Cupdated_at, JStr now)] tbl
    = Some (tbl', touched) ->
    Forall2 (update_frame userId req_body now) tbl tbl'.
Proof.
  intros Hrole. induction tbl as [|r tbl IH]; intros tbl' touched H.
  - injection H as <- <-. constructor.
  - cbn [patch_all] in H.
    destruct (patch_all _ _ tbl) as [[rest' touched']|]; [|discriminate].
    specialize (IH _ _ eq_refl).
    rewrite matches_id in H. destruct (String.eqb (r_id r) userId) eqn:Hid.
    + cbn [patch set_cell] in H.
      destruct (nullish (field req_body "username")); [discriminate|].
      destruct (nullish (field req_body "email")); [discriminate|].
      destruct (nullish (field req_body "role")) eqn:Hn; [discriminate|].
      cbn [nullish] in H. injection H as <- <-.
      constructor; [|exact IH]. apply String.eqb_eq in Hid.
      unfold update_frame. cbn. repeat split; try reflexivity.
      * intros Hne. contradiction.
      * destruct (includes_user_admin _ Hrole) as [-> | ->]; reflexivity.
    + injection H as <- <-. constructor; [|exact IH].
      apply String.eqb_neq in Hid.
      unfold update_frame. repeat split; try reflexivity; intros; contradiction.
Qed.

Lemma update_profile_effects (now userId : string) (req_body : jsval) (w : world) :
  match run (update_profile now userId req_body) w with
  | Some (Returned resp, w') =>
      status resp = 200%nat ->
      Forall2 (update_frame userId req_body now) (table w) (table w')
  | _ => True
  end.
Proof.
  destruct w as [tbl senv lenv lg]. unfold update_profile.
  rewrite run_bind, run_destructure. destruct (nullish req_body); [exact I|].
  destruct (negb (truthy (field req_body "username"))
            || negb (truthy (field req_body "email"))
            || negb (truthy (field req_body "role"))).
  { cbn. discriminate. }
  destruct (includes ["user"; "admin"] (field req_body "role")) eqn:Hrole; cbn [negb].
  2:{ rewrite run_bind, run_interpolate. destruct (ToString _); [cbn; discriminate | exact I]. }
  settle_all.
  destruct senv as [|[uuid now'|f uuid now'|e|e] senv]; settle_all; try exact I;
    cbn [truthy error_value field assoc String.eqb Ascii.eqb Bool.eqb];
    try solve [repeat (match goal with |- context [if ?c then _ else _] => destruct c end);
               cbn; discriminate].
  all: rewrite answer_update.
  all: destruct (patch_all _ _ tbl) as [[tbl' touched]|] eqn:Hpatch;
    [destruct (existsb _ tbl)|]; cbv iota; settle_all;
    cbn [truthy error_value field assoc is_str String.eqb Ascii.eqb Bool.eqb];
    try solve [cbn; discriminate].
  all: rewrite length_is_zero_arr.
  all: destruct (map _ touched); cbn; [discriminate|].
  all: intros _; eapply patch_all_frame; eassumption.
Qed.

(** C8. When UpdateProfile answers 200, every row of the table keeps its
    id, its password hash and its creation time; the rows whose id is not
    the target's are unchanged; the target row carries the username, email
    and role of the request and the update time. *)
Theorem update_profile_frame
        (now userId : string) (req_body : jsval) (w : world)
        (resp : response) (w' : world) :
  run (update_profile now userId req_body) w = Some (Returned resp, w') ->
  status resp = 200%nat ->
  Forall2 (update_frame userId req_body now) (table w) (table w').
Proof.
  intros Hrun. pose proof (update_profile_effects now userId req_body w) as H.
  rewrite Hrun in H. exact H.
Qed.

Lemma update_profile_frame_witness :
  exists resp w',
    run (update_profile "2024-05-01T10:00:00.000Z" "id1" promote_request) two_users
    = Some (Returned resp, w')
    /\ status resp = 200%nat
    /\ Forall2 (update_frame "id1" promote_request "2024-05-01T10:00:00.000Z")
               (table two_users) (table w').
Proof.
  do 2 eexists. split; [vm_compute; reflexivity|]. split; [reflexivity|].
  exact (update_profile_frame "2024-05-01T10:00:00.000Z" "id1" promote_request two_users _ _
           ltac:(vm_compute; reflexivity) eq_refl).
Defined.

Example promote_request_touches_one_row :
  exists resp w',
    run (update_profile "2024-05-01T10:00:00.000Z" "id1" promote_request) two_users
    = Some (Returned resp, w')
    /\ table w'
       = [mkRow "id1" "updated_user" "updated@example.com" "$2b$10$h" "admin" "t0"
                (Some "2024-05-01T10:00:00.000Z");
          mkRow "id2" "otheruser" "other@example.com" "$2b$10$o" "user" "t1" None].
Proof. do 2 eexists. split; vm_compute; reflexivity. Qed.

(** ** What the response bodies are made of *)

Lemma filter_all (tbl : list Row) : List.filter (matches FAll) tbl = tbl.
Proof.
  induction tbl as [|r tbl IH]; [reflexivity|].
  change (List.filter (matches FAll) (r :: tbl)) with (r :: List.filter (matches FAll) tbl).
  now rewrite IH.
Qed.

Lemma patch_all_touched (f : filter) (values : list (column * jsval))
      (tbl tbl' touched : list Row) :
  patch_all f values tbl = Some (tbl', touched) -> incl touched tbl'.
Proof.
  revert tbl' touched. induction tbl as [|r tbl IH]; intros tbl' touched; cbn [patch_all].
  - intros H. injection H as <- <-. intros x [].
  - destruct (patch_all f values tbl) as [[rest' touched']|]; [|discriminate].
    specialize (IH _ _ eq_refl). destruct (matches f r).
    + destruct (patch values r) as [r'|]; [|discriminate].
      intros H. injection H as <- <-. intros x [<- | Hx]; [now left | right; now apply IH].
    + intros H. injection H as <- <-. intros x Hx. right. now apply IH.
Qed.

Lemma mentions_profiles (rows : list Row) :
  mentions "password_hash" (JArr (map profile_of rows)) = false.
Proof.
  induction rows as [|r rows IH]; [reflexivity|].
  cbn [mentions map existsb] in *. rewrite IH. reflexivity.
Qed.

(** No property of such a body is named [password_hash]. *)
Lemma public_body_no_hash_property (w w' : world) (b : jsval) :
  public_body w w' b -> mentions "password_hash" b = false.
Proof.
  intros [[msg [-> _]] | [[r [_ ->]] | [-> | [r [_ ->]]]]];
    [reflexivity | reflexivity | apply mentions_profiles | reflexivity].
Qed.

Ltac member := repeat (first [left; reflexivity | right]).

(** An answer whose message the source spells out. *)
Ltac literal :=
  cbn [run json send body]; first
    [ exact I
    | left; eexists; split; [reflexivity | left; member] ].

Ltac walk :=
  cbn [truthy error_value negb orb andb];
  repeat (match goal with |- context [if ?c then _ else _] => destruct c end);
  literal.

Lemma register_public (req_body : jsval) : answers_publicly (register req_body).
Proof.
  intros [tbl senv lenv lg]. unfold register.
  rewrite run_bind, run_destructure. destruct (nullish req_body); [exact I|].
  destruct (negb (truthy (field req_body "username"))
            || negb (truthy (field req_body "email"))
            || negb (truthy (field req_body "password"))); [literal|].
  settle_all. rewrite run_username_or_email.
  destruct (ToString (field req_body "username")) as [u|];
    [destruct (ToString (field req_body "email")) as [e|]|]; try solve [literal].
  lookup_step senv; cbn [truthy andb error_value]; try solve [walk].
  all: rewrite length_positive_arr.
  all: destruct (map _ _) as [|x xs]; cbn [run]; try solve [walk].
  all: lib_step lenv; try solve [walk].
  all: store_step senv; cbn [truthy error_value]; try solve [walk].
  all: rewrite answer_insert.
  all: destruct (new_row _ _ _) as [r|]; [destruct (collides tbl r)|]; cbv iota; settle_all;
    cbn [truthy error_value]; try solve [walk].
  all: rewrite length_is_zero_arr;
    cbn [negb orb first get prop nullish project map field assoc col_name cell
         String.eqb Ascii.eqb Bool.eqb run bind json interpolate ToString printable to_string
         body table].
  all: right; left; exists r; split; [apply in_or_app; right; left; reflexivity | reflexivity].
Qed.

Lemma list_profiles_public : answers_publicly list_profiles.
Proof.
  intros [tbl senv lenv lg]. unfold list_profiles.
  settle_all. store_step senv; cbn [truthy error_value]; try solve [walk].
  all: cbn [limited]; rewrite filter_all.
  all: destruct (interpolate_length (map (project profile_columns) tbl)) as [s ->].
  all: cbn [js_or truthy run bind json body table].
  all: right; right; left; reflexivity.
Qed.

Lemma authenticate_public (req_body : jsval) : answers_publicly (authenticate req_body).
Proof.
  intros [tbl senv lenv lg]. unfold authenticate.
  rewrite run_bind, run_destructure. destruct (nullish req_body); [exact I|].
  destruct (negb (truthy (field req_body "identifier"))
            || negb (truthy (field req_body "password"))); [literal|].
  settle_all. rewrite run_username_or_email.
  destruct (ToString (field req_body "identifier")) as [i|]; try solve [literal].
  lookup_step senv; cbn [truthy negb orb error_value]; try solve [walk].
  all: rewrite length_is_zero_arr.
  all: match goal with
       | |- context [List.filter ?p ?t] => destruct (List.filter p t) as [|y ys] eqn:Hf
       end; cbn [limited firstn map run json]; try solve [walk].
  all: cbn [first get prop nullish project map bind];
    cbn [field assoc col_name cell String.eqb Ascii.eqb Bool.eqb];
    settle_all.
  all: lib_step lenv; try solve [walk].
  all: destruct (negb (truthy v)); settle_all;
    cbn [interpolate ToString printable to_string run bind json body table]; try solve [literal].
  all: right; right; right; exists y; split; [|reflexivity].
  all: assert (Hy : In y (y :: ys)) by (now left); rewrite <- Hf in Hy;
    apply filter_In in Hy; tauto.
Qed.

Lemma get_profile_public (userId : string) : answers_publicly (get_profile userId).
Proof.
  intros [tbl senv lenv lg]. unfold get_profile.
  settle_all. store_step senv; try solve [walk].
  all: rewrite answer_select_single.
  all: destruct (List.filter _ tbl) as [|r [|r' l]] eqn:Hf; settle_all; try solve [walk].
  all: cbn [truthy project negb run json body table].
  all: right; left; exists r; split; [|reflexivity].
  all: assert (Hr : In r [r]) by (now left); rewrite <- Hf in Hr;
    apply filter_In in Hr; tauto.
Qed.

Lemma update_profile_public (now userId : string) (req_body : jsval) :
  answers_publicly (update_profile now userId req_body).
Proof.
  intros [tbl senv lenv lg]. unfold update_profile.
  rewrite run_bind, run_destructure. destruct (nullish req_body); [exact I|].
  destruct (negb (truthy (field req_body "username"))
            || negb (truthy (field req_body "email"))
            || negb (truthy (field req_body "role"))); [literal|].
  destruct (negb (includes ["user"; "admin"] (field req_body "role"))).
  { rewrite run_bind, run_interpolate. destruct (ToString _); literal. }
  settle_all. store_step senv; try solve [walk].
  all: rewrite answer_update.
  all: destruct (patch_all _ _ tbl) as [[tbl' touched]|] eqn:Hpatch;
    [destruct (existsb _ tbl)|]; cbv iota; settle_all; try solve [walk].
  all: cbn [truthy negb orb]; rewrite length_is_zero_arr.
  all: destruct touched as [|r touched]; cbn [map run json first body table]; [literal|].
  all: right; left; exists r; split; [|reflexivity].
  all: apply (patch_all_touched _ _ _ _ _ Hpatch); now left.
Qed.

Lemma delete_profile_public (url : jsval) (userId : string) :
  answers_publicly (delete_profile url userId).
Proof.
  intros [tbl senv lenv lg]. unfold delete_profile.
  settle_all. store_step senv;
    cbn [truthy error_value field assoc is_str String.eqb Ascii.eqb Bool.eqb];
    unfold js_or; try solve [walk].
  1,2: rewrite answer_delete; settle_all; cbn [truthy negb orb]; rewrite length_is_zero_arr;
    (destruct (map _ _) as [|x xs]; cbn [run json]; [literal|]);
    (destruct (truthy url); settle_all; [|literal]);
    (lib_step lenv; [literal|]);
    unfold get, prop; (destruct (nullish e); [literal|]);
    cbn [bind run try_catch]; rewrite run_bind, run_interpolate;
    (destruct (ToString _) as [detail|] eqn:Hd; [|literal]);
    cbn [run json body]; left; eexists; split; [reflexivity|];
    right; right; exists e, detail; split; [left; reflexivity | split; [exact Hd | reflexivity]].
  repeat (match goal with |- context [if ?c then _ else _] => destruct c eqn:? end);
    cbn [run json body]; try solve [literal].
  left. eexists. split; [reflexivity|]. right. left. exists e. split; [left; reflexivity|].
  reflexivity.
Qed.

(** C4. Whatever the request, the configuration, the table and the
    behaviour of the store, of bcrypt and of the peer, and however the store
    reads the text of a filter: the body the app sends, on success and on
    failure alike, is an error message (one the source spells out, the
    store's own, or the detail of the peer's failure), the profile of a row,
    the list of the profiles of the rows, or the login body of a row; profile
    and login body are made of the row's id, username, email, creation time and
    role.  The password hash of no row is read into a body, and no property
    of a body, at any depth, is named [password_hash]. *)
Theorem no_response_carries_password_hash
        (propertiesServiceUrl : jsval) (req : request) (w : world)
        (resp : response) (w' : world) :
  run (app propertiesServiceUrl req) w = Some (Returned resp, w') ->
  forall b, body resp = Some b ->
    public_body w w' b /\ mentions "password_hash" b = false.
Proof.
  intros Hrun b Hb.
  assert (H : answers_publicly (app propertiesServiceUrl req)).
  { destruct req; cbn [app].
    - apply register_public.
    - apply list_profiles_public.
    - apply authenticate_public.
    - apply get_profile_public.
    - apply update_profile_public.
    - apply delete_profile_public. }
  specialize (H w). rewrite Hrun, Hb in H.
  split; [exact H | exact (public_body_no_hash_property w w' b H)].
Qed.

Lemma no_response_carries_password_hash_witness :
  exists resp w' b,
    run (app JUndefined (PostAuthenticate login_request)) one_user = Some (Returned resp, w')
    /\ In (BcryptCompare (JStr "securepassword") (JStr "$2b$10$stored")) (log w')
    /\ body resp = Some b
    /\ public_body one_user w' b
    /\ mentions "password_hash" b = false.
Proof.
  do 3 eexists. split; [vm_compute; reflexivity|]. split; [right; left; reflexivity|].
  split; [reflexivity|].
  exact (no_response_carries_password_hash JUndefined (PostAuthenticate login_request)
           one_user _ _ ltac:(vm_compute; reflexivity) _ eq_refl).
Defined.

(** Register answers with the profile of the row it created: the hash it
    stored is in the row, and not in the body. *)
Example register_body_is_the_profile :
  exists resp w' r,
    run (app JUndefined (PostRegister admin_request)) admin_world = Some (Returned resp, w')
    /\ table w' = [r]
    /\ r_password_hash r = "$2b$10$m"
    /\ body resp = Some (profile_of r)
    /\ profile_of r = JObj [("id", JStr "id-9"); ("username", JStr "mallory");
                            ("email", JStr "mallory@example.com");
                            ("created_at", JStr "t2"); ("role", JStr "user")].
Proof. do 3 eexists. repeat split; vm_compute; reflexivity. Qed.

(** ** The scenario of the specification *)

Example scenario_statuses :
  exists results w',
    serve scenario scenario_world = Some (results, w')
    /\ map (fun r => match r with Returned resp => Some (status resp) | Uncaught _ => None end)
           results
       = [Some 201; Some 409; Some 200; Some 401; Some 400; Some 500; Some 404]%nat
    /\ table w' = [].
Proof. do 2 eexists. split; [vm_compute; reflexivity|]. split; reflexivity. Qed.

(** ** What the routes can and cannot do *)

Lemma issues_bind {A B : Type} (P : call -> Prop) (p : prog A) (f : A -> prog B) :
  issues P p -> (forall a, issues P (f a)) -> issues P (bind p f).
Proof.
  intros Hp Hf. induction Hp; cbn [bind]; [apply Hf | constructor | constructor; auto].
Qed.

Lemma issues_try {A : Type} (P : call -> Prop) (p : prog A) (h : jsval -> prog A) :
  issues P p -> (forall e, issues P (h e)) -> issues P (try_catch p h).
Proof.
  intros Hp Hh. induction Hp; cbn [try_catch]; [constructor | apply Hh | constructor; auto].
Qed.

Lemma issues_await_call (P : call -> Prop) (c : call) : P c -> issues P (await c).
Proof. intros H. constructor; [exact H|]. intros [v|e]; constructor. Qed.

Lemma issues_get (P : call -> Prop) (v : jsval) (k : string) : issues P (get v k).
Proof. unfold get. destruct (prop v k); constructor. Qed.

Lemma issues_interpolate (P : call -> Prop) (v : jsval) : issues P (interpolate v).
Proof. unfold interpolate. destruct (ToString v); constructor. Qed.

Lemma issues_destructure (P : call -> Prop) (v : jsval) : issues P (destructure v).
Proof. unfold destructure. destruct (nullish v); constructor. Qed.

Lemma issues_username_or_email (P : call -> Prop) (a b : jsval) :
  issues P (username_or_email a b).
Proof.
  unfold username_or_email. apply issues_bind; [apply issues_interpolate|]. intros u.
  apply issues_bind; [apply issues_interpolate|]. intros e. constructor.
Qed.

Lemma perform_log (c : call) (w : world) (o : outcome) (w' : world) :
  perform c w = Some (o, w') -> log w' = log w ++ [c].
Proof.
  destruct w as [tbl senv lenv lg]. destruct c.
  - destruct senv as [|[uuid now|f uuid now|e|e] senv];
      rewrite ?perform_store_none, ?perform_normal, ?perform_reads, ?perform_fails,
              ?perform_rejects;
      intros H; inversion H; reflexivity.
  - destruct senv as [|[uuid now|f uuid now|e|e] senv];
      rewrite ?perform_or_none, ?perform_or_normal, ?perform_or_reads, ?perform_or_fails,
              ?perform_or_rejects;
      intros H; inversion H; reflexivity.
  - destruct lenv as [|o' lenv]; cbn; intros H; inversion H; reflexivity.
  - destruct lenv as [|o' lenv]; cbn; intros H; inversion H; reflexivity.
  - destruct lenv as [|o' lenv]; cbn; intros H; inversion H; reflexivity.
Qed.

(** The calls a run adds to the log are calls the computation can issue. *)
Lemma issues_run {A : Type} (P : call -> Prop) (p : prog A) :
  issues P p ->
  forall w res w', run p w = Some (res, w') ->
    exists calls, log w' = log w ++ calls /\ Forall P calls.
Proof.
  induction 1 as [a|e|c k Hc _ IH]; intros w res w' Hrun; cbn [run] in Hrun.
  - inversion Hrun; subst. exists []. split; [now rewrite app_nil_r | constructor].
  - inversion Hrun; subst. exists []. split; [now rewrite app_nil_r | constructor].
  - destruct (perform c w) as [[o w1]|] eqn:Hp; [|discriminate].
    destruct (IH o w1 res w' Hrun) as [calls [Hlog Hcalls]].
    exists (c :: calls). split; [|constructor; assumption].
    rewrite Hlog, (perform_log _ _ _ _ Hp), <- app_assoc. reflexivity.
Qed.

Lemma answer_read (q : query) (uuid now : string) (tbl : list Row) :
  q_verb q = Select -> snd (answer q uuid now tbl) = tbl.
Proof.
  intros Hq. unfold answer. rewrite Hq.
  destruct (q_single q); [destruct (limited _ _) as [|? [|? ?]]|]; reflexivity.
Qed.

Lemma perform_reads_only (c : call) (w : world) (o : outcome) (w' : world) :
  reads_only c -> perform c w = Some (o, w') -> table w' = table w.
Proof.
  destruct w as [tbl senv lenv lg]. destruct c; cbn [reads_only]; intros Hq.
  - destruct senv as [|[uuid now|f uuid now|e|e] senv];
      rewrite ?perform_store_none, ?perform_normal, ?perform_reads, ?perform_fails,
              ?perform_rejects;
      intros H; inversion H; cbn [table];
      [apply answer_read; exact Hq | apply answer_read; exact Hq | reflexivity ..].
  - destruct senv as [|[uuid now|f uuid now|e|e] senv];
      rewrite ?perform_or_none, ?perform_or_normal, ?perform_or_reads, ?perform_or_fails,
              ?perform_or_rejects;
      intros H; inversion H; reflexivity.
  - destruct lenv as [|o' lenv]; cbn; intros H; inversion H; reflexivity.
  - destruct lenv as [|o' lenv]; cbn; intros H; inversion H; reflexivity.
  - destruct lenv as [|o' lenv]; cbn; intros H; inversion H; reflexivity.
Qed.

Lemma reads_only_run {A : Type} (p : prog A) :
  issues reads_only p ->
  forall w res w', run p w = Some (res, w') -> table w' = table w.
Proof.
  induction 1 as [a|e|c k Hc _ IH]; intros w res w' Hrun; cbn [run] in Hrun.
  - inversion Hrun; subst. reflexivity.
  - inversion Hrun; subst. reflexivity.
  - destruct (perform c w) as [[o w1]|] eqn:Hp; [|discriminate].
    rewrite (IH o w1 res w' Hrun). exact (perform_reads_only _ _ _ _ Hc Hp).
Qed.

Ltac issues_step :=
  match goal with
  | |- issues _ (try_catch _ _) => apply issues_try; [|intros ?]
  | |- issues _ (bind _ _) => apply issues_bind; [|intros ?]
  | |- issues _ (await _) => apply issues_await_call
  | |- issues _ (get _ _) => apply issues_get
  | |- issues _ (interpolate _) => apply issues_interpolate
  | |- issues _ (destructure _) => apply issues_destructure
  | |- issues _ (username_or_email _ _) => apply issues_username_or_email
  | |- issues _ (json _ _) => apply issues_ret
  | |- issues _ (send _) => apply issues_ret
  | |- issues _ (if ?c then _ else _) => destruct c eqn:?
  end.

(** X1. The routes that only read (list, authenticate, get one profile)
    leave the table exactly as it was, whatever the store and bcrypt do. *)
Theorem reading_routes_leave_table
        (url : jsval) (req : request) (w : world) (res : result response) (w' : world) :
  match req with
  | GetProfiles | PostAuthenticate _ | GetProfile _ => True
  | _ => False
  end ->
  run (app url req) w = Some (res, w') ->
  table w' = table w.
Proof.
  intros Hreq. apply reads_only_run.
  destruct req; try contradiction; cbn [app].
  - unfold list_profiles. repeat issues_step; cbn; auto.
  - unfold authenticate. cbv zeta. repeat issues_step; cbn; auto.
  - unfold get_profile. repeat issues_step; cbn; auto.
Qed.

Lemma reading_routes_leave_table_witness :
  exists res w',
    run (app (JStr "http://properties:3002") (PostAuthenticate login_request)) one_user
    = Some (res, w')
    /\ table w' = table one_user.
Proof.
  do 2 eexists. split; [vm_compute; reflexivity|].
  exact (reading_routes_leave_table (JStr "http://properties:3002")
           (PostAuthenticate login_request) one_user _ _ I ltac:(vm_compute; reflexivity)).
Defined.

Lemma app_peer_calls (url : jsval) (req : request) :
  issues (peer_call_of url req) (app url req).
Proof.
  assert (Hother : forall c, is_store_call c = true \/ (exists d n, c = BcryptHash d n)
                             \/ (exists d h, c = BcryptCompare d h) ->
                             peer_call_of url req c).
  { intros c [H | [[d [n ->]] | [d [h ->]]]] endpoint E; subst; discriminate. }
  destruct req; cbn [app];
    [unfold register | unfold list_profiles | unfold authenticate
     | unfold get_profile | unfold update_profile | unfold delete_profile];
    cbv zeta; repeat issues_step;
    try (apply Hother; cbn; eauto; fail).
  intros endpoint E. injection E as <-. exists userId. repeat split; assumption.
Qed.

(** X2. Whatever the request and the environment, the only call to the
    properties service a run can add to the log is the one a delete makes,
    with the service configured, to the endpoint of the user it deletes. *)
Theorem only_delete_calls_the_peer
        (url : jsval) (req : request) (w : world) (res : result response) (w' : world) :
  run (app url req) w = Some (res, w') ->
  exists calls,
    log w' = log w ++ calls
    /\ forall endpoint, In (AxiosDelete endpoint) calls ->
         exists userId, req = DeleteProfile userId
                        /\ truthy url = true
                        /\ endpoint = properties_endpoint url userId.
Proof.
  intros Hrun.
  destruct (issues_run _ _ (app_peer_calls url req) w res w' Hrun) as [calls [Hlog Hcalls]].
  exists calls. split; [exact Hlog|]. intros endpoint Hin.
  rewrite Forall_forall in Hcalls. exact (Hcalls _ Hin endpoint eq_refl).
Qed.

Lemma only_delete_calls_the_peer_witness :
  exists res w' calls,
    run (app (JStr "http://properties:3002") (PostRegister admin_request)) admin_world
    = Some (res, w')
    /\ log w' = log admin_world ++ calls
    /\ forall endpoint, In (AxiosDelete endpoint) calls ->
         exists userId, PostRegister admin_request = DeleteProfile userId
                        /\ truthy (JStr "http://properties:3002") = true
                        /\ endpoint = properties_endpoint (JStr "http://properties:3002") userId.
Proof.
  do 2 eexists.
  destruct (only_delete_calls_the_peer (JStr "http://properties:3002")
              (PostRegister admin_request) admin_world _ _
              ltac:(vm_compute; reflexivity)) as [calls [Hlog Hcalls]].
  exists calls. split; [reflexivity|]. split; assumption.
Defined.

Lemma contained_try {A : Type} (p : prog A) (h : jsval -> prog A) :
  (forall e, contained (h e)) -> contained (try_catch p h).
Proof.
  intros Hh. induction p as [a|e|c k IH]; cbn [try_catch];
    [constructor | apply Hh | constructor; exact IH].
Qed.

Lemma contained_run {A : Type} (p : prog A) :
  contained p ->
  forall w res w', run p w = Some (res, w') -> exists a, res = Returned a.
Proof.
  induction 1 as [a|c k _ IH]; intros w res w' Hrun; cbn [run] in Hrun.
  - inversion Hrun. eauto.
  - destruct (perform c w) as [[o w1]|]; [|discriminate]. eapply IH. exact Hrun.
Qed.

Ltac inside_try Hrun :=
  match type of Hrun with
  | run ?p _ = _ =>
      let Hc := fresh "Hc" in
      assert (Hc : contained p)
        by (apply contained_try; intros ?; apply contained_ret);
      let a := fresh "a" in
      destruct (contained_run _ Hc _ _ _ Hrun) as [a ->]
  end.

(** A run of a route ends with a response, or it ends with an exception,
    the request being one that throws before the [try] block, and nothing
    has happened. *)
Lemma app_escape (url : jsval) (req : request) (w : world) (res : result response) (w' : world) :
  run (app url req) w = Some (res, w') ->
  (exists resp, res = Returned resp /\ escapes req = false)
  \/ (exists e, res = Uncaught e /\ escapes req = true /\ w' = w).
Proof.
  destruct req as [b| |b|userId|now userId b|userId]; cbn [app escapes].
  - unfold register, destructure. destruct (nullish b) eqn:Hb; cbn [bind run].
    { intros H. inversion H. right. eexists. repeat split. }
    intros Hrun.
    destruct (negb (truthy (field b "username")) || negb (truthy (field b "email"))
              || negb (truthy (field b "password"))).
    + cbn in Hrun. inversion Hrun. left. eexists. split; reflexivity.
    + inside_try Hrun. left. eexists. split; reflexivity.
  - unfold list_profiles. intros Hrun. inside_try Hrun. left. eexists. split; reflexivity.
  - unfold authenticate, destructure. destruct (nullish b) eqn:Hb; cbn [bind run].
    { intros H. inversion H. right. eexists. repeat split. }
    intros Hrun.
    destruct (negb (truthy (field b "identifier")) || negb (truthy (field b "password"))).
    + cbn in Hrun. inversion Hrun. left. eexists. split; reflexivity.
    + inside_try Hrun. left. eexists. split; reflexivity.
  - unfold get_profile. intros Hrun. inside_try Hrun. left. eexists. split; reflexivity.
  - unfold update_profile, destructure. destruct (nullish b) eqn:Hb; cbn [bind run orb].
    { intros H. inversion H. right. eexists. repeat split. }
    destruct (truthy (field b "username")); cbn [negb orb andb];
      [|intros H; cbn in H; inversion H; left; eexists; split; reflexivity].
    destruct (truthy (field b "email")); cbn [negb orb andb];
      [|intros H; cbn in H; inversion H; left; eexists; split; reflexivity].
    destruct (truthy (field b "role")); cbn [negb orb andb];
      [|intros H; cbn in H; inversion H; left; eexists; split; reflexivity].
    destruct (includes ["user"; "admin"] (field b "role")); cbn [negb andb].
    + intros Hrun. inside_try Hrun. left. eexists. split; reflexivity.
    + unfold interpolate, ToString. destruct (printable (field b "role")); cbn [bind run negb].
      * intros H. cbn in H. inversion H. left. eexists. split; reflexivity.
      * intros H. inversion H. right. eexists. repeat split.
  - unfold delete_profile. intros Hrun. inside_try Hrun. left. eexists. split; reflexivity.
Qed.

Lemma perform_store_some (c : call) (w : world) :
  is_store_call c = true -> store_env w <> [] ->
  exists o w', perform c w = Some (o, w')
               /\ List.length (store_env w) = S (List.length (store_env w'))
               /\ lib_env w' = lib_env w.
Proof.
  destruct w as [tbl senv lenv lg]. cbn [store_env lib_env].
  destruct c; try discriminate; intros _ Hs;
    (destruct senv as [|ch senv]; [contradiction|]).
  - destruct ch; rewrite ?perform_normal, ?perform_reads, ?perform_fails, ?perform_rejects;
      do 2 eexists; repeat split.
  - destruct ch; rewrite ?perform_or_normal, ?perform_or_reads, ?perform_or_fails,
                         ?perform_or_rejects;
      do 2 eexists; repeat split.
Qed.

Lemma perform_lib_some (c : call) (w : world) :
  is_store_call c = false -> lib_env w <> [] ->
  exists o w', perform c w = Some (o, w')
               /\ List.length (lib_env w) = S (List.length (lib_env w'))
               /\ store_env w' = store_env w.
Proof.
  destruct w as [tbl senv lenv lg]. cbn [store_env lib_env].
  destruct c; try discriminate; intros _ Hl;
    (destruct lenv as [|o lenv]; [contradiction|]); do 2 eexists; repeat split.
Qed.

(** A computation that awaits at most [s] store queries and [l] library
    calls runs to its end when the environment holds that many outcomes. *)
Lemma within_run {A : Type} (s l : nat) (p : prog A) :
  within s l p ->
  forall w, (s <= List.length (store_env w))%nat -> (l <= List.length (lib_env w))%nat ->
            run p w <> None.
Proof.
  induction 1 as [s l a|s l e|s l c k Hc _ IH|s l c k Hc _ IH]; intros w Hs Hl; cbn [run];
    try discriminate.
  - destruct (perform_store_some c w Hc) as [o [w' [-> [Hlen Hlib]]]].
    { destruct (store_env w); [cbn in Hs; lia | discriminate]. }
    apply IH; [lia | rewrite Hlib; exact Hl].
  - destruct (perform_lib_some c w Hc) as [o [w' [-> [Hlen Hst]]]].
    { destruct (lib_env w); [cbn in Hl; lia | discriminate]. }
    apply IH; [rewrite Hst; exact Hs | lia].
Qed.

Lemma within_more {A : Type} (s l : nat) (p : prog A) :
  within s l p -> forall s' l', (s <= s')%nat -> (l <= l')%nat -> within s' l' p.
Proof.
  induction 1 as [s l a|s l e|s l c k Hc _ IH|s l c k Hc _ IH]; intros s' l' Hs Hl.
  - constructor.
  - constructor.
  - destruct s' as [|s']; [lia|]. apply within_store; [exact Hc|].
    intros o. apply IH; lia.
  - destruct l' as [|l']; [lia|]. apply within_lib; [exact Hc|].
    intros o. apply IH; lia.
Qed.

Lemma within_bind_pure {A B : Type} (s l : nat) (p : prog A) (f : A -> prog B) :
  within 0 0 p -> (forall a, within s l (f a)) -> within s l (bind p f).
Proof.
  intros Hp Hf. inversion Hp; subst; cbn [bind]; [apply Hf | constructor].
Qed.

Lemma within_bind_await {A : Type} (s l s' l' : nat) (c : call) (f : jsval -> prog A) :
  (if is_store_call c then s = S s' /\ l = l' else s = s' /\ l = S l') ->
  (forall a, within s' l' (f a)) -> within s l (bind (await c) f).
Proof.
  intros Hc Hf. cbn [bind await]. destruct (is_store_call c) eqn:E; destruct Hc as [-> ->].
  - apply within_store; [exact E|]. intros [v|e]; cbn [bind]; [apply Hf | constructor].
  - apply within_lib; [exact E|]. intros [v|e]; cbn [bind]; [apply Hf | constructor].
Qed.

Lemma within_try {A : Type} (s l : nat) (p : prog A) (h : jsval -> prog A) :
  within s l p -> (forall e, within 0 0 (h e)) -> within s l (try_catch p h).
Proof.
  intros Hp Hh. induction Hp; cbn [try_catch].
  - constructor.
  - apply (within_more 0 0); [apply Hh | lia | lia].
  - apply within_store; auto.
  - apply within_lib; auto.
Qed.

Lemma within_get (v : jsval) (k : string) : within 0 0 (get v k).
Proof. unfold get. destruct (prop v k); constructor. Qed.

Lemma within_interpolate (v : jsval) : within 0 0 (interpolate v).
Proof. unfold interpolate. destruct (ToString v); constructor. Qed.

Lemma within_destructure (v : jsval) : within 0 0 (destructure v).
Proof. unfold destructure. destruct (nullish v); constructor. Qed.

Lemma within_username_or_email (a b : jsval) : within 0 0 (username_or_email a b).
Proof.
  unfold username_or_email. apply within_bind_pure; [apply within_interpolate|]. intros u.
  apply within_bind_pure; [apply within_interpolate|]. intros e. constructor.
Qed.

Ltac within_step :=
  match goal with
  | |- within _ _ (try_catch _ _) => apply within_try; [|intros ?]
  | |- within _ _ (bind (await _) _) =>
      eapply within_bind_await; [cbn; split; reflexivity | intros ?]
  | |- within _ _ (bind _ _) => apply within_bind_pure; [|intros ?]
  | |- within _ _ (get _ _) => apply within_get
  | |- within _ _ (interpolate _) => apply within_interpolate
  | |- within _ _ (destructure _) => apply within_destructure
  | |- within _ _ (username_or_email _ _) => apply within_username_or_email
  | |- within _ _ (json _ _) => apply within_ret
  | |- within _ _ (send _) => apply within_ret
  | |- within _ _ (if ?c then _ else _) => destruct c
  end.

(** Every route awaits at most two store queries and one library call. *)
Lemma app_within (url : jsval) (req : request) : within 2 1 (app url req).
Proof.
  destruct req; cbn [app].
  - unfold register. cbv zeta. repeat within_step.
  - apply (within_more 1 0); [|lia|lia]. unfold list_profiles. repeat within_step.
  - apply (within_more 1 1); [|lia|lia]. unfold authenticate. cbv zeta. repeat within_step.
  - apply (within_more 1 0); [|lia|lia]. unfold get_profile. repeat within_step.
  - apply (within_more 1 0); [|lia|lia]. unfold update_profile. cbv zeta. repeat within_step.
  - apply (within_more 1 1); [|lia|lia]. unfold delete_profile. cbv zeta. repeat within_step.
Qed.

(** X3. A run of a route ends with a response, except for the requests
    that throw before the handler enters its [try] block: a POST or a PUT
    without a body, and a PUT whose role is present, is neither ['user'] nor
    ['admin'], and cannot be printed into the log.  For these the run ends
    with the exception and nothing has happened: no call was issued, the
    world is as it was.  And with two store outcomes and one library outcome
    at hand, every run does end. *)
Theorem every_run_ends_with_a_response
        (url : jsval) (req : request) :
  (forall w res w', run (app url req) w = Some (res, w') ->
     (exists resp, res = Returned resp /\ escapes req = false)
     \/ (exists e, res = Uncaught e /\ escapes req = true /\ w' = w))
  /\ (forall tbl s1 s2 senv l1 lenv lg,
        exists res w',
          run (app url req) (mkWorld tbl (s1 :: s2 :: senv) (l1 :: lenv) lg)
          = Some (res, w')).
Proof.
  split.
  - apply app_escape.
  - intros tbl s1 s2 senv l1 lenv lg.
    pose proof (within_run 2 1 _ (app_within url req)
                  (mkWorld tbl (s1 :: s2 :: senv) (l1 :: lenv) lg)) as H.
    destruct (run (app url req) _) as [[res w']|]; [eauto|].
    exfalso. apply H; cbn; [lia | lia | reflexivity].
Qed.

Lemma every_run_ends_with_a_response_witness :
  (exists resp,
      Returned (mkResponse 500 (Some (error_body "Internal server error fetching profiles")))
      = Returned resp
      /\ escapes GetProfiles = false)
  \/ (exists e,
        Returned (mkResponse 500 (Some (error_body "Internal server error fetching profiles")))
        = Uncaught e
        /\ escapes GetProfiles = true
        /\ mkWorld [] [] [] [Supabase (mkQuery Select FAll profile_columns None false)]
           = mkWorld [] [Rejects JNull] [] []).
Proof.
  exact (proj1 (every_run_ends_with_a_response JUndefined GetProfiles)
           (mkWorld [] [Rejects JNull] [] []) _ _ ltac:(vm_compute; reflexivity)).
Defined.

(** ** The roles that get persisted *)

Lemma given_role_valid (values : list (column * jsval)) (s : string) :
  role_values_valid values -> given Crole values = Some s -> s = "user" \/ s = "admin".
Proof.
  intros Hv. induction Hv as [|[c v] values Hcv _ IH]; cbn [given]; [discriminate|].
  destruct (column_eqb Crole c) eqn:Ec.
  - destruct c; try discriminate Ec. destruct (nullish v); [discriminate|].
    intros H. injection H as <-. destruct (Hcv eq_refl) as [E|E]; cbn in E; subst v; auto.
  - exact IH.
Qed.

Lemma new_row_role_valid (values : list (column * jsval)) (uuid now : string) (r : Row) :
  role_values_valid values -> new_row values uuid now = Some r -> valid_role r.
Proof.
  intros Hv. unfold new_row.
  destruct (given Cusername values), (given Cemail values), (given Cpassword_hash values);
    try discriminate.
  intros H. injection H as <-. unfold valid_role. cbn [r_role].
  destruct (given Crole values) as [ro|] eqn:E; cbn [or_default]; [|now left].
  exact (given_role_valid values ro Hv E).
Qed.

Lemma set_cell_role_valid (cv : column * jsval) (r r' : Row) :
  (fst cv = Crole -> snd cv = JStr "user" \/ snd cv = JStr "admin") ->
  valid_role r -> set_cell r cv = Some r' -> valid_role r'.
Proof.
  destruct cv as [c v]. cbn [fst snd]. intros Hcv Hr. unfold set_cell, valid_role in *.
  destruct c; destruct (nullish v); try discriminate;
    intros H; injection H as <-; cbn [r_role]; try exact Hr.
  destruct (Hcv eq_refl) as [-> | ->]; cbn; auto.
Qed.

Lemma patch_role_valid (values : list (column * jsval)) (r r' : Row) :
  role_values_valid values -> valid_role r -> patch values r = Some r' -> valid_role r'.
Proof.
  intros Hv. revert r. induction Hv as [|cv values Hcv _ IH]; intros r Hr; cbn [patch].
  - intros H. injection H as <-. exact Hr.
  - destruct (set_cell r cv) as [r1|] eqn:E; [|discriminate].
    apply IH. exact (set_cell_role_valid cv r r1 Hcv Hr E).
Qed.

Lemma patch_all_roles_valid (f : filter) (values : list (column * jsval))
      (tbl tbl' touched : list Row) :
  role_values_valid values -> Forall valid_role tbl ->
  patch_all f values tbl = Some (tbl', touched) -> Forall valid_role tbl'.
Proof.
  intros Hv Ht. revert tbl' touched.
  induction Ht as [|r tbl Hr _ IH]; intros tbl' touched; cbn [patch_all].
  - intros H. injection H as <- <-. constructor.
  - destruct (patch_all f values tbl) as [[rest' touched']|]; [|discriminate].
    specialize (IH _ _ eq_refl). destruct (matches f r).
    + destruct (patch values r) as [r'|] eqn:E; [|discriminate].
      intros H. injection H as <- <-. constructor; [|exact IH].
      exact (patch_role_valid values r r' Hv Hr E).
    + intros H. injection H as <- <-. constructor; assumption.
Qed.

Lemma filter_roles_valid (p : Row -> bool) (tbl : list Row) :
  Forall valid_role tbl -> Forall valid_role (List.filter p tbl).
Proof.
  intros H. apply Forall_forall. intros r Hin. apply filter_In in Hin.
  rewrite Forall_forall in H. apply H. tauto.
Qed.

Lemma answer_roles_valid (q : query) (uuid now : string) (tbl : list Row) :
  keeps_roles (Supabase q) -> Forall valid_role tbl ->
  Forall valid_role (snd (answer q uuid now tbl)).
Proof.
  destruct q as [v f cols lim sg]. cbn [keeps_roles q_verb]. intros Hq Ht.
  unfold answer. cbn [q_verb q_filter q_columns q_limit q_single]. destruct v.
  - destruct sg; [destruct (limited _ _) as [|? [|? ?]]|]; exact Ht.
  - destruct (new_row values uuid now) as [r|] eqn:E; [|exact Ht].
    destruct (collides tbl r); [exact Ht|]. cbn [snd].
    apply Forall_app. split; [exact Ht|]. constructor; [|constructor].
    exact (new_row_role_valid values uuid now r Hq E).
  - destruct (patch_all f values tbl) as [[tbl' touched]|] eqn:E; [|exact Ht].
    destruct (existsb _ tbl); [exact Ht|]. cbn [snd].
    exact (patch_all_roles_valid f values tbl tbl' touched Hq Ht E).
  - cbn [snd]. apply filter_roles_valid. exact Ht.
Qed.

Lemma perform_roles_valid (c : call) (w : world) (o : outcome) (w' : world) :
  keeps_roles c -> Forall valid_role (table w) ->
  perform c w = Some (o, w') -> Forall valid_role (table w').
Proof.
  destruct w as [tbl senv lenv lg]. cbn [table]. intros Hc Ht. destruct c.
  - destruct senv as [|[uuid now|f uuid now|e|e] senv];
      rewrite ?perform_store_none, ?perform_normal, ?perform_reads, ?perform_fails,
              ?perform_rejects;
      intros H; inversion H; cbn [table]; try exact Ht;
      apply answer_roles_valid; assumption.
  - destruct senv as [|[uuid now|f uuid now|e|e] senv];
      rewrite ?perform_or_none, ?perform_or_normal, ?perform_or_reads, ?perform_or_fails,
              ?perform_or_rejects;
      intros H; inversion H; exact Ht.
  - destruct lenv as [|o' lenv]; cbn; intros H; inversion H; exact Ht.
  - destruct lenv as [|o' lenv]; cbn; intros H; inversion H; exact Ht.
  - destruct lenv as [|o' lenv]; cbn; intros H; inversion H; exact Ht.
Qed.

Lemma keeps_roles_run {A : Type} (p : prog A) :
  issues keeps_roles p ->
  forall w res w', Forall valid_role (table w) ->
    run p w = Some (res, w') -> Forall valid_role (table w').
Proof.
  induction 1 as [a|e|c k Hc _ IH]; intros w res w' Ht Hrun; cbn [run] in Hrun.
  - inversion Hrun; subst. exact Ht.
  - inversion Hrun; subst. exact Ht.
  - destruct (perform c w) as [[o w1]|] eqn:Hp; [|discriminate].
    apply (IH o w1 res w'); [|exact Hrun].
    exact (perform_roles_valid _ _ _ _ Hc Ht Hp).
Qed.

Lemma app_keeps_roles (url : jsval) (req : request) : issues keeps_roles (app url req).
Proof.
  destruct req; cbn [app];
    [unfold register | unfold list_profiles | unfold authenticate
     | unfold get_profile | unfold update_profile | unfold delete_profile];
    cbv zeta; repeat issues_step; try exact I;
    cbn [keeps_roles q_verb]; unfold role_values_valid;
    repeat (apply Forall_cons; [cbn [fst snd]; intros E; try discriminate E|]);
    try apply Forall_nil.
  match goal with
  | H : negb (includes _ _) = false |- _ =>
      apply negb_false_iff in H; exact (includes_user_admin _ H)
  end.
Qed.

(** X4. If every stored role is ['user'] or ['admin'], it is still so after
    any request, whatever its body and whatever the store, bcrypt and the
    peer do: register never sends a role, and update sends one only after
    checking it. *)
Theorem roles_stay_valid
        (url : jsval) (req : request) (w : world) (res : result response) (w' : world) :
  Forall valid_role (table w) ->
  run (app url req) w = Some (res, w') ->
  Forall valid_role (table w').
Proof.
  intros Ht Hrun. exact (keeps_roles_run _ (app_keeps_roles url req) w res w' Ht Hrun).
Qed.

Lemma roles_stay_valid_witness :
  exists res w',
    run (app JUndefined (PutProfile "2024-05-01T10:00:00.000Z" "id1" promote_request)) two_users
    = Some (res, w')
    /\ Forall valid_role (table w').
Proof.
  do 2 eexists. split; [vm_compute; reflexivity|].
  refine (roles_stay_valid JUndefined
            (PutProfile "2024-05-01T10:00:00.000Z" "id1" promote_request) two_users _ _ _
            ltac:(vm_compute; reflexivity)).
  repeat constructor.
Defined.

(** ** Register: validation, failures, and what a 201 means *)

(** X5. A register request with a body in which the username, the email or
    the password is missing or falsy (absent, null, empty string, 0, false)
    is answered 400 with the message below, and no call is issued. *)
Theorem register_missing_field_400 (req_body : jsval) (w : world) :
  nullish req_body = false ->
  truthy (field req_body "username") = false
  \/ truthy (field req_body "email") = false
  \/ truthy (field req_body "password") = false ->
  run (register req_body) w
  = Some (Returned (mkResponse 400 (Some (error_body
            "Username, email, and password are required."))), w).
Proof.
  intros Hb H. unfold register, destructure. rewrite Hb. cbn [bind].
  destruct H as [-> | [-> | ->]]; cbn [negb orb]; rewrite ?orb_true_r; reflexivity.
Qed.

Lemma register_missing_field_400_witness :
  run (register (JObj [("username", JStr "incomplete")])) admin_world
  = Some (Returned (mkResponse 400 (Some (error_body
            "Username, email, and password are required."))), admin_world).
Proof.
  apply register_missing_field_400; [reflexivity|]. right. left. reflexivity.
Defined.

(** X6. When the look-up for an existing user fails, register stops there:
    an error reported by the store gives 500 [Database error checking
    user], a rejected request gives 500 [Internal server error during
    registration]; either way nothing is hashed and nothing is inserted.
    The look-up carries the username and the email as they print. *)
Theorem register_precheck_failure_500
        (req_body : jsval) (u e : string) (tbl : list Row) (senv : list store_choice)
        (lenv : list outcome) (lg : list call) :
  truthy (field req_body "username") = true ->
  truthy (field req_body "email") = true ->
  truthy (field req_body "password") = true ->
  ToString (field req_body "username") = Some u ->
  ToString (field req_body "email") = Some e ->
  let precheck := SupabaseOr (or_text u e) [Cid] None in
  (forall err,
     run (register req_body) (mkWorld tbl (StoreFails err :: senv) lenv lg)
     = Some (Returned (mkResponse 500 (Some (error_body "Database error checking user"))),
             mkWorld tbl senv lenv (lg ++ [precheck])))
  /\ (forall err,
        run (register req_body) (mkWorld tbl (Rejects err :: senv) lenv lg)
        = Some (Returned (mkResponse 500 (Some (error_body
                  "Internal server error during registration"))),
                mkWorld tbl senv lenv (lg ++ [precheck]))).
Proof.
  intros Hu He Hp Htu Hte precheck. unfold register, destructure.
  rewrite (truthy_field_body _ _ Hu), Hu, He, Hp. cbn [negb orb bind].
  split; intros err; settle_all; rewrite run_username_or_email, Htu, Hte; settle_all;
    reflexivity.
Qed.

Lemma register_precheck_failure_500_witness :
  run (register race_first)
      (mkWorld [] [StoreFails (mkError "57014" "canceling statement due to timeout" EmptyString)]
               [] [])
  = Some (Returned (mkResponse 500 (Some (error_body "Database error checking user"))),
          mkWorld [] [] []
                  ([] ++ [SupabaseOr (or_text "existinguser" "existing@example.com")
                                     [Cid] None])).
Proof.
  exact (proj1 (register_precheck_failure_500 race_first "existinguser" "existing@example.com"
                  [] [] [] [] eq_refl eq_refl eq_refl eq_refl eq_refl) _).
Defined.

(** X7. When the username and the email are plain text and some row
    already has that username or that email, register answers 409 after the
    look-up alone: the password is not hashed, no insert is sent, the table
    is unchanged. *)
Theorem register_conflict_stops_at_lookup
        (req_body : jsval) (u e : string) (tbl : list Row) (uuid now : string)
        (senv : list store_choice) (lenv : list outcome) (lg : list call) :
  field req_body "username" = JStr u -> plain u = true ->
  field req_body "email" = JStr e -> plain e = true ->
  truthy (field req_body "password") = true ->
  (exists r, In r tbl /\ (r_username r = u \/ r_email r = e)) ->
  run (register req_body) (mkWorld tbl (Normal uuid now :: senv) lenv lg)
  = Some (Returned (mkResponse 409 (Some (error_body "Username or email already exists"))),
          mkWorld tbl senv lenv (lg ++ [SupabaseOr (or_text u e) [Cid] None])).
Proof. apply register_run_conflict. Qed.

Lemma register_conflict_stops_at_lookup_witness :
  run (register race_second)
      (mkWorld [mkRow "id-1" "existinguser" "existing@example.com" "$2b$10$first" "user" "t3" None]
               [Normal "c1" "t1"] [] [])
  = Some (Returned (mkResponse 409 (Some (error_body "Username or email already exists"))),
          mkWorld [mkRow "id-1" "existinguser" "existing@example.com" "$2b$10$first" "user" "t3" None]
                  [] []
                  ([] ++ [SupabaseOr (or_text "existinguser" "another@example.com")
                                     [Cid] None])).
Proof.
  apply register_conflict_stops_at_lookup; try reflexivity.
  eexists. split; [left; reflexivity | left; reflexivity].
Defined.

(** X8. When the username and the email are plain text that no row has,
    and bcrypt fails to hash the password, register answers 500 [Internal
    server error during registration] and sends no insert. *)
Theorem register_hash_failure_500
        (req_body : jsval) (u e : string) (tbl : list Row) (uuid now : string) (err : jsval)
        (senv : list store_choice) (lenv : list outcome) (lg : list call) :
  field req_body "username" = JStr u -> plain u = true ->
  field req_body "email" = JStr e -> plain e = true ->
  truthy (field req_body "password") = true ->
  (forall r, In r tbl -> r_username r <> u /\ r_email r <> e) ->
  run (register req_body) (mkWorld tbl (Normal uuid now :: senv) (Rejected err :: lenv) lg)
  = Some (Returned (mkResponse 500 (Some (error_body
            "Internal server error during registration"))),
          mkWorld tbl senv lenv
                  (lg ++ [SupabaseOr (or_text u e) [Cid] None;
                          BcryptHash (field req_body "password") SALT_ROUNDS])).
Proof.
  intros Hu Hpu He Hpe Hp Hfree. register_start Hu Hpu He Hpe Hp.
  rewrite (named_none u e tbl Hfree). cbn [limited map truthy andb].
  rewrite length_positive_arr. settle_all. rewrite <- app_assoc. reflexivity.
Qed.

Lemma register_hash_failure_500_witness :
  run (register (JObj [("username", JStr "n"); ("email", JStr "n@x.com");
                       ("password", number 12345)]))
      (mkWorld [] [Normal "c1" "t1"]
               [Rejected (JStr "data and salt arguments required")] [])
  = Some (Returned (mkResponse 500 (Some (error_body
            "Internal server error during registration"))),
          mkWorld [] [] []
                  ([] ++ [SupabaseOr (or_text "n" "n@x.com") [Cid] None;
                          BcryptHash (field (JObj [("username", JStr "n");
                                                   ("email", JStr "n@x.com");
                                                   ("password", number 12345)]) "password")
                                     SALT_ROUNDS])).
Proof.
  apply (register_hash_failure_500 _ "n" "n@x.com"); try reflexivity.
  intros r [].
Defined.

Lemma collides_false_inv (tbl : list Row) (r : Row) :
  collides tbl r = false ->
  forall x, In x tbl ->
    r_id x <> r_id r /\ r_username x <> r_username r /\ r_email x <> r_email r.
Proof.
  unfold collides. intros H x Hin.
  destruct (String.eqb (r_id x) (r_id r)) eqn:Ei;
    [|destruct (String.eqb (r_username x) (r_username r)) eqn:Eu;
      [|destruct (String.eqb (r_email x) (r_email r)) eqn:Ee]].
  4:{ apply String.eqb_neq in Ei, Eu, Ee. auto. }
  all: exfalso; assert (existsb (fun x0 => String.eqb (r_id x0) (r_id r)
                                 || String.eqb (r_username x0) (r_username r)
                                 || String.eqb (r_email x0) (r_email r)) tbl = true)
         as Hex by (apply existsb_exists; exists x; split; [exact Hin|];
                    rewrite ?Ei, ?Eu, ?Ee; cbn; rewrite ?orb_true_r; reflexivity);
       congruence.
Qed.

Ltac not_created :=
  cbn [run json send log table]; right; split;
  [reflexivity | intros resp Hresp; inversion Hresp; cbn; discriminate].

Lemma register_outcomes (req_body : jsval) (w : world) :
  match run (register req_body) w with
  | Some (res, w') =>
      (exists r,
          table w' = table w ++ [r]
          /\ res = Returned (mkResponse 201 (Some (project profile_columns r)))
          /\ forall x, In x (table w) ->
               r_id x <> r_id r /\ r_username x <> r_username r /\ r_email x <> r_email r)
      \/ (table w' = table w
          /\ forall resp, res = Returned resp -> status resp <> 201%nat)
  | None => True
  end.
Proof.
  destruct w as [tbl senv lenv lg]. unfold register.
  rewrite run_bind, run_destructure. destruct (nullish req_body); [not_created|].
  destruct (negb (truthy (field req_body "username"))
            || negb (truthy (field req_body "email"))
            || negb (truthy (field req_body "password"))).
  { not_created. }
  settle_all. rewrite run_username_or_email.
  destruct (ToString (field req_body "username")) as [u|];
    [destruct (ToString (field req_body "email")) as [e|]|]; try solve [not_created].
  lookup_step senv; cbn [truthy andb error_value]; try solve [not_created].
  all: rewrite length_positive_arr.
  all: destruct (map _ _) as [|x xs]; cbn [run]; try solve [not_created].
  all: lib_step lenv; try solve [not_created].
  all: store_step senv; cbn [truthy error_value]; try solve [not_created].
  all: rewrite answer_insert.
  all: destruct (new_row _ _ _) as [r|] eqn:Hnew;
    [destruct (collides tbl r) eqn:Hcol|]; cbv iota; settle_all;
    cbn [truthy error_value]; try solve [not_created].
  all: rewrite length_is_zero_arr;
    cbn [negb orb first get prop nullish project map field assoc col_name cell
         String.eqb Ascii.eqb Bool.eqb run bind json interpolate ToString printable to_string].
  all: cbn [table]; left; exists r; split; [reflexivity|]; split; [reflexivity|].
  all: exact (collides_false_inv tbl r Hcol).
Qed.

(** X9. In every run of register, whatever the store and bcrypt do: either
    the answer is 201 with the projection of one new row appended to the
    table, a row that shares its id, username and email with no row that was
    there; or the table is unchanged and the answer is not 201. *)
Theorem register_201_iff_created
        (req_body : jsval) (w : world) (res : result response) (w' : world) :
  run (register req_body) w = Some (res, w') ->
  (exists r,
      table w' = table w ++ [r]
      /\ res = Returned (mkResponse 201 (Some
                 (JObj [("id", JStr (r_id r)); ("username", JStr (r_username r));
                        ("email", JStr (r_email r)); ("created_at", JStr (r_created_at r));
                        ("role", JStr (r_role r))])))
      /\ forall x, In x (table w) ->
           r_id x <> r_id r /\ r_username x <> r_username r /\ r_email x <> r_email r)
  \/ (table w' = table w
      /\ forall resp, res = Returned resp -> status resp <> 201%nat).
Proof.
  intros Hrun. pose proof (register_outcomes req_body w) as H. rewrite Hrun in H. exact H.
Qed.

Lemma register_201_iff_created_witness :
  exists res w',
    run (register admin_request) admin_world = Some (res, w')
    /\ ((exists r,
            table w' = table admin_world ++ [r]
            /\ res = Returned (mkResponse 201 (Some
                       (JObj [("id", JStr (r_id r)); ("username", JStr (r_username r));
                              ("email", JStr (r_email r));
                              ("created_at", JStr (r_created_at r));
                              ("role", JStr (r_role r))])))
            /\ forall x, In x (table admin_world) ->
                 r_id x <> r_id r /\ r_username x <> r_username r /\ r_email x <> r_email r)
        \/ (table w' = table admin_world
            /\ forall resp, res = Returned resp -> status resp <> 201%nat)).
Proof.
  do 2 eexists. split; [vm_compute; reflexivity|].
  exact (register_201_iff_created admin_request admin_world _ _
           ltac:(vm_compute; reflexivity)).
Defined.

(** ** Authenticate *)

(** X10. An authenticate request with a body whose identifier or password
    is missing or falsy is answered 400 with the message below; no call is
    issued. *)
Theorem authenticate_missing_field_400 (req_body : jsval) (w : world) :
  nullish req_body = false ->
  truthy (field req_body "identifier") = false
  \/ truthy (field req_body "password") = false ->
  run (authenticate req_body) w
  = Some (Returned (mkResponse 400 (Some (error_body
            "Identifier (username or email) and password are required"))), w).
Proof.
  intros Hb H. unfold authenticate, destructure. rewrite Hb. cbn [bind].
  destruct H as [-> | ->]; cbn [negb orb]; rewrite ?orb_true_r; reflexivity.
Qed.

Lemma authenticate_missing_field_400_witness :
  run (authenticate (JObj [("identifier", JStr "missingpassword")])) one_user
  = Some (Returned (mkResponse 400 (Some (error_body
            "Identifier (username or email) and password are required"))), one_user).
Proof.
  apply authenticate_missing_field_400; [reflexivity|]. right. reflexivity.
Defined.

(** X11. Authenticate with an identifier that is plain text looks it up in
    the username column and in the email column alike, and takes the first
    row found: bcrypt is asked once, to compare the password of the request
    with the hash of that row.  If bcrypt says yes the answer is 200 with
    the id, username, email and role of that row; if it says no the answer
    is 401, whatever other rows match.  When no row is found bcrypt is not
    asked, and the answer is that same 401.  The table is not touched. *)
Theorem authenticate_first_match
        (req_body : jsval) (i : string) (tbl : list Row)
        (uuid now : string) (verdict : bool)
        (senv : list store_choice) (lenv : list outcome) (lg : list call) :
  field req_body "identifier" = JStr i -> plain i = true ->
  truthy (field req_body "password") = true ->
  let lookup := SupabaseOr (or_text i i) login_columns (Some 1%nat) in
  run (authenticate req_body)
      (mkWorld tbl (Normal uuid now :: senv) (Resolved (JBool verdict) :: lenv) lg)
  = match List.filter (named i i) tbl with
    | y :: _ =>
        Some (Returned
                (if verdict then mkResponse 200 (Some (login_of y))
                 else mkResponse 401 (Some (error_body "Invalid credentials"))),
              mkWorld tbl senv lenv
                      (lg ++ [lookup; BcryptCompare (field req_body "password")
                                                    (JStr (r_password_hash y))]))
    | [] =>
        Some (Returned (mkResponse 401 (Some (error_body "Invalid credentials"))),
              mkWorld tbl senv (Resolved (JBool verdict) :: lenv) (lg ++ [lookup]))
    end.
Proof.
  intros Hi Hpl Hp lookup. destruct (List.filter (named i i) tbl) as [|y others] eqn:Hf.
  - apply (authenticate_run_unknown req_body i tbl uuid now senv _ lg Hi Hpl Hp Hf).
  - apply (authenticate_run_match req_body i tbl y others uuid now verdict senv lenv lg
             Hi Hpl Hp Hf).
Qed.

Lemma authenticate_first_match_witness :
  run (authenticate (JObj [("identifier", JStr "auth@example.com");
                           ("password", JStr "securepassword")]))
      (mkWorld [mkRow "id1" "authuser" "auth@example.com" "$2b$10$stored" "user" "t0" None]
               [Normal "c1" "t1"] [Resolved (JBool true)] [])
  = Some (Returned (mkResponse 200 (Some
            (JObj [("message", JStr "Authentication successful");
                   ("userId", JStr "id1"); ("username", JStr "authuser");
                   ("email", JStr "auth@example.com"); ("role", JStr "user")]))),
          mkWorld [mkRow "id1" "authuser" "auth@example.com" "$2b$10$stored" "user" "t0" None]
                  [] []
                  [SupabaseOr (or_text "auth@example.com" "auth@example.com")
                              login_columns (Some 1%nat);
                   BcryptCompare (JStr "securepassword") (JStr "$2b$10$stored")]).
Proof.
  exact (authenticate_first_match
           (JObj [("identifier", JStr "auth@example.com");
                  ("password", JStr "securepassword")])
           "auth@example.com"
           [mkRow "id1" "authuser" "auth@example.com" "$2b$10$stored" "user" "t0" None]
           "c1" "t1" true [] [] [] eq_refl eq_refl eq_refl).
Defined.

(** A user whose email is another user's username: the identifier finds
    both, the earlier row wins, and the later user's own password is
    compared with the wrong hash. *)
Example authenticate_shadowed_by_earlier_row :
  exists w',
    run (authenticate (JObj [("identifier", JStr "sam"); ("password", JStr "pw-of-second")]))
        (mkWorld [mkRow "id1" "sam" "sam@example.com" "$2b$10$first" "user" "t0" None;
                  mkRow "id2" "other" "sam" "$2b$10$second" "user" "t1" None]
                 [Normal "c1" "t1"] [Resolved (JBool false)] [])
    = Some (Returned (mkResponse 401 (Some (error_body "Invalid credentials"))), w')
    /\ In (BcryptCompare (JStr "pw-of-second") (JStr "$2b$10$first")) (log w')
    /\ ~ In (BcryptCompare (JStr "pw-of-second") (JStr "$2b$10$second")) (log w').
Proof.
  eexists. split; [vm_compute; reflexivity|]. cbn. split.
  - right. left. reflexivity.
  - intros [H | [H | []]]; discriminate.
Qed.

(** X12. Authenticate and failures below it: an error reported by the
    store gives 500 [Database error finding user] and bcrypt is not asked;
    a rejected look-up gives 500 [Internal server error during
    authentication]; so does a rejected comparison, once a row is found for
    an identifier that is plain text. *)
Theorem authenticate_failures_500
        (req_body : jsval) (i : string) (tbl : list Row)
        (senv : list store_choice) (lenv : list outcome) (lg : list call) :
  truthy (field req_body "identifier") = true ->
  truthy (field req_body "password") = true ->
  ToString (field req_body "identifier") = Some i ->
  let lookup := SupabaseOr (or_text i i) login_columns (Some 1%nat) in
  (forall err,
     run (authenticate req_body) (mkWorld tbl (StoreFails err :: senv) lenv lg)
     = Some (Returned (mkResponse 500 (Some (error_body "Database error finding user"))),
             mkWorld tbl senv lenv (lg ++ [lookup])))
  /\ (forall err,
        run (authenticate req_body) (mkWorld tbl (Rejects err :: senv) lenv lg)
        = Some (Returned (mkResponse 500 (Some (error_body
                  "Internal server error during authentication"))),
                mkWorld tbl senv lenv (lg ++ [lookup])))
  /\ (forall uuid now err,
        field req_body "identifier" = JStr i -> plain i = true ->
        (exists r, In r tbl /\ (r_username r = i \/ r_email r = i)) ->
        exists w',
          run (authenticate req_body)
              (mkWorld tbl (Normal uuid now :: senv) (Rejected err :: lenv) lg)
          = Some (Returned (mkResponse 500 (Some (error_body
                    "Internal server error during authentication"))), w')
          /\ table w' = tbl).
Proof.
  intros Hi Hp Hti lookup. unfold authenticate, destructure.
  rewrite (truthy_field_body _ _ Hi), Hi, Hp. cbn [negb orb bind].
  split; [|split].
  - intros err. settle_all. rewrite run_username_or_email, Hti. settle_all. reflexivity.
  - intros err. settle_all. rewrite run_username_or_email, Hti. settle_all. reflexivity.
  - intros uuid now err Hs Hpl [r [Hin Hr]]. settle_all.
    rewrite run_username_or_email, Hti. settle_all.
    rewrite (or_fragment_plain i i Hpl Hpl). settle_all. rewrite filter_named.
    destruct (filter_some (named i i) tbl r Hin) as [y [rest ->]].
    { unfold named. destruct Hr as [-> | ->]; rewrite String.eqb_refl;
        [reflexivity | apply orb_true_r]. }
    cbn [limited firstn map truthy negb orb]. rewrite length_is_zero_arr.
    cbn [first get prop nullish project map field assoc col_name cell
         String.eqb Ascii.eqb Bool.eqb bind].
    settle_all. eexists. split; reflexivity.
Qed.

Lemma authenticate_failures_500_witness :
  run (authenticate login_request)
      (mkWorld (table one_user)
               [StoreFails (mkError "08006" "connection failure" EmptyString)]
               [Resolved (JBool true)] [])
  = Some (Returned (mkResponse 500 (Some (error_body "Database error finding user"))),
          mkWorld (table one_user) [] [Resolved (JBool true)]
                  ([] ++ [SupabaseOr (or_text "authuser" "authuser") login_columns
                                     (Some 1%nat)])).
Proof.
  exact (proj1 (authenticate_failures_500 login_request "authuser" (table one_user) []
                  [Resolved (JBool true)] [] eq_refl eq_refl eq_refl) _).
Defined.

(** ** ListProfiles and GetProfile *)

(** X13. ListProfiles, when the store executes the query, answers 200
    with one profile per row of the table, in the order of the table, each
    with exactly the properties id, username, email, created_at and role (an
    empty array for an empty table); when the store reports an error it
    answers 500 [Database error fetching profiles]. *)
Theorem list_profiles_all_rows
        (tbl : list Row) (senv : list store_choice) (lenv : list outcome) (lg : list call) :
  (forall uuid now, exists w',
     run list_profiles (mkWorld tbl (Normal uuid now :: senv) lenv lg)
     = Some (Returned (mkResponse 200 (Some (JArr (map profile_of tbl)))), w')
     /\ table w' = tbl)
  /\ (forall e, exists w',
        run list_profiles (mkWorld tbl (StoreFails e :: senv) lenv lg)
        = Some (Returned (mkResponse 500 (Some (error_body
                  "Database error fetching profiles"))), w')
        /\ table w' = tbl).
Proof.
  unfold list_profiles. split.
  - intros uuid now. settle_all. cbn [limited]. rewrite filter_all.
    destruct (interpolate_length (map (project profile_columns) tbl)) as [s ->].
    cbn [truthy js_or run bind json]. eexists. split; reflexivity.
  - intros e. settle_all. eexists. split; reflexivity.
Qed.

Lemma unique_id_found (userId : string) (tbl : list Row) (r : Row) :
  NoDup (map r_id tbl) -> In r tbl -> r_id r = userId ->
  List.filter (matches (FEq Cid userId)) tbl = [r].
Proof.
  intros Hnd Hin Hid. induction tbl as [|x tbl IH]; [destruct Hin|].
  cbn [map] in Hnd. inversion Hnd as [|? ? Hnotin Hnd']; subst.
  cbn [List.filter]. rewrite matches_id. destruct Hin as [-> | Hin].
  - rewrite String.eqb_refl. f_equal. apply id_absent. exact Hnotin.
  - destruct (String.eqb (r_id x) (r_id r)) eqn:E.
    + apply String.eqb_eq in E. exfalso. apply Hnotin. rewrite E. now apply in_map.
    + apply IH; assumption.
Qed.

Lemma get_profile_present (userId : string) (tbl : list Row) (r : Row) (uuid now : string)
      (senv : list store_choice) (lenv : list outcome) (lg : list call) :
  List.filter (matches (FEq Cid userId)) tbl = [r] ->
  run (get_profile userId) (mkWorld tbl (Normal uuid now :: senv) lenv lg)
  = Some (Returned (mkResponse 200 (Some (profile_of r))),
          mkWorld tbl senv lenv
                  (lg ++ [Supabase (mkQuery Select (FEq Cid userId) profile_columns None true)])).
Proof.
  intros Hf. unfold get_profile. settle_all. rewrite answer_select_single, Hf.
  settle_all. reflexivity.
Qed.

(** X14. GetProfile, when the store executes the query and ids are unique:
    the answer is 200 with the profile of the row that has the id if there
    is one, and 404 [User not found] if there is none; the table is not
    touched. *)
Theorem get_profile_found_or_404
        (userId : string) (tbl : list Row) (uuid now : string)
        (senv : list store_choice) (lenv : list outcome) (lg : list call) :
  NoDup (map r_id tbl) ->
  exists w',
    run (get_profile userId) (mkWorld tbl (Normal uuid now :: senv) lenv lg)
    = Some (Returned
              match List.find (fun r => String.eqb (r_id r) userId) tbl with
              | Some r => mkResponse 200 (Some (profile_of r))
              | None => mkResponse 404 (Some (error_body "User not found"))
              end, w')
    /\ table w' = tbl.
Proof.
  intros Hnd. destruct (List.find _ tbl) as [r|] eqn:Hfind.
  - apply find_some in Hfind. destruct Hfind as [Hin Hid]. apply String.eqb_eq in Hid.
    rewrite (get_profile_present userId tbl r uuid now senv lenv lg
               (unique_id_found userId tbl r Hnd Hin Hid)).
    eexists. split; reflexivity.
  - rewrite get_profile_absent.
    + eexists. split; reflexivity.
    + intros Hin. apply in_map_iff in Hin. destruct Hin as [r [Hid Hin]].
      pose proof (find_none _ _ Hfind r Hin) as H. cbn in H.
      rewrite Hid, String.eqb_refl in H. discriminate.
Qed.

Lemma get_profile_found_or_404_witness :
  exists w',
    run (get_profile "id2") (mkWorld (table two_users) [Normal "c1" "t2"] [] [])
    = Some (Returned (mkResponse 200 (Some
              (profile_of (mkRow "id2" "otheruser" "other@example.com" "$2b$10$o" "user" "t1" None)))),
            w')
    /\ table w' = table two_users.
Proof.
  apply (get_profile_found_or_404 "id2" (table two_users) "c1" "t2" [] [] []).
  cbn. repeat constructor; cbn; intuition discriminate.
Defined.

(** X15. GetProfile and store errors: the error code PGRST116 (no single
    row) is answered 404 [User not found], any other error 500 [Database
    error fetching profile], a rejected request 500 [Internal server error
    fetching profile]. *)
Theorem get_profile_store_errors
        (userId : string) (tbl : list Row)
        (senv : list store_choice) (lenv : list outcome) (lg : list call) :
  (forall e, exists w',
     run (get_profile userId) (mkWorld tbl (StoreFails e :: senv) lenv lg)
     = Some (Returned (if String.eqb (e_code e) "PGRST116"
                       then mkResponse 404 (Some (error_body "User not found"))
                       else mkResponse 500 (Some (error_body
                              "Database error fetching profile"))), w')
     /\ table w' = tbl)
  /\ (forall e, exists w',
        run (get_profile userId) (mkWorld tbl (Rejects e :: senv) lenv lg)
        = Some (Returned (mkResponse 500 (Some (error_body
                  "Internal server error fetching profile"))), w')
        /\ table w' = tbl).
Proof.
  unfold get_profile. split; intros e; settle_all.
  - cbn [truthy error_value field assoc is_str String.eqb Ascii.eqb Bool.eqb].
    destruct (String.eqb (e_code e) "PGRST116"); eexists; split; reflexivity.
  - eexists; split; reflexivity.
Qed.

(** ** UpdateProfile: validation, store errors, not found, conflicts *)

(** X16. UpdateProfile checks presence before it checks the role: a body
    in which username, email or role is missing or falsy gets 400 with the
    first message; a body with all three and a role other than ['user'] and
    ['admin'] gets 400 with the second, provided the role can be printed
    into the warning.  No call is issued in either case. *)
Theorem update_profile_validation_messages
        (now userId : string) (req_body : jsval) (w : world) :
  (nullish req_body = false ->
   truthy (field req_body "username") = false
   \/ truthy (field req_body "email") = false
   \/ truthy (field req_body "role") = false ->
   run (update_profile now userId req_body) w
   = Some (Returned (mkResponse 400 (Some (error_body
             "Username, email, and role are required for update"))), w))
  /\ (truthy (field req_body "username") = true ->
      truthy (field req_body "email") = true ->
      truthy (field req_body "role") = true ->
      field req_body "role" <> JStr "user" ->
      field req_body "role" <> JStr "admin" ->
      printable (field req_body "role") = true ->
      run (update_profile now userId req_body) w
      = Some (Returned (mkResponse 400 (Some (error_body invalid_role_message))), w)).
Proof.
  unfold update_profile, destructure. split.
  - intros -> [-> | [-> | ->]]; cbn [bind negb orb]; rewrite ?orb_true_r; reflexivity.
  - intros Hu He Hr Hnu Hna Hp. rewrite (truthy_field_body _ _ Hu), Hu, He, Hr.
    cbn [bind negb orb]. unfold includes. cbn [existsb].
    rewrite (is_str_false _ _ Hnu), (is_str_false _ _ Hna). cbn [orb negb].
    unfold interpolate, ToString. rewrite Hp. reflexivity.
Qed.

Lemma update_profile_validation_messages_witness :
  run (update_profile "t9" "id1"
         (JObj [("username", JStr "badrole"); ("email", JStr "bad@role.com");
                ("role", JStr "superadmin")])) two_users
  = Some (Returned (mkResponse 400 (Some (error_body invalid_role_message))), two_users).
Proof.
  apply (proj2 (update_profile_validation_messages "t9" "id1"
                  (JObj [("username", JStr "badrole"); ("email", JStr "bad@role.com");
                         ("role", JStr "superadmin")]) two_users));
    try reflexivity; discriminate.
Defined.

Ltac update_start Hu He Hr Hinc :=
  unfold update_profile, destructure;
  rewrite (truthy_field_body _ _ Hu), Hu, He, Hr, Hinc; cbn [bind negb orb].

(** X17. UpdateProfile maps what the store reports: error code PGRST116
    to 404 [User not found], code 23505 (unique violation) to 409 [Username
    or email already exists], any other error to 500 [Database error
    updating user], a rejected request to 500 [Internal server error during
    user update].  The table is unchanged in all four cases. *)
Theorem update_profile_store_errors
        (now userId : string) (req_body : jsval) (tbl : list Row)
        (senv : list store_choice) (lenv : list outcome) (lg : list call) :
  truthy (field req_body "username") = true ->
  truthy (field req_body "email") = true ->
  truthy (field req_body "role") = true ->
  includes ["user"; "admin"] (field req_body "role") = true ->
  (forall e,
     run (update_profile now userId req_body) (mkWorld tbl (StoreFails e :: senv) lenv lg)
     = Some (Returned
               (if String.eqb (e_code e) "PGRST116"
                then mkResponse 404 (Some (error_body "User not found"))
                else if String.eqb (e_code e) "23505"
                then mkResponse 409 (Some (error_body "Username or email already exists"))
                else mkResponse 500 (Some (error_body "Database error updating user"))),
             mkWorld tbl senv lenv (lg ++ [Supabase (update_query now userId req_body)])))
  /\ (forall e,
        run (update_profile now userId req_body) (mkWorld tbl (Rejects e :: senv) lenv lg)
        = Some (Returned (mkResponse 500 (Some (error_body
                  "Internal server error during user update"))),
                mkWorld tbl senv lenv (lg ++ [Supabase (update_query now userId req_body)]))).
Proof.
  intros Hu He Hr Hinc. update_start Hu He Hr Hinc.
  split; intros e; settle_all.
  - cbn [truthy error_value field assoc is_str String.eqb Ascii.eqb Bool.eqb].
    destruct (String.eqb (e_code e) "PGRST116"); [reflexivity|].
    destruct (String.eqb (e_code e) "23505"); reflexivity.
  - reflexivity.
Qed.

Lemma update_profile_store_errors_witness :
  run (update_profile "t9" "id1" promote_request)
      (mkWorld (table two_users) [StoreFails unique_violation] [] [])
  = Some (Returned (mkResponse 409 (Some (error_body "Username or email already exists"))),
          mkWorld (table two_users) [] []
                  ([] ++ [Supabase (update_query "t9" "id1" promote_request)])).
Proof.
  exact (proj1 (update_profile_store_errors "t9" "id1" promote_request (table two_users)
                  [] [] [] eq_refl eq_refl eq_refl eq_refl) unique_violation).
Defined.

Lemma patch_profile (now userId : string) (req_body : jsval) (r : Row) :
  nullish (field req_body "username") = false ->
  nullish (field req_body "email") = false ->
  nullish (field req_body "role") = false ->
  r_id r = userId ->
  patch [(Cusername, field req_body "username"); (Cemail, field req_body "email");
         (Crole, field req_body "role"); (Cupdated_at, JStr now)] r
  = Some (updated now userId req_body r).
Proof.
  intros Hu He Hr Hid. unfold updated. rewrite Hid, String.eqb_refl.
  cbn [patch set_cell]. rewrite Hu, He, Hr. cbn. rewrite Hid. reflexivity.
Qed.

Lemma patch_all_profile (now userId : string) (req_body : jsval) (tbl : list Row) :
  nullish (field req_body "username") = false ->
  nullish (field req_body "email") = false ->
  nullish (field req_body "role") = false ->
  patch_all (FEq Cid userId)
            [(Cusername, field req_body "username"); (Cemail, field req_body "email");
             (Crole, field req_body "role"); (Cupdated_at, JStr now)] tbl
  = Some (map (updated now userId req_body) tbl,
          map (updated now userId req_body) (List.filter (matches (FEq Cid userId)) tbl)).
Proof.
  intros Hu He Hr. induction tbl as [|r tbl IH]; [reflexivity|].
  cbn [patch_all List.filter map]. rewrite IH, matches_id.
  destruct (String.eqb (r_id r) userId) eqn:Hid.
  - apply String.eqb_eq in Hid. rewrite (patch_profile now userId req_body r Hu He Hr Hid).
    reflexivity.
  - cbn [map]. unfold updated at 3. rewrite Hid. reflexivity.
Qed.

Lemma updated_other (now userId : string) (req_body : jsval) (tbl : list Row) :
  ~ In userId (map r_id tbl) -> map (updated now userId req_body) tbl = tbl.
Proof.
  intros H. induction tbl as [|r tbl IH]; [reflexivity|].
  cbn [map] in *. unfold updated at 1.
  destruct (String.eqb (r_id r) userId) eqn:E.
  - apply String.eqb_eq in E. exfalso. apply H. now left.
  - rewrite IH; [reflexivity|]. intros Hin. apply H. now right.
Qed.

Lemma no_match_no_clash (f : filter) (values : list (column * jsval)) (tbl' tbl : list Row) :
  List.filter (matches f) tbl = [] -> existsb (clashes f values tbl') tbl = false.
Proof.
  intros H. induction tbl as [|r tbl IH]; [reflexivity|].
  cbn [List.filter existsb] in *. unfold clashes at 1.
  destruct (matches f r); [discriminate|]. cbn [andb orb]. exact (IH H).
Qed.

(** The run of UpdateProfile on a valid body when the store executes the
    update. *)
Lemma update_profile_run (now userId : string) (req_body : jsval) (tbl : list Row)
      (uuid now' : string) (senv : list store_choice) (lenv : list outcome) (lg : list call) :
  truthy (field req_body "username") = true ->
  truthy (field req_body "email") = true ->
  truthy (field req_body "role") = true ->
  includes ["user"; "admin"] (field req_body "role") = true ->
  let q := update_query now userId req_body in
  let tbl' := map (updated now userId req_body) tbl in
  run (update_profile now userId req_body) (mkWorld tbl (Normal uuid now' :: senv) lenv lg)
  = if existsb (clashes (q_filter q)
                  [(Cusername, field req_body "username"); (Cemail, field req_body "email");
                   (Crole, field req_body "role"); (Cupdated_at, JStr now)] tbl') tbl
    then Some (Returned (mkResponse 409 (Some (error_body "Username or email already exists"))),
               mkWorld tbl senv lenv (lg ++ [Supabase q]))
    else Some (Returned
                 match List.filter (matches (FEq Cid userId)) tbl with
                 | [] => mkResponse 404 (Some (error_body "User not found"))
                 | r :: _ => mkResponse 200 (Some (profile_of (updated now userId req_body r)))
                 end,
               mkWorld tbl' senv lenv (lg ++ [Supabase q])).
Proof.
  intros Hu He Hr Hinc q tbl'. update_start Hu He Hr Hinc.
  settle_all. rewrite answer_update.
  rewrite (patch_all_profile now userId req_body tbl)
    by (apply truthy_not_nullish; assumption).
  cbv iota. subst q tbl'. cbn [q_filter update_query].
  destruct (existsb _ tbl); settle_all.
  - reflexivity.
  - cbn [truthy negb orb]. rewrite length_is_zero_arr.
    destruct (List.filter (matches (FEq Cid userId)) tbl) as [|r rest]; reflexivity.
Qed.

(** X18. UpdateProfile on an id that no row has, with a valid body and
    the store executing the update: the answer is 404 [User not found] and
    no row changes. *)
Theorem update_profile_unknown_id_404
        (now userId : string) (req_body : jsval) (tbl : list Row)
        (uuid now' : string) (senv : list store_choice) (lenv : list outcome) (lg : list call) :
  truthy (field req_body "username") = true ->
  truthy (field req_body "email") = true ->
  truthy (field req_body "role") = true ->
  includes ["user"; "admin"] (field req_body "role") = true ->
  ~ In userId (map r_id tbl) ->
  run (update_profile now userId req_body) (mkWorld tbl (Normal uuid now' :: senv) lenv lg)
  = Some (Returned (mkResponse 404 (Some (error_body "User not found"))),
          mkWorld tbl senv lenv (lg ++ [Supabase (update_query now userId req_body)])).
Proof.
  intros Hu He Hr Hinc Habs.
  rewrite (update_profile_run now userId req_body tbl uuid now' senv lenv lg Hu He Hr Hinc).
  cbn [q_filter update_query].
  rewrite (no_match_no_clash _ _ _ _ (id_absent _ _ Habs)), (id_absent _ _ Habs).
  rewrite (updated_other now userId req_body tbl Habs). reflexivity.
Qed.

Lemma update_profile_unknown_id_404_witness :
  run (update_profile "t9" "123e4567" promote_request) two_users
  = Some (Returned (mkResponse 404 (Some (error_body "User not found"))),
          mkWorld (table two_users) [] [] ([] ++ [Supabase (update_query "t9" "123e4567" promote_request)])).
Proof.
  apply (update_profile_unknown_id_404 "t9" "123e4567" promote_request (table two_users)
           "c1" "t2" [] [] []); try reflexivity.
  cbn. intuition discriminate.
Defined.

Lemma occurrences_two (p : Row -> bool) (l : list Row) (a b : Row) :
  In a l -> In b l -> a <> b -> p a = true -> p b = true ->
  (1 <? occurrences p l)%nat = true.
Proof.
  intros Ha Hb Hab Hpa Hpb. unfold occurrences.
  assert (Ia : In a (List.filter p l)) by (apply filter_In; auto).
  assert (Ib : In b (List.filter p l)) by (apply filter_In; auto).
  destruct (List.filter p l) as [|z [|z' rest]]; [destruct Ia| |reflexivity].
  destruct Ia as [<- | []]. destruct Ib as [E | []]. congruence.
Qed.

Lemma updated_id (now userId : string) (req_body : jsval) (r : Row) :
  r_id (updated now userId req_body r) = r_id r.
Proof. unfold updated. destruct (String.eqb (r_id r) userId); reflexivity. Qed.

Lemma updated_untouched (now userId : string) (req_body : jsval) (r : Row) :
  r_id r <> userId -> updated now userId req_body r = r.
Proof. intros H. unfold updated. apply String.eqb_neq in H. now rewrite H. Qed.

(** X19. UpdateProfile with a valid body for a user that exists, when
    another user already has the new username or the new email and the store
    executes the update: the answer is 409 [Username or email already
    exists] and no row changes. *)
Theorem update_profile_conflict_409
        (now userId : string) (req_body : jsval) (tbl : list Row) (target other : Row)
        (uuid now' : string) (senv : list store_choice) (lenv : list outcome) (lg : list call) :
  truthy (field req_body "username") = true ->
  truthy (field req_body "email") = true ->
  truthy (field req_body "role") = true ->
  includes ["user"; "admin"] (field req_body "role") = true ->
  In target tbl -> r_id target = userId ->
  In other tbl -> r_id other <> userId ->
  r_username other = to_string (field req_body "username")
  \/ r_email other = to_string (field req_body "email") ->
  run (update_profile now userId req_body) (mkWorld tbl (Normal uuid now' :: senv) lenv lg)
  = Some (Returned (mkResponse 409 (Some (error_body "Username or email already exists"))),
          mkWorld tbl senv lenv (lg ++ [Supabase (update_query now userId req_body)])).
Proof.
  intros Hu He Hr Hinc Ht Hid Ho Hoid Hsame.
  rewrite (update_profile_run now userId req_body tbl uuid now' senv lenv lg Hu He Hr Hinc).
  cbn [q_filter update_query].
  assert (Hclash : existsb (clashes (FEq Cid userId)
                     [(Cusername, field req_body "username"); (Cemail, field req_body "email");
                      (Crole, field req_body "role"); (Cupdated_at, JStr now)]
                     (map (updated now userId req_body) tbl)) tbl = true).
  { apply existsb_exists. exists target. split; [exact Ht|].
    unfold clashes. rewrite matches_id, Hid, String.eqb_refl. cbn [andb].
    rewrite (patch_profile now userId req_body target)
      by (try apply truthy_not_nullish; assumption).
    assert (Hin1 : In (updated now userId req_body target)
                      (map (updated now userId req_body) tbl)) by (now apply in_map).
    assert (Hin2 : In other (map (updated now userId req_body) tbl)).
    { rewrite <- (updated_untouched now userId req_body other Hoid). now apply in_map. }
    assert (Hne : updated now userId req_body target <> other).
    { intros E. apply Hoid. rewrite <- E, updated_id. exact Hid. }
    destruct Hsame as [Hsame | Hsame].
    - rewrite (occurrences_two
                 (fun x => String.eqb (r_username x)
                             (r_username (updated now userId req_body target)))
                 _ _ _ Hin1 Hin2 Hne).
      + rewrite orb_true_r. reflexivity.
      + apply String.eqb_refl.
      + unfold updated. rewrite Hid, String.eqb_refl. cbn [r_username].
        rewrite Hsame. apply String.eqb_refl.
    - rewrite (occurrences_two
                 (fun x => String.eqb (r_email x)
                             (r_email (updated now userId req_body target)))
                 _ _ _ Hin1 Hin2 Hne).
      + rewrite orb_true_r. reflexivity.
      + apply String.eqb_refl.
      + unfold updated. rewrite Hid, String.eqb_refl. cbn [r_email].
        rewrite Hsame. apply String.eqb_refl. }
  rewrite Hclash. reflexivity.
Qed.

Lemma update_profile_conflict_409_witness :
  run (update_profile "t9" "id1"
         (JObj [("username", JStr "updateuser"); ("email", JStr "other@example.com");
                ("role", JStr "user")]))
      two_users
  = Some (Returned (mkResponse 409 (Some (error_body "Username or email already exists"))),
          mkWorld (table two_users) [] []
                  ([] ++ [Supabase (update_query "t9" "id1"
                            (JObj [("username", JStr "updateuser");
                                   ("email", JStr "other@example.com");
                                   ("role", JStr "user")]))])).
Proof.
  apply (update_profile_conflict_409 "t9" "id1" _ (table two_users)
           (mkRow "id1" "updateuser" "update@example.com" "$2b$10$h" "user" "t0" None)
           (mkRow "id2" "otheruser" "other@example.com" "$2b$10$o" "user" "t1" None)
           "c1" "t2" [] [] []); try reflexivity.
  - left. reflexivity.
  - right. left. reflexivity.
  - discriminate.
  - right. reflexivity.
Defined.

Lemma filter_id_updated (now userId : string) (req_body : jsval) (tbl : list Row) :
  List.filter (matches (FEq Cid userId)) (map (updated now userId req_body) tbl)
  = map (updated now userId req_body) (List.filter (matches (FEq Cid userId)) tbl).
Proof.
  induction tbl as [|r tbl IH]; [reflexivity|].
  cbn [map List.filter]. rewrite !matches_id, updated_id, IH.
  destruct (String.eqb (r_id r) userId); reflexivity.
Qed.

(** X20. When UpdateProfile answers 200 for a user whose id is unique in
    the table, the GetProfile that follows answers 200 with the very same
    body: the updated profile. *)
Theorem update_then_get_profile
        (now userId : string) (req_body : jsval) (tbl : list Row)
        (u1 n1 u2 n2 : string) (senv : list store_choice) (lenv : list outcome)
        (lg : list call) (resp : response) (w1 : world) :
  NoDup (map r_id tbl) ->
  run (update_profile now userId req_body)
      (mkWorld tbl (Normal u1 n1 :: Normal u2 n2 :: senv) lenv lg)
  = Some (Returned resp, w1) ->
  status resp = 200%nat ->
  exists target w2,
    In target tbl /\ r_id target = userId
    /\ body resp = Some (JObj [("id", JStr userId);
                               ("username", JStr (to_string (field req_body "username")));
                               ("email", JStr (to_string (field req_body "email")));
                               ("created_at", JStr (r_created_at target));
                               ("role", field req_body "role")])
    /\ run (get_profile userId) w1 = Some (Returned resp, w2).
Proof.
  intros Hnd Hrun H200. revert Hrun.
  destruct (nullish req_body) eqn:Hb.
  { unfold update_profile, destructure. rewrite Hb. cbn [bind run]. discriminate. }
  destruct (negb (truthy (field req_body "username"))
            || negb (truthy (field req_body "email"))
            || negb (truthy (field req_body "role"))) eqn:Hmiss.
  { unfold update_profile, destructure. rewrite Hb, Hmiss. cbn [bind run json].
    intros H. inversion H; subst. discriminate. }
  destruct (negb (includes ["user"; "admin"] (field req_body "role"))) eqn:Hinc.
  { unfold update_profile, destructure. rewrite Hb, Hmiss, Hinc. cbn [bind].
    rewrite run_bind, run_interpolate. destruct (ToString _); [|discriminate].
    cbn [run json]. intros H. inversion H; subst. discriminate. }
  apply orb_false_iff in Hmiss. destruct Hmiss as [Hmiss Hr].
  apply orb_false_iff in Hmiss. destruct Hmiss as [Hu He].
  apply negb_false_iff in Hu, He, Hr, Hinc.
  rewrite (update_profile_run now userId req_body tbl u1 n1 (Normal u2 n2 :: senv)
             lenv lg Hu He Hr Hinc).
  cbn [q_filter update_query].
  destruct (existsb _ tbl).
  { intros H. inversion H; subst. discriminate. }
  destruct (List.filter (matches (FEq Cid userId)) tbl) as [|target rest] eqn:Hf.
  { intros H. inversion H; subst. discriminate. }
  intros H. inversion H; subst resp w1. clear H.
  assert (Hin : In target tbl /\ matches (FEq Cid userId) target = true)
    by (apply filter_In; rewrite Hf; now left).
  destruct Hin as [Hin Hm]. rewrite matches_id in Hm. apply String.eqb_eq in Hm.
  rewrite (unique_id_found userId tbl target Hnd Hin Hm) in Hf. injection Hf as <-.
  exists target. eexists. split; [exact Hin|]. split; [exact Hm|]. split.
  - cbn [body]. unfold profile_of, updated. rewrite Hm, String.eqb_refl.
    cbn [r_id r_username r_email r_created_at r_role].
    destruct (includes_user_admin _ Hinc) as [-> | ->]; reflexivity.
  - apply get_profile_present. rewrite filter_id_updated.
    rewrite (unique_id_found userId tbl target Hnd Hin Hm). reflexivity.
Qed.

Lemma update_then_get_profile_witness :
  exists resp w1 target w2,
    run (update_profile "2024-05-01T10:00:00.000Z" "id1" promote_request)
        (mkWorld (table two_users) [Normal "c1" "t2"; Normal "c2" "t3"] [] [])
    = Some (Returned resp, w1)
    /\ In target (table two_users) /\ r_id target = "id1"
    /\ body resp = Some (JObj [("id", JStr "id1");
                               ("username", JStr (to_string (field promote_request "username")));
                               ("email", JStr (to_string (field promote_request "email")));
                               ("created_at", JStr (r_created_at target));
                               ("role", field promote_request "role")])
    /\ run (get_profile "id1") w1 = Some (Returned resp, w2).
Proof.
  do 2 eexists.
  assert (Hnd : NoDup (map r_id (table two_users)))
    by (cbn; repeat constructor; cbn; intuition discriminate).
  destruct (update_then_get_profile "2024-05-01T10:00:00.000Z" "id1" promote_request
              (table two_users) "c1" "t2" "c2" "t3" [] [] [] _ _ Hnd
              ltac:(vm_compute; reflexivity) eq_refl) as [target [w2 H]].
  exists target, w2. split; [vm_compute; reflexivity | exact H].
Defined.

(** ** DeleteProfile: not found, store errors, peer success, repetition *)

Lemma rows_without_absent (userId : string) (tbl : list Row) :
  ~ In userId (map r_id tbl) -> rows_without userId tbl = tbl.
Proof.
  intros H. unfold rows_without. induction tbl as [|r tbl IH]; [reflexivity|].
  cbn [List.filter]. rewrite matches_id. cbn [map] in H.
  destruct (String.eqb (r_id r) userId) eqn:E.
  - apply String.eqb_eq in E. exfalso. apply H. now left.
  - cbn [negb]. rewrite IH; [reflexivity|]. intros Hin. apply H. now right.
Qed.

Lemma delete_profile_run_absent (url : jsval) (userId : string) (tbl : list Row)
      (uuid now : string) (senv : list store_choice) (lenv : list outcome) (lg : list call) :
  ~ In userId (map r_id tbl) ->
  run (delete_profile url userId) (mkWorld tbl (Normal uuid now :: senv) lenv lg)
  = Some (Returned (mkResponse 404 (Some (error_body "User not found"))),
          mkWorld tbl senv lenv (lg ++ [Supabase (delete_query userId)])).
Proof.
  intros Habs. unfold delete_profile. settle_all. rewrite answer_delete. settle_all.
  rewrite (id_absent _ _ Habs). cbn [map truthy negb orb andb snd].
  fold (rows_without userId tbl). rewrite (rows_without_absent _ _ Habs). reflexivity.
Qed.

(** X21. DeleteProfile on an id that no row has, the store executing the
    delete: the answer is 404 [User not found]; the table is unchanged and
    the properties service is not called, configured or not. *)
Theorem delete_profile_unknown_id_404
        (url : jsval) (userId : string) (tbl : list Row)
        (uuid now : string) (senv : list store_choice) (lenv : list outcome) (lg : list call) :
  ~ In userId (map r_id tbl) ->
  run (delete_profile url userId) (mkWorld tbl (Normal uuid now :: senv) lenv lg)
  = Some (Returned (mkResponse 404 (Some (error_body "User not found"))),
          mkWorld tbl senv lenv (lg ++ [Supabase (delete_query userId)])).
Proof. apply delete_profile_run_absent. Qed.

Lemma delete_profile_unknown_id_404_witness :
  run (delete_profile (JStr "http://localhost:9999") "123e4567")
      (mkWorld (table two_users) [Normal "c1" "t1"] [] [])
  = Some (Returned (mkResponse 404 (Some (error_body "User not found"))),
          mkWorld (table two_users) [] [] ([] ++ [Supabase (delete_query "123e4567")])).
Proof.
  apply delete_profile_unknown_id_404. cbn. intuition discriminate.
Defined.

(** X22. DeleteProfile when the store fails: the error code PGRST116 is
    answered 404 [User not found]; any other error is answered 500 with the
    store's own message, or with [Database error deleting user] when the
    message is empty; a rejected request is answered 500 [Internal server
    error during user deletion process].  No row is deleted and the
    properties service is not called. *)
Theorem delete_profile_store_errors
        (url : jsval) (userId : string) (tbl : list Row)
        (senv : list store_choice) (lenv : list outcome) (lg : list call) :
  (forall e,
     run (delete_profile url userId) (mkWorld tbl (StoreFails e :: senv) lenv lg)
     = Some (Returned
               (if String.eqb (e_code e) "PGRST116"
                then mkResponse 404 (Some (error_body "User not found"))
                else mkResponse 500 (Some (error_body
                       (if is_empty (e_message e) then "Database error deleting user"
                        else e_message e)))),
             mkWorld tbl senv lenv (lg ++ [Supabase (delete_query userId)])))
  /\ (forall e,
        run (delete_profile url userId) (mkWorld tbl (Rejects e :: senv) lenv lg)
        = Some (Returned (mkResponse 500 (Some (error_body
                  "Internal server error during user deletion process"))),
                mkWorld tbl senv lenv (lg ++ [Supabase (delete_query userId)]))).
Proof.
  unfold delete_profile. split; intros e; settle_all.
  - cbn [truthy error_value field assoc is_str String.eqb Ascii.eqb Bool.eqb andb orb].
    rewrite orb_false_r.
    destruct (String.eqb (e_code e) "PGRST116"); [reflexivity|].
    unfold js_or. cbn [truthy]. destruct (is_empty (e_message e)); reflexivity.
  - reflexivity.
Qed.

(** X23. DeleteProfile on an id the table holds, with the properties
    service configured and answering: the store delete comes first, then one
    DELETE to [<url>/properties/user/<id>], and the answer is 204 without a
    body. *)
Theorem delete_profile_peer_success_204
        (base userId : string) (tbl : list Row) (v : jsval)
        (uuid now : string) (senv : list store_choice) (lenv : list outcome) (lg : list call) :
  base <> EmptyString ->
  In userId (map r_id tbl) ->
  run (delete_profile (JStr base) userId)
      (mkWorld tbl (Normal uuid now :: senv) (Resolved v :: lenv) lg)
  = Some (Returned (mkResponse 204 None),
          mkWorld (rows_without userId tbl) senv lenv
                  (lg ++ [Supabase (delete_query userId);
                          AxiosDelete (base ++ "/properties/user/" ++ userId)%string])).
Proof.
  intros Hbase Hin.
  exact (delete_profile_run_configured (JStr base) userId tbl uuid now senv (Resolved v)
           lenv lg (proj2 (truthy_str base) Hbase) Hin).
Qed.

Lemma delete_profile_peer_success_204_witness :
  run (delete_profile (JStr "http://properties:3002") "id1")
      (mkWorld (table two_users) [Normal "c1" "t1"] [Resolved (JObj [("status", number 204)])] [])
  = Some (Returned (mkResponse 204 None),
          mkWorld (rows_without "id1" (table two_users)) [] []
                  ([] ++ [Supabase (delete_query "id1");
                          AxiosDelete ("http://properties:3002" ++ "/properties/user/" ++ "id1")%string])).
Proof.
  apply delete_profile_peer_success_204; [discriminate | cbn; auto].
Defined.

(** X24. Deleting twice: after a DeleteProfile that found the row,
    whatever the peer did, a second DeleteProfile of the same id is answered
    404 [User not found] and calls the properties service no more. *)
Theorem delete_profile_twice_404
        (url : jsval) (userId : string) (tbl : list Row) (peer : outcome)
        (u1 n1 u2 n2 : string) (senv : list store_choice) (lenv : list outcome)
        (lg : list call) :
  In userId (map r_id tbl) ->
  exists resp w1 w2,
    run (delete_profile url userId)
        (mkWorld tbl (Normal u1 n1 :: Normal u2 n2 :: senv) (peer :: lenv) lg)
    = Some (Returned resp, w1)
    /\ run (delete_profile url userId) w1
       = Some (Returned (mkResponse 404 (Some (error_body "User not found"))), w2)
    /\ table w2 = table w1
    /\ log w2 = log w1 ++ [Supabase (delete_query userId)]
    /\ lib_env w2 = lib_env w1.
Proof.
  intros Hin. destruct (truthy url) eqn:Hurl.
  - rewrite (delete_profile_run_configured _ _ _ _ _ _ _ _ _ Hurl Hin).
    do 3 eexists. split; [reflexivity|].
    rewrite delete_profile_run_absent by apply id_gone.
    repeat split; reflexivity.
  - rewrite (delete_profile_run_unconfigured _ _ _ _ _ _ _ _ Hurl Hin).
    do 3 eexists. split; [reflexivity|].
    rewrite delete_profile_run_absent by apply id_gone.
    repeat split; reflexivity.
Qed.

Lemma delete_profile_twice_404_witness :
  exists resp w1 w2,
    run (delete_profile (JStr "http://localhost:9999") "id1")
        (mkWorld (table two_users) [Normal "c1" "t1"; Normal "c2" "t2"]
                 [Rejected (JObj [("message", JStr "connect ECONNREFUSED")])] [])
    = Some (Returned resp, w1)
    /\ run (delete_profile (JStr "http://localhost:9999") "id1") w1
       = Some (Returned (mkResponse 404 (Some (error_body "User not found"))), w2)
    /\ table w2 = table w1
    /\ log w2 = log w1 ++ [Supabase (delete_query "id1")]
    /\ lib_env w2 = lib_env w1.
Proof.
  apply delete_profile_twice_404. cbn. auto.
Defined.

Ltac kept_or_removed :=
  cbn [run json send table]; first [left; reflexivity | right; reflexivity].

Lemma delete_profile_outcomes (url : jsval) (userId : string) (w : world) :
  match run (delete_profile url userId) w with
  | Some (_, w') => table w' = table w \/ table w' = rows_without userId (table w)
  | None => True
  end.
Proof.
  destruct w as [tbl senv lenv lg]. unfold delete_profile.
  assert (Hnormal : forall uuid now senv,
            match run (delete_profile url userId) (mkWorld tbl (Normal uuid now :: senv) lenv lg)
            with
            | Some (_, w') => table w' = tbl \/ table w' = rows_without userId tbl
            | None => True
            end).
  2:{ unfold delete_profile in *.
      destruct senv as [|[uuid now|f uuid now|e|e] senv].
      - settle_all. exact I.
      - apply Hnormal.
      - specialize (Hnormal uuid now senv). revert Hnormal. settle_all. exact (fun H => H).
      - settle_all.
        cbn [truthy error_value field assoc is_str String.eqb Ascii.eqb Bool.eqb];
        repeat (match goal with |- context [if ?c then _ else _] => destruct c end);
        kept_or_removed.
      - settle_all. kept_or_removed. }
  clear senv. intros uuid now senv. unfold delete_profile. settle_all.
  rewrite answer_delete. settle_all. cbn [truthy negb orb]. rewrite length_is_zero_arr.
  fold (rows_without userId tbl).
  destruct (map _ _) as [|x xs]; cbn [run json]; [kept_or_removed|].
  destruct (truthy url); settle_all; [|kept_or_removed].
  lib_step lenv; [kept_or_removed|].
  unfold get, prop. destruct (nullish e); [kept_or_removed|].
  cbn [bind run try_catch]. rewrite run_bind, run_interpolate.
  destruct (ToString _); kept_or_removed.
Qed.

(** X25. DeleteProfile touches no other user: in every run, whatever the
    store and the peer do, every row whose id is not the one deleted is in
    the table afterwards exactly if it was there before, and no row
    appears. *)
Theorem delete_profile_spares_other_users
        (url : jsval) (userId : string) (w : world) (res : result response) (w' : world) :
  run (delete_profile url userId) w = Some (res, w') ->
  (forall r, In r (table w') -> In r (table w))
  /\ (forall r, r_id r <> userId -> In r (table w) -> In r (table w')).
Proof.
  intros Hrun. pose proof (delete_profile_outcomes url userId w) as H.
  rewrite Hrun in H. destruct H as [-> | ->].
  - split; auto.
  - unfold rows_without. split.
    + intros r Hin. apply filter_In in Hin. tauto.
    + intros r Hid Hin. apply filter_In. split; [exact Hin|].
      rewrite matches_id. apply String.eqb_neq in Hid. now rewrite Hid.
Qed.

Lemma delete_profile_spares_other_users_witness :
  exists res w',
    run (delete_profile JUndefined "id1")
        (mkWorld (table two_users) [Normal "c1" "t1"] [] [])
    = Some (res, w')
    /\ (forall r, In r (table w') -> In r (table two_users))
    /\ (forall r, r_id r <> "id1" -> In r (table two_users) -> In r (table w')).
Proof.
  do 2 eexists. split; [vm_compute; reflexivity|].
  exact (delete_profile_spares_other_users JUndefined "id1"
           (mkWorld (table two_users) [Normal "c1" "t1"] [] []) _ _
           ltac:(vm_compute; reflexivity)).
Defined.

(** ** The delete handler of app.js *)

(** X26. When the store executes the delete, the handler of app.js
    answers exactly as the handler of index.js does with no properties
    service configured: same response (204 or 404), same table, same log. *)
Theorem delete_profile_app_js_agrees
        (url : jsval) (userId : string) (tbl : list Row)
        (uuid now : string) (senv : list store_choice) (lenv : list outcome) (lg : list call) :
  truthy url = false ->
  run (delete_profile_app_js userId) (mkWorld tbl (Normal uuid now :: senv) lenv lg)
  = run (delete_profile url userId) (mkWorld tbl (Normal uuid now :: senv) lenv lg).
Proof.
  intros Hurl. unfold delete_profile_app_js, delete_profile. settle_all.
  rewrite answer_delete. settle_all. cbn [truthy negb orb]. rewrite length_is_zero_arr.
  destruct (map _ _) as [|x xs]; cbn [run json]; [reflexivity|].
  rewrite Hurl. reflexivity.
Qed.

Lemma delete_profile_app_js_agrees_witness :
  run (delete_profile_app_js "id1") (mkWorld (table two_users) [Normal "c1" "t1"] [] [])
  = run (delete_profile JUndefined "id1") (mkWorld (table two_users) [Normal "c1" "t1"] [] []).
Proof.
  apply delete_profile_app_js_agrees. reflexivity.
Defined.

Lemma delete_profile_app_js_no_peer (userId : string) :
  issues (fun c => forall endpoint, c <> AxiosDelete endpoint) (delete_profile_app_js userId).
Proof.
  unfold delete_profile_app_js. repeat issues_step. intros endpoint. discriminate.
Qed.

(** X27. The handler of app.js never calls the properties service, and it
    answers every error the store reports with 500 [Database error deleting
    user], the code PGRST116 included (for which index.js answers 404). *)
Theorem delete_profile_app_js_errors
        (userId : string) :
  (forall w res w',
     run (delete_profile_app_js userId) w = Some (res, w') ->
     exists calls, log w' = log w ++ calls
                   /\ forall endpoint, ~ In (AxiosDelete endpoint) calls)
  /\ (forall e tbl senv lenv lg,
        run (delete_profile_app_js userId) (mkWorld tbl (StoreFails e :: senv) lenv lg)
        = Some (Returned (mkResponse 500 (Some (error_body "Database error deleting user"))),
                mkWorld tbl senv lenv (lg ++ [Supabase (delete_query userId)])))
  /\ (forall url tbl senv lenv lg,
        run (delete_profile url userId) (mkWorld tbl (StoreFails no_rows :: senv) lenv lg)
        = Some (Returned (mkResponse 404 (Some (error_body "User not found"))),
                mkWorld tbl senv lenv (lg ++ [Supabase (delete_query userId)]))).
Proof.
  split; [|split].
  - intros w res w' Hrun.
    destruct (issues_run _ _ (delete_profile_app_js_no_peer userId) w res w' Hrun)
      as [calls [Hlog Hcalls]].
    exists calls. split; [exact Hlog|]. intros endpoint Hin.
    rewrite Forall_forall in Hcalls. exact (Hcalls _ Hin endpoint eq_refl).
  - intros e tbl senv lenv lg. unfold delete_profile_app_js. settle_all. reflexivity.
  - intros url tbl senv lenv lg. unfold delete_profile. settle_all. reflexivity.
Qed.

Lemma delete_profile_app_js_errors_witness :
  exists calls,
    log (mkWorld (rows_without "id1" (table two_users)) [] []
                 [Supabase (delete_query "id1")])
    = log (mkWorld (table two_users) [Normal "c1" "t1"] [] []) ++ calls
    /\ forall endpoint, ~ In (AxiosDelete endpoint) calls.
Proof.
  exact (proj1 (delete_profile_app_js_errors "id1")
           (mkWorld (table two_users) [Normal "c1" "t1"] [] []) _ _
           ltac:(vm_compute; reflexivity)).
Defined.

(** ** Register, then read or log in *)

(** X28. Register with a username and an email that are plain text and
    that no row has, then GetProfile with the id the store gave: the profile
    comes back 200 with the very body register answered, the username and
    email of the request and the role ['user']. *)
Theorem register_then_get_profile
        (req_body : jsval) (u e h : string) (tbl : list Row)
        (u1 n1 uuid n2 u3 n3 : string) (senv : list store_choice) (lenv : list outcome)
        (lg : list call) :
  field req_body "username" = JStr u -> plain u = true ->
  field req_body "email" = JStr e -> plain e = true ->
  truthy (field req_body "password") = true ->
  (forall r, In r tbl -> r_username r <> u /\ r_email r <> e) ->
  ~ In uuid (map r_id tbl) ->
  exists w1 w2,
    run (register req_body)
        (mkWorld tbl (Normal u1 n1 :: Normal uuid n2 :: Normal u3 n3 :: senv)
                 (Resolved (JStr h) :: lenv) lg)
    = Some (Returned (mkResponse 201 (Some
              (JObj [("id", JStr uuid); ("username", JStr u); ("email", JStr e);
                     ("created_at", JStr n2); ("role", JStr "user")]))), w1)
    /\ run (get_profile uuid) w1
       = Some (Returned (mkResponse 200 (Some
                 (JObj [("id", JStr uuid); ("username", JStr u); ("email", JStr e);
                        ("created_at", JStr n2); ("role", JStr "user")]))), w2).
Proof.
  intros Hu Hpu He Hpe Hp Hfree Hfresh.
  rewrite (register_run_created req_body u e h tbl u1 n1 uuid n2 (Normal u3 n3 :: senv) lenv lg
             Hu Hpu He Hpe Hp Hfree Hfresh).
  do 2 eexists. split; [reflexivity|].
  rewrite (get_profile_present uuid _ (mkRow uuid u e h "user" n2 None)).
  - reflexivity.
  - rewrite filter_app, (id_absent _ _ Hfresh). cbn [List.filter app].
    rewrite matches_id. cbn [r_id]. rewrite String.eqb_refl. reflexivity.
Qed.

Lemma register_then_get_profile_witness :
  exists w1 w2,
    run (register admin_request)
        (mkWorld [] [Normal "c1" "t1"; Normal "id-9" "t2"; Normal "c3" "t3"]
                 [Resolved (JStr "$2b$10$m")] [])
    = Some (Returned (mkResponse 201 (Some
              (JObj [("id", JStr "id-9"); ("username", JStr "mallory");
                     ("email", JStr "mallory@example.com");
                     ("created_at", JStr "t2"); ("role", JStr "user")]))), w1)
    /\ run (get_profile "id-9") w1
       = Some (Returned (mkResponse 200 (Some
                 (JObj [("id", JStr "id-9"); ("username", JStr "mallory");
                        ("email", JStr "mallory@example.com");
                        ("created_at", JStr "t2"); ("role", JStr "user")]))), w2).
Proof.
  apply (register_then_get_profile admin_request "mallory" "mallory@example.com" "$2b$10$m" []);
    try reflexivity.
  - intros r [].
  - intros [].
Defined.

(** X29. Register with a username and an email that are plain text, then
    Authenticate with that username or with that email, on a table where no
    earlier row carries either in either column: bcrypt is asked to compare
    the password of the login with the very hash it produced at
    registration, and when it agrees the answer is 200 with the id the store
    gave, the registered username and email, and the role ['user']. *)
Theorem register_then_authenticate
        (req_body login : jsval) (u e h : string) (tbl : list Row)
        (u1 n1 uuid n2 u3 n3 : string) (senv : list store_choice) (lenv : list outcome)
        (lg : list call) :
  field req_body "username" = JStr u -> plain u = true ->
  field req_body "email" = JStr e -> plain e = true ->
  truthy (field req_body "password") = true ->
  (forall r, In r tbl -> r_username r <> u /\ r_email r <> e
                         /\ r_username r <> e /\ r_email r <> u) ->
  ~ In uuid (map r_id tbl) ->
  field login "identifier" = JStr u \/ field login "identifier" = JStr e ->
  truthy (field login "password") = true ->
  exists resp w1 w2,
    run (register req_body)
        (mkWorld tbl (Normal u1 n1 :: Normal uuid n2 :: Normal u3 n3 :: senv)
                 (Resolved (JStr h) :: Resolved (JBool true) :: lenv) lg)
    = Some (Returned resp, w1)
    /\ status resp = 201%nat
    /\ run (authenticate login) w1
       = Some (Returned (mkResponse 200 (Some
                 (JObj [("message", JStr "Authentication successful");
                        ("userId", JStr uuid); ("username", JStr u);
                        ("email", JStr e); ("role", JStr "user")]))), w2)
    /\ In (BcryptCompare (field login "password") (JStr h)) (log w2).
Proof.
  intros Hu Hpu He Hpe Hp Hfree Hfresh Hident Hlp.
  assert (Hfree' : forall r, In r tbl -> r_username r <> u /\ r_email r <> e).
  { intros r Hin. destruct (Hfree r Hin). tauto. }
  rewrite (register_run_created req_body u e h tbl u1 n1 uuid n2 (Normal u3 n3 :: senv)
             (Resolved (JBool true) :: lenv) lg Hu Hpu He Hpe Hp Hfree' Hfresh).
  assert (Hid : exists i, field login "identifier" = JStr i /\ plain i = true
                          /\ (i = u \/ i = e)).
  { destruct Hident as [H | H]; eexists; (split; [exact H|]); auto. }
  destruct Hid as [i [Hi [Hpi Hue]]].
  assert (Hfound : List.filter (named i i) (tbl ++ [mkRow uuid u e h "user" n2 None])
                   = [mkRow uuid u e h "user" n2 None]).
  { rewrite filter_app. cbn [List.filter]. unfold named at 2. cbn [r_username r_email].
    rewrite (named_none i i tbl).
    - destruct Hue as [-> | ->]; rewrite String.eqb_refl; rewrite ?orb_true_r; reflexivity.
    - intros r Hin. destruct (Hfree r Hin) as [H1 [H2 [H3 H4]]].
      destruct Hue as [-> | ->]; split; assumption. }
  do 3 eexists. split; [reflexivity|]. split; [reflexivity|].
  rewrite (authenticate_run_match login i _ _ [] u3 n3 true senv lenv _ Hi Hpi Hlp Hfound).
  split; [reflexivity|]. cbn [log r_password_hash]. apply in_or_app. right. right. left.
  reflexivity.
Qed.

Lemma register_then_authenticate_witness :
  exists resp w1 w2,
    run (register (JObj [("username", JStr "authuser"); ("email", JStr "auth@example.com");
                         ("password", JStr "securepassword")]))
        (mkWorld [] [Normal "c1" "t1"; Normal "id1" "t2"; Normal "c3" "t3"]
                 [Resolved (JStr "$2b$10$stored"); Resolved (JBool true)] [])
    = Some (Returned resp, w1)
    /\ status resp = 201%nat
    /\ run (authenticate (JObj [("identifier", JStr "auth@example.com");
                                ("password", JStr "securepassword")])) w1
       = Some (Returned (mkResponse 200 (Some
                 (JObj [("message", JStr "Authentication successful");
                        ("userId", JStr "id1"); ("username", JStr "authuser");
                        ("email", JStr "auth@example.com"); ("role", JStr "user")]))), w2)
    /\ In (BcryptCompare (field (JObj [("identifier", JStr "auth@example.com");
                                       ("password", JStr "securepassword")]) "password")
                         (JStr "$2b$10$stored")) (log w2).
Proof.
  apply (register_then_authenticate _ _ "authuser" "auth@example.com" "$2b$10$stored" []);
    try reflexivity.
  - intros r [].
  - intros [].
  - right. reflexivity.
Defined.

(** ** Concurrent requests *)

Lemma advance_keeps_roles {A : Type} (i : nat) (threads threads' : list (prog A))
      (w w' : world) :
  Forall (issues keeps_roles) threads ->
  Forall valid_role (table w) ->
  advance i threads w = Some (threads', w') ->
  Forall (issues keeps_roles) threads' /\ Forall valid_role (table w').
Proof.
  intros Hth Ht. revert i threads' w'.
  induction Hth as [|p rest Hp Hrest IH]; intros i threads' w'; [destruct i; discriminate|].
  destruct i as [|j]; cbn [advance].
  - destruct p as [a|e|c k]; try discriminate.
    destruct (perform c w) as [[o w1]|] eqn:Hperf; [|discriminate].
    intros H. inversion H; subst. inversion Hp as [| |c' k' Hc Hk]; subst.
    split; [constructor; [apply Hk | exact Hrest]|].
    exact (perform_roles_valid _ _ _ _ Hc Ht Hperf).
  - destruct (advance j rest w) as [[rest' w1]|] eqn:Hadv.
    + intros H. assert (threads' = p :: rest' /\ w' = w1) as [-> ->].
      { destruct p; inversion H; auto. }
      destruct (IH j rest' w1 Hadv) as [Hr Hv]. split; [constructor; assumption | exact Hv].
    + destruct p; discriminate.
Qed.

(** X30. The roles stay valid under concurrency too: start any requests
    together on a table whose roles are ['user'] or ['admin'] and let their
    awaits settle in any order; at every point of every schedule the stored
    roles are still ['user'] or ['admin']. *)
Theorem roles_stay_valid_when_interleaved
        (url : jsval) (reqs : list request) (schedule : list nat)
        (w : world) (threads' : list (prog response)) (w' : world) :
  Forall valid_role (table w) ->
  interleave schedule (map (app url) reqs) w = Some (threads', w') ->
  Forall valid_role (table w').
Proof.
  intros Ht Hrun.
  assert (Hth : Forall (issues keeps_roles) (map (app url) reqs)).
  { apply Forall_forall. intros p Hin. apply in_map_iff in Hin.
    destruct Hin as [req [<- _]]. apply app_keeps_roles. }
  revert Hth Ht Hrun. generalize (map (app url) reqs) as threads. revert w.
  induction schedule as [|i schedule IH]; intros w threads Hth Ht; cbn [interleave].
  - intros H. inversion H; subst. exact Ht.
  - destruct (advance i threads w) as [[threads1 w1]|] eqn:Hadv; [|discriminate].
    destruct (advance_keeps_roles i threads threads1 w w1 Hth Ht Hadv) as [Hth1 Ht1].
    apply IH; assumption.
Qed.

Lemma roles_stay_valid_when_interleaved_witness :
  exists threads' w',
    interleave [0; 1; 0; 1; 0; 1]%nat
               (map (app JUndefined) [PostRegister race_first; PostRegister race_second])
               race_world
    = Some (threads', w')
    /\ Forall valid_role (table w').
Proof.
  do 2 eexists. split; [vm_compute; reflexivity|].
  refine (roles_stay_valid_when_interleaved JUndefined
            [PostRegister race_first; PostRegister race_second]
            [0; 1; 0; 1; 0; 1]%nat race_world _ _ _ ltac:(vm_compute; reflexivity)).
  constructor.
Defined.
